(** * parse_mbox.py: the message-content decoding pipeline

    A shallow embedding of [src/parse_mbox.py] and the properties of its
    specification.

    Python values are modelled as follows.
    - [str] is a list of code points ([pystr]); [bytes] is a list of
      [Byte.byte] ([pybytes]).
    - An exception is a value of [exn]; a call that may raise returns a
      [result].  The program has a single [try] (in [main]), so every other
      function simply propagates [Raise].
    - The standard library functions the program calls ([str.encode],
      [bytes.decode], [base64.b64decode], [quopri.decodestring],
      [str.lower]) are the operations of the class [PyRuntime]; the program
      is written once, for every runtime.  [CPython.runtime] is a reference
      instance on which concrete inputs are evaluated. *)

From Stdlib Require Import List Arith NArith ZArith Bool Ascii String Lia.
From Stdlib.Strings Require Import Byte.
Set Warnings "-register-all".
Import ListNotations.
Local Open Scope N_scope.


(** ** Python values *)

Definition pystr := list N.
Definition pybytes := list byte.

(** A string literal of the source, as code points. *)
Definition py (s : string) : pystr := map N_of_ascii (list_ascii_of_string s).

(** A bytes literal. *)
Definition pyb (s : string) : pybytes := list_byte_of_string s.

(** The text whose code points are the given (7-bit) bytes. *)
Definition ascii_text (b : pybytes) : pystr := map Byte.to_N b.

(** A header value as [msg[name]] hands it over: a [str] or, for a header
    that holds raw 8-bit bytes, an [email.header.Header] object, whose text
    has each such byte as a code point U+DC80..U+DCFF. *)
Inductive value : Type :=
| Str (s : pystr)
| Header (text : pystr).

(** [None] where Python has it (a missing header, a missing return). *)
Definition pyobj := option value.

Inductive exn : Type :=
| AttributeError      (* an attribute that None or a Header object lacks *)
| IndexError          (* list index out of range *)
| LookupError         (* unknown encoding *)
| UnicodeEncodeError
| UnicodeDecodeError
| BinasciiError       (* binascii.Error *)
| UnboundLocalError   (* a local variable read before it is assigned *)
| OSError.            (* a file that cannot be opened *)

Inductive result (A : Type) : Type :=
| Ok (a : A)
| Raise (e : exn).
Arguments Ok {A} a.
Arguments Raise {A} e.

Definition bind {A B} (r : result A) (k : A -> result B) : result B :=
  match r with
  | Ok a => k a
  | Raise e => Raise e
  end.

Declare Scope py_scope.
Delimit Scope py_scope with pyres.
Notation "x <- c ;; k" := (bind c (fun x => k))
  (at level 61, c at next level, right associativity) : py_scope.
Local Open Scope py_scope.

(** [xs[0]] and [xs[-1]]. *)
Definition index_first {A} (xs : list A) : result A :=
  match xs with
  | [] => Raise IndexError
  | x :: _ => Ok x
  end.

Fixpoint index_last {A} (xs : list A) : result A :=
  match xs with
  | [] => Raise IndexError
  | [x] => Ok x
  | _ :: xs' => index_last xs'
  end.

(** [[f(x) for x in xs]], stopping at the first exception. *)
Fixpoint map_result {A B} (f : A -> result B) (xs : list A) : result (list B) :=
  match xs with
  | [] => Ok []
  | x :: xs' => y <- f x ;; ys <- map_result f xs' ;; Ok (y :: ys)
  end.

(** ** String operations *)

Definition LF : N := 10.
Definition CR : N := 13.

Fixpoint str_eqb (a b : pystr) : bool :=
  match a, b with
  | [], [] => true
  | x :: a', y :: b' => (x =? y) && str_eqb a' b'
  | _, _ => false
  end.

(** [s.startswith(p)], returning what follows the prefix. *)
Fixpoint strip_prefix (p s : pystr) : option pystr :=
  match p, s with
  | [], _ => Some s
  | x :: p', y :: s' => if x =? y then strip_prefix p' s' else None
  | _ :: _, [] => None
  end.

Definition startswith (p s : pystr) : bool :=
  match strip_prefix p s with Some _ => true | None => false end.

(** [needle in s]. *)
Fixpoint contains (needle s : pystr) : bool :=
  startswith needle s ||
  match s with
  | [] => false
  | _ :: s' => contains needle s'
  end.

(** [x in xs] for a list of strings. *)
Definition str_in (x : pystr) (xs : list pystr) : bool :=
  existsb (str_eqb x) xs.

(** [s.replace(c, '')] for a one-character [c]. *)
Definition remove_char (c : N) (s : pystr) : pystr :=
  filter (fun x => negb (x =? c)) s.

(** [s.split(sep)] for a one-character [sep]. *)
Fixpoint split_on (sep : N) (cur : pystr) (s : pystr) : list pystr :=
  match s with
  | [] => [rev cur]
  | c :: s' =>
      if c =? sep then rev cur :: split_on sep [] s'
      else split_on sep (c :: cur) s'
  end.

Definition split_lines (s : pystr) : list pystr := split_on LF [] s.

(** The code points [str.strip()] removes: those with [str.isspace()]. *)
Definition isspace (c : N) : bool :=
  ((9 <=? c) && (c <=? 13)) || ((28 <=? c) && (c <=? 32)) ||
  (c =? 133) || (c =? 160) || (c =? 5760) ||
  ((8192 <=? c) && (c <=? 8202)) || (c =? 8232) || (c =? 8233) ||
  (c =? 8239) || (c =? 8287) || (c =? 12288).

Fixpoint lstrip (s : pystr) : pystr :=
  match s with
  | [] => []
  | c :: s' => if isspace c then lstrip s' else s
  end.

Definition strip (s : pystr) : pystr := rev (lstrip (rev (lstrip s))).

(** [len(s)]. *)
Definition len (s : pystr) : N := N.of_nat (List.length s).

(** [str(h)] of a [Header] object of unknown charset: each raw 8-bit byte
    is printed as U+FFFD. *)
Definition header_str (text : pystr) : pystr :=
  map (fun c => if (56448 <=? c) && (c <=? 56575) then 65533 else c) text.

(** [str(x)] of a header value, which is [None] when the header is absent. *)
Definition str_of (x : pyobj) : pystr :=
  match x with
  | Some (Str s) => s
  | Some (Header text) => header_str text
  | None => py "None"
  end.

(** [c.lower()] of an ASCII character. *)
Definition lower_char (c : N) : N :=
  if (65 <=? c) && (c <=? 90) then c + 32 else c.

(** ** The Python runtime the program calls into *)

Class PyRuntime : Type := {
  (** [text.encode(charset)] *)
  str_encode : pystr -> pystr -> result pybytes;
  (** [data.decode(charset)] *)
  bytes_decode : pystr -> pybytes -> result pystr;
  (** [base64.b64decode(data)] *)
  b64decode : pybytes -> result pybytes;
  (** [quopri.decodestring(data)] *)
  quopri_decodestring : pybytes -> result pybytes;
  (** [text.lower()] *)
  lower : pystr -> pystr;
  (** On ASCII text [lower] changes the letters A..Z and nothing else. *)
  lower_ascii :
    forall s, forallb (fun c => c <? 128) s = true -> lower s = map lower_char s
}.

(** [v.lower()]: a [Header] object has no attribute [lower]. *)
Definition value_lower {R : PyRuntime} (v : value) : result pystr :=
  match v with
  | Str s => Ok (lower s)
  | Header _ => Raise AttributeError
  end.

(** ** class Decoder *)

Module Decoder.
Section WithRuntime.
Context {R : PyRuntime}.

Record t : Type := {
  msg : pystr;
  charset : pystr;
  transfer_method : pystr;
  bynary : pybytes
}.

Definition _encode_charset (msg charset : pystr) : result pybytes :=
  str_encode charset msg.

Definition __init__ (msg charset transfer_method : pystr) : result t :=
  bynary <- _encode_charset msg charset ;;
  Ok {| msg := msg; charset := charset;
        transfer_method := transfer_method; bynary := bynary |}.

Definition _decode_with_base64 (self : t) : result pybytes :=
  b64decode (bynary self).

Definition _decode_with_quoted_printable (self : t) : result pybytes :=
  quopri_decodestring (bynary self).

(** Neither branch taken: the method falls off its end and returns [None]. *)
Definition _decode_with_transfer (self : t) : result (option pybytes) :=
  if str_eqb (transfer_method self) (py "base64") then
    b <- _decode_with_base64 self ;; Ok (Some b)
  else if str_eqb (transfer_method self) (py "quoted-printable") then
    b <- _decode_with_quoted_printable self ;; Ok (Some b)
  else Ok None.

(** [msg.decode(...)]: [None] has no attribute [decode]. *)
Definition _decode_charset (self : t) (msg : option pybytes) : result pystr :=
  match msg with
  | Some b => bytes_decode (charset self) b
  | None => Raise AttributeError
  end.

Definition call (self : t) : result pystr :=
  decoded_transfer <- _decode_with_transfer self ;;
  _decode_charset self decoded_transfer.

End WithRuntime.
End Decoder.

(** ** class EmailDecoder(Decoder) *)

Module EmailDecoder.
Section WithRuntime.
Context {R : PyRuntime}.

(** The pattern [..From:] at the start of [s]: two characters that are not a
    line feed (the pattern is compiled without DOTALL), then the token.
    Returns what follows the match. *)
Definition chained_email (s : pystr) : option pystr :=
  match s with
  | a :: b :: s' =>
      if (a =? LF) || (b =? LF) then None else strip_prefix (py "From:") s'
  | _ => None
  end.

(** [self.regex.split(text)]: the pieces between the leftmost, non-overlapping
    matches.  [skip] counts the characters of the current match still to
    pass over, [cur] holds the piece being read, reversed. *)
Fixpoint regex_split (skip : nat) (cur : pystr) (s : pystr) : list pystr :=
  match s with
  | [] => [rev cur]
  | c :: s' =>
      match skip with
      | S k => regex_split k cur s'
      | O =>
          match chained_email s with
          | Some _ => rev cur :: regex_split 6 [] s'
          | None => regex_split 0 (c :: cur) s'
          end
      end
  end.

Definition __init__ := @Decoder.__init__ R.

Definition first_of_text (decoded_text : pystr) : result pystr :=
  let text_wo_re := regex_split 0 [] decoded_text in
  first <- index_first text_wo_re ;;
  Ok (remove_char LF (remove_char CR first)).

Definition fetch_first_email (self : Decoder.t) : result pystr :=
  decoded_text <- Decoder.call self ;;
  first_of_text decoded_text.

End WithRuntime.
End EmailDecoder.

(** ** class SubjectDecoder(Decoder) *)

Module SubjectDecoder.
Section WithRuntime.
Context {R : PyRuntime}.

(** A match object of [self.regex]: [group(0)] and [group(1)]. *)
Record Match : Type := {
  group0 : pystr;
  group1 : pystr
}.

Definition QUESTION : N := 63.

(** One alternative [cs] of the group, followed by [\? . \?]; the dot takes
    any character but a line feed. *)
Definition after_charset (cs s : pystr) : option (Match * pystr) :=
  match strip_prefix cs s with
  | Some (q1 :: c :: q2 :: rest) =>
      if (q1 =? QUESTION) && negb (c =? LF) && (q2 =? QUESTION)
      then Some ({| group0 := py "=?" ++ cs ++ [q1; c; q2]; group1 := cs |}, rest)
      else None
  | _ => None
  end.

(** The pattern of [_set_regex] at the start of [s]:
    [\=\? (utf\-8|iso\-2022\-jp) \? . \?], compiled with VERBOSE only, hence
    case-sensitive.  Returns the match and what follows it. *)
Definition regex_match (s : pystr) : option (Match * pystr) :=
  match strip_prefix (py "=?") s with
  | Some s1 =>
      match after_charset (py "utf-8") s1 with
      | Some m => Some m
      | None => after_charset (py "iso-2022-jp") s1
      end
  | None => None
  end.

(** [self.regex.search(s)]: the leftmost match. *)
Fixpoint regex_search (s : pystr) : option Match :=
  match regex_match s with
  | Some (m, _) => Some m
  | None =>
      match s with
      | [] => None
      | _ :: s' => regex_search s'
      end
  end.

(** [self.regex.split(s)]: the pieces between the matches, each match
    contributing its group 1. *)
Fixpoint regex_split (skip : nat) (cur : pystr) (s : pystr) : list pystr :=
  match s with
  | [] => [rev cur]
  | c :: s' =>
      match skip with
      | S k => regex_split k cur s'
      | O =>
          match regex_match s with
          | Some (m, _) =>
              rev cur :: group1 m
                :: regex_split (List.length (group0 m) - 1) [] s'
          | None => regex_split 0 (c :: cur) s'
          end
      end
  end.

(** [s[-2]]. *)
Definition index_neg2 (s : pystr) : result N :=
  match rev s with
  | _ :: c :: _ => Ok c
  | _ => Raise IndexError
  end.

(** The dict [_identify_decode_method] returns. *)
Record encoding : Type := {
  transfer_method : pystr;
  charset : pystr;
  text : pystr
}.

Definition _is_required_to_decode (subject : pystr) : bool :=
  match regex_search subject with
  | Some _ => true
  | None => false
  end.

(** [search.group(1)] on [None] raises AttributeError. *)
Definition _identify_decode_method (line : pystr) : result encoding :=
  let line := strip line in
  match regex_search line with
  | None => Raise AttributeError
  | Some search =>
      let charset := group1 search in
      decoded_way_char <- index_neg2 (group0 search) ;;
      let transfer_method :=
        if decoded_way_char =? 66 (* 'B' *) then py "base64"
        else py "quoted-printable" in
      decodable_text <- index_last (regex_split 0 [] line) ;;
      Ok {| transfer_method := transfer_method; charset := charset;
            text := decodable_text |}
  end.

Definition _decode_line (obj : encoding) : result pystr :=
  self <- Decoder.__init__ (text obj) (charset obj) (transfer_method obj) ;;
  Decoder.call self.

(** The loop of [_decode_subject] over the lines. *)
Fixpoint decode_lines (lines : list pystr) : result (list pystr) :=
  match lines with
  | [] => Ok []
  | line :: lines' =>
      if len line <? 10 then decode_lines lines'
      else
        encoding <- _identify_decode_method line ;;
        decoded <- _decode_line encoding ;;
        decoded_subject <- decode_lines lines' ;;
        Ok (decoded :: decoded_subject)
  end.

Definition _decode_subject (subject : pystr) : result pystr :=
  let lines := split_lines subject in
  decoded_subject <- decode_lines lines ;;
  Ok (List.concat decoded_subject).

Definition call (subject : pystr) : result pystr :=
  if negb (_is_required_to_decode subject) then Ok subject
  else _decode_subject subject.

End WithRuntime.
End SubjectDecoder.

(** ** Messages

    What the program reads of an [email.message.Message]: six header fields,
    each missing, a [str], or a [Header] object when the header holds raw
    8-bit bytes; [get_content_type()], which is always a [str]; and
    [get_payload()], which is a string or, for a multipart message, a list.
    [_get_email_messages] also accepts plain lists and tuples among the
    parts. *)

Record Headers : Type := {
  Date : pyobj;
  From_ : pyobj;
  To : pyobj;
  Subject : pyobj;
  Content_Type : pyobj;
  Content_Transfer_Encoding : pyobj
}.

Inductive part : Type :=
| Part (h : Headers) (content_type : pystr) (payload : pystr + list part)
| Sequence (items : list part).

(** A message object: [mailbox.mboxMessage], or a part. *)
Record Message : Type := {
  headers : Headers;
  get_content_type : pystr;
  get_payload : pystr + list part
}.

Definition is_multipart (m : Message) : bool :=
  match get_payload m with
  | inl _ => false
  | inr _ => true
  end.

(** [msg.get(name, 'NA')]. *)
Definition get_or_NA (x : pyobj) : value :=
  match x with
  | Some v => v
  | None => Str (py "NA")
  end.

(** What [_read_email_text] receives: the bare payload string of a
    non-multipart message, or a non-multipart part. *)
Inductive leaf : Type :=
| BareStr (s : pystr)
| LeafMsg (m : Message).

(** A row of the output: keys in insertion order. *)
Definition dict := list (pystr * pyobj).

(** ** class GmailMboxMessage *)

Module GmailMboxMessage.
Section WithRuntime.
Context {R : PyRuntime}.

(** One iteration of the loop of [_get_email_messages]. *)
Fixpoint visit (msg : part) : list Message :=
  match msg with
  | Sequence items => flat_map visit items
  | Part h ct (inr parts) => flat_map visit parts
  | Part h ct (inl s) =>
      [{| headers := h; get_content_type := ct; get_payload := inl s |}]
  end.

Definition _get_email_messages (email_payload : list part) : list Message :=
  flat_map visit email_payload.

Definition _fetch_content_type (msg : leaf) : pystr :=
  match msg with
  | BareStr _ => py "NA"
  | LeafMsg m => get_content_type m
  end.

(** The first [charset.lower()] is called on what [msg.get] returned; once
    it has answered, [charset] is a [str] to the end. *)
Definition _fetch_charset (msg : leaf) : result pystr :=
  let charset :=
    match msg with
    | BareStr _ => Str (py "NA")
    | LeafMsg m => get_or_NA (Content_Type (headers m))
    end in
  match charset with
  | Header _ => Raise AttributeError
  | Str charset =>
      let charset :=
        if contains (py "utf-8") (lower charset) then py "utf-8" else charset in
      let charset :=
        if contains (py "iso-2022-jp") (lower charset) then py "iso-2022-jp"
        else charset in
      let charset :=
        if contains (py "iso-8859-2") (lower charset) then py "iso-8859-2"
        else charset in
      let charset :=
        if contains (py "us-ascii") (lower charset) then py "us-ascii"
        else charset in
      Ok charset
  end.

Definition _fetch_encoding_method (msg : leaf) : value :=
  match msg with
  | BareStr _ => Str (py "NA")
  | LeafMsg m => get_or_NA (Content_Transfer_Encoding (headers m))
  end.

(** [and] evaluates [encoded_way.lower()] only when the content type holds
    [text/plain]. *)
Definition _is_readable_text (content_type : pystr) (encoded_way : value)
    (charset : pystr) : result bool :=
  if contains (py "text/plain") (lower content_type) then
    lowered <- value_lower encoded_way ;;
    Ok (if str_in lowered [py "base64"; py "quoted-printable"]
           && str_in charset
                [py "utf-8"; py "iso-2022-jp"; py "iso-8859-2"; py "us-ascii"]
        then true else false)
  else Ok false.

(** [msg.get_payload()] of a leaf, as the string [EmailDecoder] encodes.
    A [str] has no [get_payload]; a list, which the walk never yields as a
    leaf, has no [encode]. *)
Definition leaf_payload (msg : leaf) : result pystr :=
  match msg with
  | BareStr _ => Raise AttributeError
  | LeafMsg m =>
      match get_payload m with
      | inl s => Ok s
      | inr _ => Raise AttributeError
      end
  end.

(** When the gate answers [True] it has lower-cased [encoding], which is
    then a [str]: the last branch is not reached. *)
Definition _create_readable_text (msg : leaf)
    (content_type : pystr) (encoding : value) (charset : pystr)
    : result pystr :=
  readable <- _is_readable_text content_type encoding charset ;;
  if readable then
    match encoding with
    | Str encoding =>
        payload <- leaf_payload msg ;;
        decoder <- EmailDecoder.__init__ payload charset encoding ;;
        EmailDecoder.fetch_first_email decoder
    | Header _ => Raise AttributeError
    end
  else Ok (py "NA").

Definition _read_email_text (msg : leaf)
    : result (pystr * pystr * value * pystr) :=
  let content_type := _fetch_content_type msg in
  let encoding := _fetch_encoding_method msg in
  charset <- _fetch_charset msg ;;
  msg_text <- _create_readable_text msg content_type encoding charset ;;
  Ok (content_type, charset, encoding, msg_text).

Definition _read_email_payload (email_data : Message)
    : result (list (pystr * pystr * value * pystr)) :=
  let email_messages :=
    match get_payload email_data with
    | inr email_payload => map LeafMsg (_get_email_messages email_payload)
    | inl email_payload => [BareStr email_payload]
    end in
  map_result _read_email_text email_messages.

(** The diagnostic [print] of the source is not part of the model. *)
Definition parse_email (email_data : Message) : result dict :=
  let email_date := Date (headers email_data) in
  let email_from := From_ (headers email_data) in
  let email_to := To (headers email_data) in
  email_subject <- SubjectDecoder.call (str_of (Subject (headers email_data))) ;;
  contents <- _read_email_payload email_data ;;
  content <- index_first contents ;;
  let '(content_type, charset, transfer, text) := content in
  Ok [ (py "Date", email_date); (py "From", email_from); (py "To", email_to);
       (py "Subject", Some (Str email_subject));
       (py "Content_type", Some (Str content_type));
       (py "Charset", Some (Str charset));
       (py "Transfer", Some transfer); (py "Text", Some (Str text)) ].

End WithRuntime.
End GmailMboxMessage.

(** ** class ExcelSheet

    The worksheet is the list of the [write(row, column, item)] calls it
    received, oldest first. *)

Module ExcelSheet.

Record t : Type := {
  worksheet : list (N * N * pyobj);
  content : dict;
  row : N
}.

Definition __init__ : t := {| worksheet := []; content := []; row := 0 |}.

Definition _set_content (self : t) (content : dict) : t :=
  {| worksheet := worksheet self; content := content; row := row self |}.

Definition _fetch_titles (self : t) : list pystr := map fst (content self).

(** The cells of one row, columns counted from [column]. *)
Fixpoint write_row (row column : N) (items : list pyobj) : list (N * N * pyobj) :=
  match items with
  | [] => []
  | item :: items' => (row, column, item) :: write_row row (column + 1) items'
  end.

Definition _write_title (self : t) : t :=
  let titles := _fetch_titles self in
  {| worksheet := worksheet self ++ write_row (row self) 0 (map (fun title => Some (Str title)) titles);
     content := content self; row := row self |}.

Definition _write_content (self : t) : t :=
  {| worksheet := worksheet self ++ write_row (row self) 0 (map snd (content self));
     content := content self; row := row self + 1 |}.

Definition call (self : t) (content : dict) : t :=
  let self := _set_content self content in
  let self :=
    if row self =? 0 then
      let self := _write_title self in
      {| worksheet := worksheet self; content := ExcelSheet.content self;
         row := row self + 1 |}
    else self in
  _write_content self.

End ExcelSheet.

(** ** main

    [args] is read through the two calls that open the files: what
    [mailbox.mbox(args.i)] returns, the mailbox as the list of its
    messages, or raises, and what [xlsxwriter.Workbook(args.o)] and
    [workbook.add_worksheet()] do.  The state a run leaves behind is the
    spreadsheet, the log, the number of [workbook.close()] calls, and the
    exception [main] itself ends with, if any. *)

Inductive log_record : Type :=
| Info (idx num_entries : N)     (* 'Parsing email idx of num_entries' *)
| Error (e : exn).               (* error(str(e)) and the traceback *)

Record world : Type := {
  spreadsheet : ExcelSheet.t;
  log : list log_record;
  closed : N;
  raised : option exn
}.

Record args : Type := {
  mailbox_mbox : result (list Message);    (* mailbox.mbox(args.i) *)
  xlsxwriter_Workbook : result unit;       (* xlsxwriter.Workbook(args.o) *)
  add_worksheet : result unit              (* workbook.add_worksheet() *)
}.

(** The arguments of a run whose files open: the mailbox holds [mbox]. *)
Definition opened (mbox : list Message) : args :=
  {| mailbox_mbox := Ok mbox; xlsxwriter_Workbook := Ok tt;
     add_worksheet := Ok tt |}.

Definition info (r : log_record) (w : world) : world :=
  {| spreadsheet := spreadsheet w; log := log w ++ [r]; closed := closed w;
     raised := raised w |}.

Definition workbook_close (w : world) : world :=
  {| spreadsheet := spreadsheet w; log := log w; closed := closed w + 1;
     raised := raised w |}.

Definition spreadsheet_call (content : dict) (w : world) : world :=
  {| spreadsheet := ExcelSheet.call (spreadsheet w) content;
     log := log w; closed := closed w; raised := raised w |}.

(** [finally: workbook.close()] when [workbook] was never assigned: the name
    is unbound, the statement raises and nothing is closed. *)
Definition workbook_unbound (w : world) : world :=
  {| spreadsheet := spreadsheet w; log := log w; closed := closed w;
     raised := Some UnboundLocalError |}.

Section Main.
Context {R : PyRuntime}.

(** The [for] loop of [main] from index [idx] on: the state it leaves and the
    exception that ended it, if any.  A mailbox yields [mboxMessage] objects
    only, so the type check of [GmailMboxMessage.__init__] passes. *)
Fixpoint for_loop (num_entries idx : N) (mbox_obj : list Message) (w : world)
    : world * option exn :=
  match mbox_obj with
  | [] => (w, None)
  | email_obj :: rest =>
      match GmailMboxMessage.parse_email email_obj with
      | Raise e => (w, Some e)
      | Ok content =>
          let w := spreadsheet_call content w in
          let w := info (Info (idx + 1) num_entries) w in
          for_loop num_entries (idx + 1) rest w
      end
  end.

Definition main (a : args) : world :=
  let w := {| spreadsheet := ExcelSheet.__init__; log := []; closed := 0;
              raised := None |} in
  (* try *)
  match mailbox_mbox a with
  | Raise e =>
      (* except Exception as e; finally *)
      workbook_unbound (info (Error e) w)
  | Ok mbox_obj =>
      match xlsxwriter_Workbook a with
      | Raise e => workbook_unbound (info (Error e) w)
      | Ok _ =>
          match add_worksheet a with
          | Raise e => workbook_close (info (Error e) w)
          | Ok _ =>
              let num_entries := N.of_nat (List.length mbox_obj) in
              let '(w, raised) := for_loop num_entries 0 mbox_obj w in
              (* except Exception as e *)
              let w :=
                match raised with
                | Some e => info (Error e) w
                | None => w
                end in
              (* finally *)
              workbook_close w
          end
      end
  end.

End Main.

(** ** The reference runtime

    The library functions of CPython the program reaches, on the inputs the
    program can hand them: the four charsets admitted by
    [_is_readable_text] and the regex of [SubjectDecoder], base64 and
    quoted-printable.  iso-2022-jp has its three character sets, ASCII,
    JIS X 0201 Roman and JIS X 0208, and the escape sequences between them.
    One part of CPython is not reproduced: the case tables beyond ASCII
    ([lower] leaves other code points as they are). *)

Module CPython.

Definition byte_of_N (n : N) : byte :=
  match Byte.of_N n with
  | Some b => b
  | None => x00
  end.

Definition ESC : N := 27.

(** *** Charsets *)

(** utf-8 *)

Definition utf8_encode_char (c : N) : result pybytes :=
  if c <? 128 then Ok [byte_of_N c]
  else if c <? 2048 then
    Ok [byte_of_N (192 + c / 64); byte_of_N (128 + c mod 64)]
  else if (55296 <=? c) && (c <=? 57343) then Raise UnicodeEncodeError
  else if c <? 65536 then
    Ok [byte_of_N (224 + c / 4096); byte_of_N (128 + (c / 64) mod 64);
        byte_of_N (128 + c mod 64)]
  else if c <? 1114112 then
    Ok [byte_of_N (240 + c / 262144); byte_of_N (128 + (c / 4096) mod 64);
        byte_of_N (128 + (c / 64) mod 64); byte_of_N (128 + c mod 64)]
  else Raise UnicodeEncodeError.

Fixpoint encode_chars (f : N -> result pybytes) (s : pystr) : result pybytes :=
  match s with
  | [] => Ok []
  | c :: s' => b <- f c ;; bs <- encode_chars f s' ;; Ok (b ++ bs)
  end.

Definition utf8_encode : pystr -> result pybytes := encode_chars utf8_encode_char.

(** The payload of a continuation byte [10xxxxxx]. *)
Definition continuation (b : byte) : option N :=
  let n := Byte.to_N b in
  if (128 <=? n) && (n <? 192) then Some (n - 128) else None.

Fixpoint utf8_decode (d : pybytes) : result pystr :=
  match d with
  | [] => Ok []
  | b1 :: d1 =>
      let n1 := Byte.to_N b1 in
      if n1 <? 128 then s <- utf8_decode d1 ;; Ok (n1 :: s)
      else if n1 <? 192 then Raise UnicodeDecodeError
      else if n1 <? 224 then
        match d1 with
        | b2 :: d2 =>
            match continuation b2 with
            | Some c2 =>
                let c := (n1 - 192) * 64 + c2 in
                if c <? 128 then Raise UnicodeDecodeError
                else s <- utf8_decode d2 ;; Ok (c :: s)
            | None => Raise UnicodeDecodeError
            end
        | _ => Raise UnicodeDecodeError
        end
      else if n1 <? 240 then
        match d1 with
        | b2 :: b3 :: d3 =>
            match continuation b2, continuation b3 with
            | Some c2, Some c3 =>
                let c := (n1 - 224) * 4096 + c2 * 64 + c3 in
                if (c <? 2048) || ((55296 <=? c) && (c <=? 57343))
                then Raise UnicodeDecodeError
                else s <- utf8_decode d3 ;; Ok (c :: s)
            | _, _ => Raise UnicodeDecodeError
            end
        | _ => Raise UnicodeDecodeError
        end
      else if n1 <? 248 then
        match d1 with
        | b2 :: b3 :: b4 :: d4 =>
            match continuation b2, continuation b3, continuation b4 with
            | Some c2, Some c3, Some c4 =>
                let c := (n1 - 240) * 262144 + c2 * 4096 + c3 * 64 + c4 in
                if (c <? 65536) || (1114112 <=? c)
                then Raise UnicodeDecodeError
                else s <- utf8_decode d4 ;; Ok (c :: s)
            | _, _, _ => Raise UnicodeDecodeError
            end
        | _ => Raise UnicodeDecodeError
        end
      else Raise UnicodeDecodeError
  end.

(** us-ascii *)

Definition ascii_encode_char (c : N) : result pybytes :=
  if c <? 128 then Ok [byte_of_N c] else Raise UnicodeEncodeError.

Definition ascii_encode : pystr -> result pybytes := encode_chars ascii_encode_char.

Fixpoint decode_bytes (f : byte -> result N) (d : pybytes) : result pystr :=
  match d with
  | [] => Ok []
  | b :: d' => c <- f b ;; s <- decode_bytes f d' ;; Ok (c :: s)
  end.

Definition ascii_decode_byte (b : byte) : result N :=
  if Byte.to_N b <? 128 then Ok (Byte.to_N b) else Raise UnicodeDecodeError.

Definition ascii_decode : pybytes -> result pystr := decode_bytes ascii_decode_byte.

(** iso-8859-2: the code points of the bytes A0..FF; the bytes below A0 stand
    for themselves. *)

Definition latin2_high : list N :=
  [ 160; 260; 728; 321; 164; 317; 346; 167; 168; 352; 350; 356; 377; 173; 381; 379;
    176; 261; 731; 322; 180; 318; 347; 711; 184; 353; 351; 357; 378; 733; 382; 380;
    340; 193; 194; 258; 196; 313; 262; 199; 268; 201; 280; 203; 282; 205; 206; 270;
    272; 323; 327; 211; 212; 336; 214; 215; 344; 366; 218; 368; 220; 221; 354; 223;
    341; 225; 226; 259; 228; 314; 263; 231; 269; 233; 281; 235; 283; 237; 238; 271;
    273; 324; 328; 243; 244; 337; 246; 247; 345; 367; 250; 369; 252; 253; 355; 729 ].

Definition latin2_decode_N (n : N) : N :=
  if n <? 160 then n else nth (N.to_nat (n - 160)) latin2_high 0.

Definition latin2_decode_byte (b : byte) : result N :=
  Ok (latin2_decode_N (Byte.to_N b)).

Definition latin2_decode : pybytes -> result pystr := decode_bytes latin2_decode_byte.

(** The position of [c] in [xs], counted from [i]. *)
Fixpoint index_of (c : N) (xs : list N) (i : N) : option N :=
  match xs with
  | [] => None
  | x :: xs' => if x =? c then Some i else index_of c xs' (i + 1)
  end.

Definition latin2_encode_char (c : N) : result pybytes :=
  if c <? 160 then Ok [byte_of_N c]
  else
    match index_of c latin2_high 160 with
    | Some n => Ok [byte_of_N n]
    | None => Raise UnicodeEncodeError
    end.

Definition latin2_encode : pystr -> result pybytes := encode_chars latin2_encode_char.

(** The characters of JIS X 0208, 94 rows of 94 cells, as the codec of
    CPython maps them; 0 where a cell has no character. *)
Definition jisx0208 : list N :=
  [
    12288; 12289; 12290; 65292; 65294; 12539; 65306; 65307; 65311; 65281; 12443; 12444; 180; 65344; 168; 65342;
    65507; 65343; 12541; 12542; 12445; 12446; 12291; 20189; 12293; 12294; 12295; 12540; 8213; 8208; 65295; 65340;
    12316; 8214; 65372; 8230; 8229; 8216; 8217; 8220; 8221; 65288; 65289; 12308; 12309; 65339; 65341; 65371;
    65373; 12296; 12297; 12298; 12299; 12300; 12301; 12302; 12303; 12304; 12305; 65291; 8722; 177; 215; 247;
    65309; 8800; 65308; 65310; 8806; 8807; 8734; 8756; 9794; 9792; 176; 8242; 8243; 8451; 65509; 65284;
    162; 163; 65285; 65283; 65286; 65290; 65312; 167; 9734; 9733; 9675; 9679; 9678; 9671; 9670; 9633;
    9632; 9651; 9650; 9661; 9660; 8251; 12306; 8594; 8592; 8593; 8595; 12307; 0; 0; 0; 0;
    0; 0; 0; 0; 0; 0; 0; 8712; 8715; 8838; 8839; 8834; 8835; 8746; 8745; 0;
    0; 0; 0; 0; 0; 0; 0; 8743; 8744; 172; 8658; 8660; 8704; 8707; 0; 0;
    0; 0; 0; 0; 0; 0; 0; 0; 0; 8736; 8869; 8978; 8706; 8711; 8801; 8786;
    8810; 8811; 8730; 8765; 8733; 8757; 8747; 8748; 0; 0; 0; 0; 0; 0; 0; 8491;
    8240; 9839; 9837; 9834; 8224; 8225; 182; 0; 0; 0; 0; 9711; 0; 0; 0; 0;
    0; 0; 0; 0; 0; 0; 0; 0; 0; 0; 0; 65296; 65297; 65298; 65299; 65300;
    65301; 65302; 65303; 65304; 65305; 0; 0; 0; 0; 0; 0; 0; 65313; 65314; 65315; 65316;
    65317; 65318; 65319; 65320; 65321; 65322; 65323; 65324; 65325; 65326; 65327; 65328; 65329; 65330; 65331; 65332;
    65333; 65334; 65335; 65336; 65337; 65338; 0; 0; 0; 0; 0; 0; 65345; 65346; 65347; 65348;
    65349; 65350; 65351; 65352; 65353; 65354; 65355; 65356; 65357; 65358; 65359; 65360; 65361; 65362; 65363; 65364;
    65365; 65366; 65367; 65368; 65369; 65370; 0; 0; 0; 0; 12353; 12354; 12355; 12356; 12357; 12358;
    12359; 12360; 12361; 12362; 12363; 12364; 12365; 12366; 12367; 12368; 12369; 12370; 12371; 12372; 12373; 12374;
    12375; 12376; 12377; 12378; 12379; 12380; 12381; 12382; 12383; 12384; 12385; 12386; 12387; 12388; 12389; 12390;
    12391; 12392; 12393; 12394; 12395; 12396; 12397; 12398; 12399; 12400; 12401; 12402; 12403; 12404; 12405; 12406;
    12407; 12408; 12409; 12410; 12411; 12412; 12413; 12414; 12415; 12416; 12417; 12418; 12419; 12420; 12421; 12422;
    12423; 12424; 12425; 12426; 12427; 12428; 12429; 12430; 12431; 12432; 12433; 12434; 12435; 0; 0; 0;
    0; 0; 0; 0; 0; 0; 0; 0; 12449; 12450; 12451; 12452; 12453; 12454; 12455; 12456;
    12457; 12458; 12459; 12460; 12461; 12462; 12463; 12464; 12465; 12466; 12467; 12468; 12469; 12470; 12471; 12472;
    12473; 12474; 12475; 12476; 12477; 12478; 12479; 12480; 12481; 12482; 12483; 12484; 12485; 12486; 12487; 12488;
    12489; 12490; 12491; 12492; 12493; 12494; 12495; 12496; 12497; 12498; 12499; 12500; 12501; 12502; 12503; 12504;
    12505; 12506; 12507; 12508; 12509; 12510; 12511; 12512; 12513; 12514; 12515; 12516; 12517; 12518; 12519; 12520;
    12521; 12522; 12523; 12524; 12525; 12526; 12527; 12528; 12529; 12530; 12531; 12532; 12533; 12534; 0; 0;
    0; 0; 0; 0; 0; 0; 913; 914; 915; 916; 917; 918; 919; 920; 921; 922;
    923; 924; 925; 926; 927; 928; 929; 931; 932; 933; 934; 935; 936; 937; 0; 0;
    0; 0; 0; 0; 0; 0; 945; 946; 947; 948; 949; 950; 951; 952; 953; 954;
    955; 956; 957; 958; 959; 960; 961; 963; 964; 965; 966; 967; 968; 969; 0; 0;
    0; 0; 0; 0; 0; 0; 0; 0; 0; 0; 0; 0; 0; 0; 0; 0;
    0; 0; 0; 0; 0; 0; 0; 0; 0; 0; 0; 0; 0; 0; 0; 0;
    0; 0; 0; 0; 1040; 1041; 1042; 1043; 1044; 1045; 1025; 1046; 1047; 1048; 1049; 1050;
    1051; 1052; 1053; 1054; 1055; 1056; 1057; 1058; 1059; 1060; 1061; 1062; 1063; 1064; 1065; 1066;
    1067; 1068; 1069; 1070; 1071; 0; 0; 0; 0; 0; 0; 0; 0; 0; 0; 0;
    0; 0; 0; 0; 1072; 1073; 1074; 1075; 1076; 1077; 1105; 1078; 1079; 1080; 1081; 1082;
    1083; 1084; 1085; 1086; 1087; 1088; 1089; 1090; 1091; 1092; 1093; 1094; 1095; 1096; 1097; 1098;
    1099; 1100; 1101; 1102; 1103; 0; 0; 0; 0; 0; 0; 0; 0; 0; 0; 0;
    0; 0; 9472; 9474; 9484; 9488; 9496; 9492; 9500; 9516; 9508; 9524; 9532; 9473; 9475; 9487;
    9491; 9499; 9495; 9507; 9523; 9515; 9531; 9547; 9504; 9519; 9512; 9527; 9535; 9501; 9520; 9509;
    9528; 9538; 0; 0; 0; 0; 0; 0; 0; 0; 0; 0; 0; 0; 0; 0;
    0; 0; 0; 0; 0; 0; 0; 0; 0; 0; 0; 0; 0; 0; 0; 0;
    0; 0; 0; 0; 0; 0; 0; 0; 0; 0; 0; 0; 0; 0; 0; 0;
    0; 0; 0; 0; 0; 0; 0; 0; 0; 0; 0; 0; 0; 0; 0; 0;
    0; 0; 0; 0; 0; 0; 0; 0; 0; 0; 0; 0; 0; 0; 0; 0;
    0; 0; 0; 0; 0; 0; 0; 0; 0; 0; 0; 0; 0; 0; 0; 0;
    0; 0; 0; 0; 0; 0; 0; 0; 0; 0; 0; 0; 0; 0; 0; 0;
    0; 0; 0; 0; 0; 0; 0; 0; 0; 0; 0; 0; 0; 0; 0; 0;
    0; 0; 0; 0; 0; 0; 0; 0; 0; 0; 0; 0; 0; 0; 0; 0;
    0; 0; 0; 0; 0; 0; 0; 0; 0; 0; 0; 0; 0; 0; 0; 0;
    0; 0; 0; 0; 0; 0; 0; 0; 0; 0; 0; 0; 0; 0; 0; 0;
    0; 0; 0; 0; 0; 0; 0; 0; 0; 0; 0; 0; 0; 0; 0; 0;
    0; 0; 0; 0; 0; 0; 0; 0; 0; 0; 0; 0; 0; 0; 0; 0;
    0; 0; 0; 0; 0; 0; 0; 0; 0; 0; 0; 0; 0; 0; 0; 0;
    0; 0; 0; 0; 0; 0; 0; 0; 0; 0; 0; 0; 0; 0; 0; 0;
    0; 0; 0; 0; 0; 0; 0; 0; 0; 0; 0; 0; 0; 0; 0; 0;
    0; 0; 0; 0; 0; 0; 0; 0; 0; 0; 0; 0; 0; 0; 0; 0;
    0; 0; 0; 0; 0; 0; 0; 0; 0; 0; 0; 0; 0; 0; 0; 0;
    0; 0; 0; 0; 0; 0; 0; 0; 0; 0; 0; 0; 0; 0; 0; 0;
    0; 0; 0; 0; 0; 0; 0; 0; 0; 0; 0; 0; 0; 0; 0; 0;
    0; 0; 0; 0; 0; 0; 0; 0; 0; 0; 0; 0; 0; 0; 0; 0;
    0; 0; 0; 0; 0; 0; 0; 0; 0; 0; 0; 0; 0; 0; 0; 0;
    0; 0; 0; 0; 0; 0; 0; 0; 0; 0; 0; 0; 0; 0; 0; 0;
    0; 0; 0; 0; 0; 0; 0; 0; 0; 0; 0; 0; 0; 0; 0; 0;
    0; 0; 0; 0; 0; 0; 0; 0; 0; 0; 0; 0; 0; 0; 0; 0;
    0; 0; 0; 0; 0; 0; 0; 0; 0; 0; 0; 0; 0; 0; 0; 0;
    0; 0; 0; 0; 0; 0; 0; 0; 0; 0; 0; 0; 0; 0; 0; 0;
    0; 0; 0; 0; 0; 0; 0; 0; 0; 0; 0; 0; 0; 0; 0; 0;
    0; 0; 0; 0; 0; 0; 0; 0; 0; 0; 0; 0; 0; 0; 0; 0;
    0; 0; 0; 0; 0; 0; 0; 0; 0; 0; 0; 0; 0; 0; 0; 0;
    0; 0; 0; 0; 0; 0; 0; 0; 0; 0; 0; 0; 0; 0; 0; 0;
    0; 0; 0; 0; 0; 0; 0; 0; 0; 0; 0; 0; 0; 0; 0; 0;
    0; 0; 0; 0; 0; 0; 0; 0; 0; 0; 0; 0; 0; 0; 0; 0;
    0; 0; 0; 0; 0; 0; 0; 0; 0; 0; 0; 0; 0; 0; 0; 0;
    0; 0; 0; 0; 0; 0; 0; 0; 0; 0; 0; 0; 0; 0; 0; 0;
    0; 0; 0; 0; 0; 0; 0; 0; 0; 0; 0; 0; 0; 0; 0; 0;
    0; 0; 0; 0; 0; 0; 0; 0; 0; 0; 0; 0; 0; 0; 0; 0;
    0; 0; 0; 0; 0; 0; 0; 0; 0; 0; 0; 0; 0; 0; 0; 0;
    0; 0; 0; 0; 0; 0; 0; 0; 0; 0; 0; 0; 0; 0; 0; 0;
    0; 0; 0; 0; 0; 0; 0; 0; 0; 0; 0; 0; 0; 0; 0; 0;
    0; 0; 0; 0; 0; 0; 0; 0; 0; 0; 0; 0; 0; 0; 0; 0;
    0; 0; 0; 0; 0; 0; 0; 0; 0; 0; 0; 0; 0; 0; 0; 0;
    0; 0; 0; 0; 0; 0; 0; 0; 0; 0; 0; 0; 0; 0; 0; 0;
    0; 0; 0; 0; 0; 0; 0; 0; 0; 0; 0; 0; 0; 0; 0; 0;
    0; 0; 0; 0; 0; 0; 0; 0; 0; 0; 0; 0; 0; 0; 0; 0;
    0; 0; 20124; 21782; 23043; 38463; 21696; 24859; 25384; 23030; 36898; 33909; 33564; 31312; 24746; 25569;
    28197; 26093; 33894; 33446; 39925; 26771; 22311; 26017; 25201; 23451; 22992; 34427; 39156; 32098; 32190; 39822;
    25110; 31903; 34999; 23433; 24245; 25353; 26263; 26696; 38343; 38797; 26447; 20197; 20234; 20301; 20381; 20553;
    22258; 22839; 22996; 23041; 23561; 24799; 24847; 24944; 26131; 26885; 28858; 30031; 30064; 31227; 32173; 32239;
    32963; 33806; 34915; 35586; 36949; 36986; 21307; 20117; 20133; 22495; 32946; 37057; 30959; 19968; 22769; 28322;
    36920; 31282; 33576; 33419; 39983; 20801; 21360; 21693; 21729; 22240; 23035; 24341; 39154; 28139; 32996; 34093;
    38498; 38512; 38560; 38907; 21515; 21491; 23431; 28879; 32701; 36802; 38632; 21359; 40284; 31418; 19985; 30867;
    33276; 28198; 22040; 21764; 27421; 34074; 39995; 23013; 21417; 28006; 29916; 38287; 22082; 20113; 36939; 38642;
    33615; 39180; 21473; 21942; 23344; 24433; 26144; 26355; 26628; 27704; 27891; 27945; 29787; 30408; 31310; 38964;
    33521; 34907; 35424; 37613; 28082; 30123; 30410; 39365; 24742; 35585; 36234; 38322; 27022; 21421; 20870; 22290;
    22576; 22852; 23476; 24310; 24616; 25513; 25588; 27839; 28436; 28814; 28948; 29017; 29141; 29503; 32257; 33398;
    33489; 34199; 36960; 37467; 40219; 22633; 26044; 27738; 29989; 20985; 22830; 22885; 24448; 24540; 25276; 26106;
    27178; 27431; 27572; 29579; 32705; 35158; 40236; 40206; 40644; 23713; 27798; 33659; 20740; 23627; 25014; 33222;
    26742; 29281; 20057; 20474; 21368; 24681; 28201; 31311; 38899; 19979; 21270; 20206; 20309; 20285; 20385; 20339;
    21152; 21487; 22025; 22799; 23233; 23478; 23521; 31185; 26247; 26524; 26550; 27468; 27827; 28779; 29634; 31117;
    31166; 31292; 31623; 33457; 33499; 33540; 33655; 33775; 33747; 34662; 35506; 22057; 36008; 36838; 36942; 38686;
    34442; 20420; 23784; 25105; 29273; 30011; 33253; 33469; 34558; 36032; 38597; 39187; 39381; 20171; 20250; 35299;
    22238; 22602; 22730; 24315; 24555; 24618; 24724; 24674; 25040; 25106; 25296; 25913; 39745; 26214; 26800; 28023;
    28784; 30028; 30342; 32117; 33445; 34809; 38283; 38542; 35997; 20977; 21182; 22806; 21683; 23475; 23830; 24936;
    27010; 28079; 30861; 33995; 34903; 35442; 37799; 39608; 28012; 39336; 34521; 22435; 26623; 34510; 37390; 21123;
    22151; 21508; 24275; 25313; 25785; 26684; 26680; 27579; 29554; 30906; 31339; 35226; 35282; 36203; 36611; 37101;
    38307; 38548; 38761; 23398; 23731; 27005; 38989; 38990; 25499; 31520; 27179; 27263; 26806; 39949; 28511; 21106;
    21917; 24688; 25324; 27963; 28167; 28369; 33883; 35088; 36676; 19988; 39993; 21494; 26907; 27194; 38788; 26666;
    20828; 31427; 33970; 37340; 37772; 22107; 40232; 26658; 33541; 33841; 31909; 21000; 33477; 29926; 20094; 20355;
    20896; 23506; 21002; 21208; 21223; 24059; 21914; 22570; 23014; 23436; 23448; 23515; 24178; 24185; 24739; 24863;
    24931; 25022; 25563; 25954; 26577; 26707; 26874; 27454; 27475; 27735; 28450; 28567; 28485; 29872; 29976; 30435;
    30475; 31487; 31649; 31777; 32233; 32566; 32752; 32925; 33382; 33694; 35251; 35532; 36011; 36996; 37969; 38291;
    38289; 38306; 38501; 38867; 39208; 33304; 20024; 21547; 23736; 24012; 29609; 30284; 30524; 23721; 32747; 36107;
    38593; 38929; 38996; 39000; 20225; 20238; 21361; 21916; 22120; 22522; 22855; 23305; 23492; 23696; 24076; 24190;
    24524; 25582; 26426; 26071; 26082; 26399; 26827; 26820; 27231; 24112; 27589; 27671; 27773; 30079; 31048; 23395;
    31232; 32000; 24509; 35215; 35352; 36020; 36215; 36556; 36637; 39138; 39438; 39740; 20096; 20605; 20736; 22931;
    23452; 25135; 25216; 25836; 27450; 29344; 30097; 31047; 32681; 34811; 35516; 35696; 25516; 33738; 38816; 21513;
    21507; 21931; 26708; 27224; 35440; 30759; 26485; 40653; 21364; 23458; 33050; 34384; 36870; 19992; 20037; 20167;
    20241; 21450; 21560; 23470; 24339; 24613; 25937; 26429; 27714; 27762; 27875; 28792; 29699; 31350; 31406; 31496;
    32026; 31998; 32102; 26087; 29275; 21435; 23621; 24040; 25298; 25312; 25369; 28192; 34394; 35377; 36317; 37624;
    28417; 31142; 39770; 20136; 20139; 20140; 20379; 20384; 20689; 20807; 31478; 20849; 20982; 21332; 21281; 21375;
    21483; 21932; 22659; 23777; 24375; 24394; 24623; 24656; 24685; 25375; 25945; 27211; 27841; 29378; 29421; 30703;
    33016; 33029; 33288; 34126; 37111; 37857; 38911; 39255; 39514; 20208; 20957; 23597; 26241; 26989; 23616; 26354;
    26997; 29577; 26704; 31873; 20677; 21220; 22343; 24062; 37670; 26020; 27427; 27453; 29748; 31105; 31165; 31563;
    32202; 33465; 33740; 34943; 35167; 35641; 36817; 37329; 21535; 37504; 20061; 20534; 21477; 21306; 29399; 29590;
    30697; 33510; 36527; 39366; 39368; 39378; 20855; 24858; 34398; 21936; 31354; 20598; 23507; 36935; 38533; 20018;
    27355; 37351; 23633; 23624; 25496; 31391; 27795; 38772; 36705; 31402; 29066; 38536; 31874; 26647; 32368; 26705;
    37740; 21234; 21531; 34219; 35347; 32676; 36557; 37089; 21350; 34952; 31041; 20418; 20670; 21009; 20804; 21843;
    22317; 29674; 22411; 22865; 24418; 24452; 24693; 24950; 24935; 25001; 25522; 25658; 25964; 26223; 26690; 28179;
    30054; 31293; 31995; 32076; 32153; 32331; 32619; 33550; 33610; 34509; 35336; 35427; 35686; 36605; 38938; 40335;
    33464; 36814; 39912; 21127; 25119; 25731; 28608; 38553; 26689; 20625; 27424; 27770; 28500; 31348; 32080; 34880;
    35363; 26376; 20214; 20537; 20518; 20581; 20860; 21048; 21091; 21927; 22287; 22533; 23244; 24314; 25010; 25080;
    25331; 25458; 26908; 27177; 29309; 29356; 29486; 30740; 30831; 32121; 30476; 32937; 35211; 35609; 36066; 36562;
    36963; 37749; 38522; 38997; 39443; 40568; 20803; 21407; 21427; 24187; 24358; 28187; 28304; 29572; 29694; 32067;
    33335; 35328; 35578; 38480; 20046; 20491; 21476; 21628; 22266; 22993; 23396; 24049; 24235; 24359; 25144; 25925;
    26543; 28246; 29392; 31946; 34996; 32929; 32993; 33776; 34382; 35463; 36328; 37431; 38599; 39015; 40723; 20116;
    20114; 20237; 21320; 21577; 21566; 23087; 24460; 24481; 24735; 26791; 27278; 29786; 30849; 35486; 35492; 35703;
    37264; 20062; 39881; 20132; 20348; 20399; 20505; 20502; 20809; 20844; 21151; 21177; 21246; 21402; 21475; 21521;
    21518; 21897; 22353; 22434; 22909; 23380; 23389; 23439; 24037; 24039; 24055; 24184; 24195; 24218; 24247; 24344;
    24658; 24908; 25239; 25304; 25511; 25915; 26114; 26179; 26356; 26477; 26657; 26775; 27083; 27743; 27946; 28009;
    28207; 28317; 30002; 30343; 30828; 31295; 31968; 32005; 32024; 32094; 32177; 32789; 32771; 32943; 32945; 33108;
    33167; 33322; 33618; 34892; 34913; 35611; 36002; 36092; 37066; 37237; 37489; 30783; 37628; 38308; 38477; 38917;
    39321; 39640; 40251; 21083; 21163; 21495; 21512; 22741; 25335; 28640; 35946; 36703; 40633; 20811; 21051; 21578;
    22269; 31296; 37239; 40288; 40658; 29508; 28425; 33136; 29969; 24573; 24794; 39592; 29403; 36796; 27492; 38915;
    20170; 22256; 22372; 22718; 23130; 24680; 25031; 26127; 26118; 26681; 26801; 28151; 30165; 32058; 33390; 39746;
    20123; 20304; 21449; 21766; 23919; 24038; 24046; 26619; 27801; 29811; 30722; 35408; 37782; 35039; 22352; 24231;
    25387; 20661; 20652; 20877; 26368; 21705; 22622; 22971; 23472; 24425; 25165; 25505; 26685; 27507; 28168; 28797;
    37319; 29312; 30741; 30758; 31085; 25998; 32048; 33756; 35009; 36617; 38555; 21092; 22312; 26448; 32618; 36001;
    20916; 22338; 38442; 22586; 27018; 32948; 21682; 23822; 22524; 30869; 40442; 20316; 21066; 21643; 25662; 26152;
    26388; 26613; 31364; 31574; 32034; 37679; 26716; 39853; 31545; 21273; 20874; 21047; 23519; 25334; 25774; 25830;
    26413; 27578; 34217; 38609; 30352; 39894; 25420; 37638; 39851; 30399; 26194; 19977; 20632; 21442; 23665; 24808;
    25746; 25955; 26719; 29158; 29642; 29987; 31639; 32386; 34453; 35715; 36059; 37240; 39184; 26028; 26283; 27531;
    20181; 20180; 20282; 20351; 21050; 21496; 21490; 21987; 22235; 22763; 22987; 22985; 23039; 23376; 23629; 24066;
    24107; 24535; 24605; 25351; 25903; 23388; 26031; 26045; 26088; 26525; 27490; 27515; 27663; 29509; 31049; 31169;
    31992; 32025; 32043; 32930; 33026; 33267; 35222; 35422; 35433; 35430; 35468; 35566; 36039; 36060; 38604; 39164;
    27503; 20107; 20284; 20365; 20816; 23383; 23546; 24904; 25345; 26178; 27425; 28363; 27835; 29246; 29885; 30164;
    30913; 31034; 32780; 32819; 33258; 33940; 36766; 27728; 40575; 24335; 35672; 40235; 31482; 36600; 23437; 38635;
    19971; 21489; 22519; 22833; 23241; 23460; 24713; 28287; 28422; 30142; 36074; 23455; 34048; 31712; 20594; 26612;
    33437; 23649; 34122; 32286; 33294; 20889; 23556; 25448; 36198; 26012; 29038; 31038; 32023; 32773; 35613; 36554;
    36974; 34503; 37034; 20511; 21242; 23610; 26451; 28796; 29237; 37196; 37320; 37675; 33509; 23490; 24369; 24825;
    20027; 21462; 23432; 25163; 26417; 27530; 29417; 29664; 31278; 33131; 36259; 37202; 39318; 20754; 21463; 21610;
    23551; 25480; 27193; 32172; 38656; 22234; 21454; 21608; 23447; 23601; 24030; 20462; 24833; 25342; 27954; 31168;
    31179; 32066; 32333; 32722; 33261; 33311; 33936; 34886; 35186; 35728; 36468; 36655; 36913; 37195; 37228; 38598;
    37276; 20160; 20303; 20805; 21313; 24467; 25102; 26580; 27713; 28171; 29539; 32294; 37325; 37507; 21460; 22809;
    23487; 28113; 31069; 32302; 31899; 22654; 29087; 20986; 34899; 36848; 20426; 23803; 26149; 30636; 31459; 33308;
    39423; 20934; 24490; 26092; 26991; 27529; 28147; 28310; 28516; 30462; 32020; 24033; 36981; 37255; 38918; 20966;
    21021; 25152; 26257; 26329; 28186; 24246; 32210; 32626; 26360; 34223; 34295; 35576; 21161; 21465; 22899; 24207;
    24464; 24661; 37604; 38500; 20663; 20767; 21213; 21280; 21319; 21484; 21736; 21830; 21809; 22039; 22888; 22974;
    23100; 23477; 23558; 23567; 23569; 23578; 24196; 24202; 24288; 24432; 25215; 25220; 25307; 25484; 25463; 26119;
    26124; 26157; 26230; 26494; 26786; 27167; 27189; 27836; 28040; 28169; 28248; 28988; 28966; 29031; 30151; 30465;
    30813; 30977; 31077; 31216; 31456; 31505; 31911; 32057; 32918; 33750; 33931; 34121; 34909; 35059; 35359; 35388;
    35412; 35443; 35937; 36062; 37284; 37478; 37758; 37912; 38556; 38808; 19978; 19976; 19998; 20055; 20887; 21104;
    22478; 22580; 22732; 23330; 24120; 24773; 25854; 26465; 26454; 27972; 29366; 30067; 31331; 33976; 35698; 37304;
    37664; 22065; 22516; 39166; 25325; 26893; 27542; 29165; 32340; 32887; 33394; 35302; 39135; 34645; 36785; 23611;
    20280; 20449; 20405; 21767; 23072; 23517; 23529; 24515; 24910; 25391; 26032; 26187; 26862; 27035; 28024; 28145;
    30003; 30137; 30495; 31070; 31206; 32051; 33251; 33455; 34218; 35242; 35386; 36523; 36763; 36914; 37341; 38663;
    20154; 20161; 20995; 22645; 22764; 23563; 29978; 23613; 33102; 35338; 36805; 38499; 38765; 31525; 35535; 38920;
    37218; 22259; 21416; 36887; 21561; 22402; 24101; 25512; 27700; 28810; 30561; 31883; 32736; 34928; 36930; 37204;
    37648; 37656; 38543; 29790; 39620; 23815; 23913; 25968; 26530; 36264; 38619; 25454; 26441; 26905; 33733; 38935;
    38592; 35070; 28548; 25722; 23544; 19990; 28716; 30045; 26159; 20932; 21046; 21218; 22995; 24449; 24615; 25104;
    25919; 25972; 26143; 26228; 26866; 26646; 27491; 28165; 29298; 29983; 30427; 31934; 32854; 22768; 35069; 35199;
    35488; 35475; 35531; 36893; 37266; 38738; 38745; 25993; 31246; 33030; 38587; 24109; 24796; 25114; 26021; 26132;
    26512; 30707; 31309; 31821; 32318; 33034; 36012; 36196; 36321; 36447; 30889; 20999; 25305; 25509; 25666; 25240;
    35373; 31363; 31680; 35500; 38634; 32118; 33292; 34633; 20185; 20808; 21315; 21344; 23459; 23554; 23574; 24029;
    25126; 25159; 25776; 26643; 26676; 27849; 27973; 27927; 26579; 28508; 29006; 29053; 26059; 31359; 31661; 32218;
    32330; 32680; 33146; 33307; 33337; 34214; 35438; 36046; 36341; 36984; 36983; 37549; 37521; 38275; 39854; 21069;
    21892; 28472; 28982; 20840; 31109; 32341; 33203; 31950; 22092; 22609; 23720; 25514; 26366; 26365; 26970; 29401;
    30095; 30094; 30990; 31062; 31199; 31895; 32032; 32068; 34311; 35380; 38459; 36961; 40736; 20711; 21109; 21452;
    21474; 20489; 21930; 22766; 22863; 29245; 23435; 23652; 21277; 24803; 24819; 25436; 25475; 25407; 25531; 25805;
    26089; 26361; 24035; 27085; 27133; 28437; 29157; 20105; 30185; 30456; 31379; 31967; 32207; 32156; 32865; 33609;
    33624; 33900; 33980; 34299; 35013; 36208; 36865; 36973; 37783; 38684; 39442; 20687; 22679; 24974; 33235; 34101;
    36104; 36896; 20419; 20596; 21063; 21363; 24687; 25417; 26463; 28204; 36275; 36895; 20439; 23646; 36042; 26063;
    32154; 21330; 34966; 20854; 25539; 23384; 23403; 23562; 25613; 26449; 36956; 20182; 22810; 22826; 27760; 35409;
    21822; 22549; 22949; 24816; 25171; 26561; 33333; 26965; 38464; 39364; 39464; 20307; 22534; 23550; 32784; 23729;
    24111; 24453; 24608; 24907; 25140; 26367; 27888; 28382; 32974; 33151; 33492; 34955; 36024; 36864; 36910; 38538;
    40667; 39899; 20195; 21488; 22823; 31532; 37261; 38988; 40441; 28381; 28711; 21331; 21828; 23429; 25176; 25246;
    25299; 27810; 28655; 29730; 35351; 37944; 28609; 35582; 33592; 20967; 34552; 21482; 21481; 20294; 36948; 36784;
    22890; 33073; 24061; 31466; 36799; 26842; 35895; 29432; 40008; 27197; 35504; 20025; 21336; 22022; 22374; 25285;
    25506; 26086; 27470; 28129; 28251; 28845; 30701; 31471; 31658; 32187; 32829; 32966; 34507; 35477; 37723; 22243;
    22727; 24382; 26029; 26262; 27264; 27573; 30007; 35527; 20516; 30693; 22320; 24347; 24677; 26234; 27744; 30196;
    31258; 32622; 33268; 34584; 36933; 39347; 31689; 30044; 31481; 31569; 33988; 36880; 31209; 31378; 33590; 23265;
    30528; 20013; 20210; 23449; 24544; 25277; 26172; 26609; 27880; 34411; 34935; 35387; 37198; 37619; 39376; 27159;
    28710; 29482; 33511; 33879; 36015; 19969; 20806; 20939; 21899; 23541; 24086; 24115; 24193; 24340; 24373; 24427;
    24500; 25074; 25361; 26274; 26397; 28526; 29266; 30010; 30522; 32884; 33081; 33144; 34678; 35519; 35548; 36229;
    36339; 37530; 38263; 38914; 40165; 21189; 25431; 30452; 26389; 27784; 29645; 36035; 37806; 38515; 27941; 22684;
    26894; 27084; 36861; 37786; 30171; 36890; 22618; 26626; 25524; 27131; 20291; 28460; 26584; 36795; 34086; 32180;
    37716; 26943; 28528; 22378; 22775; 23340; 32044; 29226; 21514; 37347; 40372; 20141; 20302; 20572; 20597; 21059;
    35998; 21576; 22564; 23450; 24093; 24213; 24237; 24311; 24351; 24716; 25269; 25402; 25552; 26799; 27712; 30855;
    31118; 31243; 32224; 33351; 35330; 35558; 36420; 36883; 37048; 37165; 37336; 40718; 27877; 25688; 25826; 25973;
    28404; 30340; 31515; 36969; 37841; 28346; 21746; 24505; 25764; 36685; 36845; 37444; 20856; 22635; 22825; 23637;
    24215; 28155; 32399; 29980; 36028; 36578; 39003; 28857; 20253; 27583; 28593; 30000; 38651; 20814; 21520; 22581;
    22615; 22956; 23648; 24466; 26007; 26460; 28193; 30331; 33759; 36077; 36884; 37117; 37709; 30757; 30778; 21162;
    24230; 22303; 22900; 24594; 20498; 20826; 20908; 20941; 20992; 21776; 22612; 22616; 22871; 23445; 23798; 23947;
    24764; 25237; 25645; 26481; 26691; 26812; 26847; 30423; 28120; 28271; 28059; 28783; 29128; 24403; 30168; 31095;
    31561; 31572; 31570; 31958; 32113; 21040; 33891; 34153; 34276; 35342; 35588; 35910; 36367; 36867; 36879; 37913;
    38518; 38957; 39472; 38360; 20685; 21205; 21516; 22530; 23566; 24999; 25758; 27934; 30643; 31461; 33012; 33796;
    36947; 37509; 23776; 40199; 21311; 24471; 24499; 28060; 29305; 30563; 31167; 31716; 27602; 29420; 35501; 26627;
    27233; 20984; 31361; 26932; 23626; 40182; 33515; 23493; 37193; 28702; 22136; 23663; 24775; 25958; 27788; 35930;
    36929; 38931; 21585; 26311; 37389; 22856; 37027; 20869; 20045; 20970; 34201; 35598; 28760; 25466; 37707; 26978;
    39348; 32260; 30071; 21335; 26976; 36575; 38627; 27741; 20108; 23612; 24336; 36841; 21250; 36049; 32905; 34425;
    24319; 26085; 20083; 20837; 22914; 23615; 38894; 20219; 22922; 24525; 35469; 28641; 31152; 31074; 23527; 33905;
    29483; 29105; 24180; 24565; 25467; 25754; 29123; 31896; 20035; 24316; 20043; 22492; 22178; 24745; 28611; 32013;
    33021; 33075; 33215; 36786; 35223; 34468; 24052; 25226; 25773; 35207; 26487; 27874; 27966; 29750; 30772; 23110;
    32629; 33453; 39340; 20467; 24259; 25309; 25490; 25943; 26479; 30403; 29260; 32972; 32954; 36649; 37197; 20493;
    22521; 23186; 26757; 26995; 29028; 29437; 36023; 22770; 36064; 38506; 36889; 34687; 31204; 30695; 33833; 20271;
    21093; 21338; 25293; 26575; 27850; 30333; 31636; 31893; 33334; 34180; 36843; 26333; 28448; 29190; 32283; 33707;
    39361; 40614; 20989; 31665; 30834; 31672; 32903; 31560; 27368; 24161; 32908; 30033; 30048; 20843; 37474; 28300;
    30330; 37271; 39658; 20240; 32624; 25244; 31567; 38309; 40169; 22138; 22617; 34532; 38588; 20276; 21028; 21322;
    21453; 21467; 24070; 25644; 26001; 26495; 27710; 27726; 29256; 29359; 29677; 30036; 32321; 33324; 34281; 36009;
    31684; 37318; 29033; 38930; 39151; 25405; 26217; 30058; 30436; 30928; 34115; 34542; 21290; 21329; 21542; 22915;
    24199; 24444; 24754; 25161; 25209; 25259; 26000; 27604; 27852; 30130; 30382; 30865; 31192; 32203; 32631; 32933;
    34987; 35513; 36027; 36991; 38750; 39131; 27147; 31800; 20633; 23614; 24494; 26503; 27608; 29749; 30473; 32654;
    40763; 26570; 31255; 21305; 30091; 39661; 24422; 33181; 33777; 32920; 24380; 24517; 30050; 31558; 36924; 26727;
    23019; 23195; 32016; 30334; 35628; 20469; 24426; 27161; 27703; 28418; 29922; 31080; 34920; 35413; 35961; 24287;
    25551; 30149; 31186; 33495; 37672; 37618; 33948; 34541; 39981; 21697; 24428; 25996; 27996; 28693; 36007; 36051;
    38971; 25935; 29942; 19981; 20184; 22496; 22827; 23142; 23500; 20904; 24067; 24220; 24598; 25206; 25975; 26023;
    26222; 28014; 29238; 31526; 33104; 33178; 33433; 35676; 36000; 36070; 36212; 38428; 38468; 20398; 25771; 27494;
    33310; 33889; 34154; 37096; 23553; 26963; 39080; 33914; 34135; 20239; 21103; 24489; 24133; 26381; 31119; 33145;
    35079; 35206; 28149; 24343; 25173; 27832; 20175; 29289; 39826; 20998; 21563; 22132; 22707; 24996; 25198; 28954;
    22894; 31881; 31966; 32027; 38640; 25991; 32862; 19993; 20341; 20853; 22592; 24163; 24179; 24330; 26564; 20006;
    34109; 38281; 38491; 31859; 38913; 20731; 22721; 30294; 30887; 21029; 30629; 34065; 31622; 20559; 22793; 29255;
    31687; 32232; 36794; 36820; 36941; 20415; 21193; 23081; 24321; 38829; 20445; 33303; 37610; 22275; 25429; 27497;
    29995; 35036; 36628; 31298; 21215; 22675; 24917; 25098; 26286; 27597; 31807; 33769; 20515; 20472; 21253; 21574;
    22577; 22857; 23453; 23792; 23791; 23849; 24214; 25265; 25447; 25918; 26041; 26379; 27861; 27873; 28921; 30770;
    32299; 32990; 33459; 33804; 34028; 34562; 35090; 35370; 35914; 37030; 37586; 39165; 40179; 40300; 20047; 20129;
    20621; 21078; 22346; 22952; 24125; 24536; 24537; 25151; 26292; 26395; 26576; 26834; 20882; 32033; 32938; 33192;
    35584; 35980; 36031; 37502; 38450; 21536; 38956; 21271; 20693; 21340; 22696; 25778; 26420; 29287; 30566; 31302;
    37350; 21187; 27809; 27526; 22528; 24140; 22868; 26412; 32763; 20961; 30406; 25705; 30952; 39764; 40635; 22475;
    22969; 26151; 26522; 27598; 21737; 27097; 24149; 33180; 26517; 39850; 26622; 40018; 26717; 20134; 20451; 21448;
    25273; 26411; 27819; 36804; 20397; 32365; 40639; 19975; 24930; 28288; 28459; 34067; 21619; 26410; 39749; 24051;
    31637; 23724; 23494; 34588; 28234; 34001; 31252; 33032; 22937; 31885; 27665; 30496; 21209; 22818; 28961; 29279;
    30683; 38695; 40289; 26891; 23167; 23064; 20901; 21517; 21629; 26126; 30431; 36855; 37528; 40180; 23018; 29277;
    28357; 20813; 26825; 32191; 32236; 38754; 40634; 25720; 27169; 33538; 22916; 23391; 27611; 29467; 30450; 32178;
    32791; 33945; 20786; 26408; 40665; 30446; 26466; 21247; 39173; 23588; 25147; 31870; 36016; 21839; 24758; 32011;
    38272; 21249; 20063; 20918; 22812; 29242; 32822; 37326; 24357; 30690; 21380; 24441; 32004; 34220; 35379; 36493;
    38742; 26611; 34222; 37971; 24841; 24840; 27833; 30290; 35565; 36664; 21807; 20305; 20778; 21191; 21451; 23461;
    24189; 24736; 24962; 25558; 26377; 26586; 28263; 28044; 29494; 29495; 30001; 31056; 35029; 35480; 36938; 37009;
    37109; 38596; 34701; 22805; 20104; 20313; 19982; 35465; 36671; 38928; 20653; 24188; 22934; 23481; 24248; 25562;
    25594; 25793; 26332; 26954; 27096; 27915; 28342; 29076; 29992; 31407; 32650; 32768; 33865; 33993; 35201; 35617;
    36362; 36965; 38525; 39178; 24958; 25233; 27442; 27779; 28020; 32716; 32764; 28096; 32645; 34746; 35064; 26469;
    33713; 38972; 38647; 27931; 32097; 33853; 37226; 20081; 21365; 23888; 27396; 28651; 34253; 34349; 35239; 21033;
    21519; 23653; 26446; 26792; 29702; 29827; 30178; 35023; 35041; 37324; 38626; 38520; 24459; 29575; 31435; 33870;
    25504; 30053; 21129; 27969; 28316; 29705; 30041; 30827; 31890; 38534; 31452; 40845; 20406; 24942; 26053; 34396;
    20102; 20142; 20698; 20001; 20940; 23534; 26009; 26753; 28092; 29471; 30274; 30637; 31260; 31975; 33391; 35538;
    36988; 37327; 38517; 38936; 21147; 32209; 20523; 21400; 26519; 28107; 29136; 29747; 33256; 36650; 38563; 40023;
    40607; 29792; 22593; 28057; 32047; 39006; 20196; 20278; 20363; 20919; 21169; 23994; 24604; 29618; 31036; 33491;
    37428; 38583; 38646; 38666; 40599; 40802; 26278; 27508; 21015; 21155; 28872; 35010; 24265; 24651; 24976; 28451;
    29001; 31806; 32244; 32879; 34030; 36899; 37676; 21570; 39791; 27347; 28809; 36034; 36335; 38706; 21172; 23105;
    24266; 24324; 26391; 27004; 27028; 28010; 28431; 29282; 29436; 31725; 32769; 32894; 34635; 37070; 20845; 40595;
    31108; 32907; 37682; 35542; 20525; 21644; 35441; 27498; 36036; 33031; 24785; 26528; 40434; 20121; 20120; 39952;
    35435; 34241; 34152; 26880; 28286; 30871; 33109; 0; 0; 0; 0; 0; 0; 0; 0; 0;
    0; 0; 0; 0; 0; 0; 0; 0; 0; 0; 0; 0; 0; 0; 0; 0;
    0; 0; 0; 0; 0; 0; 0; 0; 0; 0; 0; 0; 0; 0; 0; 0;
    0; 0; 24332; 19984; 19989; 20010; 20017; 20022; 20028; 20031; 20034; 20054; 20056; 20098; 20101; 35947;
    20106; 33298; 24333; 20110; 20126; 20127; 20128; 20130; 20144; 20147; 20150; 20174; 20173; 20164; 20166; 20162;
    20183; 20190; 20205; 20191; 20215; 20233; 20314; 20272; 20315; 20317; 20311; 20295; 20342; 20360; 20367; 20376;
    20347; 20329; 20336; 20369; 20335; 20358; 20374; 20760; 20436; 20447; 20430; 20440; 20443; 20433; 20442; 20432;
    20452; 20453; 20506; 20520; 20500; 20522; 20517; 20485; 20252; 20470; 20513; 20521; 20524; 20478; 20463; 20497;
    20486; 20547; 20551; 26371; 20565; 20560; 20552; 20570; 20566; 20588; 20600; 20608; 20634; 20613; 20660; 20658;
    20681; 20682; 20659; 20674; 20694; 20702; 20709; 20717; 20707; 20718; 20729; 20725; 20745; 20737; 20738; 20758;
    20757; 20756; 20762; 20769; 20794; 20791; 20796; 20795; 20799; 20800; 20818; 20812; 20820; 20834; 31480; 20841;
    20842; 20846; 20864; 20866; 22232; 20876; 20873; 20879; 20881; 20883; 20885; 20886; 20900; 20902; 20898; 20905;
    20906; 20907; 20915; 20913; 20914; 20912; 20917; 20925; 20933; 20937; 20955; 20960; 34389; 20969; 20973; 20976;
    20981; 20990; 20996; 21003; 21012; 21006; 21031; 21034; 21038; 21043; 21049; 21071; 21060; 21067; 21068; 21086;
    21076; 21098; 21108; 21097; 21107; 21119; 21117; 21133; 21140; 21138; 21105; 21128; 21137; 36776; 36775; 21164;
    21165; 21180; 21173; 21185; 21197; 21207; 21214; 21219; 21222; 39149; 21216; 21235; 21237; 21240; 21241; 21254;
    21256; 30008; 21261; 21264; 21263; 21269; 21274; 21283; 21295; 21297; 21299; 21304; 21312; 21318; 21317; 19991;
    21321; 21325; 20950; 21342; 21353; 21358; 22808; 21371; 21367; 21378; 21398; 21408; 21414; 21413; 21422; 21424;
    21430; 21443; 31762; 38617; 21471; 26364; 29166; 21486; 21480; 21485; 21498; 21505; 21565; 21568; 21548; 21549;
    21564; 21550; 21558; 21545; 21533; 21582; 21647; 21621; 21646; 21599; 21617; 21623; 21616; 21650; 21627; 21632;
    21622; 21636; 21648; 21638; 21703; 21666; 21688; 21669; 21676; 21700; 21704; 21672; 21675; 21698; 21668; 21694;
    21692; 21720; 21733; 21734; 21775; 21780; 21757; 21742; 21741; 21754; 21730; 21817; 21824; 21859; 21836; 21806;
    21852; 21829; 21846; 21847; 21816; 21811; 21853; 21913; 21888; 21679; 21898; 21919; 21883; 21886; 21912; 21918;
    21934; 21884; 21891; 21929; 21895; 21928; 21978; 21957; 21983; 21956; 21980; 21988; 21972; 22036; 22007; 22038;
    22014; 22013; 22043; 22009; 22094; 22096; 29151; 22068; 22070; 22066; 22072; 22123; 22116; 22063; 22124; 22122;
    22150; 22144; 22154; 22176; 22164; 22159; 22181; 22190; 22198; 22196; 22210; 22204; 22209; 22211; 22208; 22216;
    22222; 22225; 22227; 22231; 22254; 22265; 22272; 22271; 22276; 22281; 22280; 22283; 22285; 22291; 22296; 22294;
    21959; 22300; 22310; 22327; 22328; 22350; 22331; 22336; 22351; 22377; 22464; 22408; 22369; 22399; 22409; 22419;
    22432; 22451; 22436; 22442; 22448; 22467; 22470; 22484; 22482; 22483; 22538; 22486; 22499; 22539; 22553; 22557;
    22642; 22561; 22626; 22603; 22640; 27584; 22610; 22589; 22649; 22661; 22713; 22687; 22699; 22714; 22750; 22715;
    22712; 22702; 22725; 22739; 22737; 22743; 22745; 22744; 22757; 22748; 22756; 22751; 22767; 22778; 22777; 22779;
    22780; 22781; 22786; 22794; 22800; 22811; 26790; 22821; 22828; 22829; 22834; 22840; 22846; 31442; 22869; 22864;
    22862; 22874; 22872; 22882; 22880; 22887; 22892; 22889; 22904; 22913; 22941; 20318; 20395; 22947; 22962; 22982;
    23016; 23004; 22925; 23001; 23002; 23077; 23071; 23057; 23068; 23049; 23066; 23104; 23148; 23113; 23093; 23094;
    23138; 23146; 23194; 23228; 23230; 23243; 23234; 23229; 23267; 23255; 23270; 23273; 23254; 23290; 23291; 23308;
    23307; 23318; 23346; 23248; 23338; 23350; 23358; 23363; 23365; 23360; 23377; 23381; 23386; 23387; 23397; 23401;
    23408; 23411; 23413; 23416; 25992; 23418; 23424; 23427; 23462; 23480; 23491; 23495; 23497; 23508; 23504; 23524;
    23526; 23522; 23518; 23525; 23531; 23536; 23542; 23539; 23557; 23559; 23560; 23565; 23571; 23584; 23586; 23592;
    23608; 23609; 23617; 23622; 23630; 23635; 23632; 23631; 23409; 23660; 23662; 20066; 23670; 23673; 23692; 23697;
    23700; 22939; 23723; 23739; 23734; 23740; 23735; 23749; 23742; 23751; 23769; 23785; 23805; 23802; 23789; 23948;
    23786; 23819; 23829; 23831; 23900; 23839; 23835; 23825; 23828; 23842; 23834; 23833; 23832; 23884; 23890; 23886;
    23883; 23916; 23923; 23926; 23943; 23940; 23938; 23970; 23965; 23980; 23982; 23997; 23952; 23991; 23996; 24009;
    24013; 24019; 24018; 24022; 24027; 24043; 24050; 24053; 24075; 24090; 24089; 24081; 24091; 24118; 24119; 24132;
    24131; 24128; 24142; 24151; 24148; 24159; 24162; 24164; 24135; 24181; 24182; 24186; 40636; 24191; 24224; 24257;
    24258; 24264; 24272; 24271; 24278; 24291; 24285; 24282; 24283; 24290; 24289; 24296; 24297; 24300; 24305; 24307;
    24304; 24308; 24312; 24318; 24323; 24329; 24413; 24412; 24331; 24337; 24342; 24361; 24365; 24376; 24385; 24392;
    24396; 24398; 24367; 24401; 24406; 24407; 24409; 24417; 24429; 24435; 24439; 24451; 24450; 24447; 24458; 24456;
    24465; 24455; 24478; 24473; 24472; 24480; 24488; 24493; 24508; 24534; 24571; 24548; 24568; 24561; 24541; 24755;
    24575; 24609; 24672; 24601; 24592; 24617; 24590; 24625; 24603; 24597; 24619; 24614; 24591; 24634; 24666; 24641;
    24682; 24695; 24671; 24650; 24646; 24653; 24675; 24643; 24676; 24642; 24684; 24683; 24665; 24705; 24717; 24807;
    24707; 24730; 24708; 24731; 24726; 24727; 24722; 24743; 24715; 24801; 24760; 24800; 24787; 24756; 24560; 24765;
    24774; 24757; 24792; 24909; 24853; 24838; 24822; 24823; 24832; 24820; 24826; 24835; 24865; 24827; 24817; 24845;
    24846; 24903; 24894; 24872; 24871; 24906; 24895; 24892; 24876; 24884; 24893; 24898; 24900; 24947; 24951; 24920;
    24921; 24922; 24939; 24948; 24943; 24933; 24945; 24927; 24925; 24915; 24949; 24985; 24982; 24967; 25004; 24980;
    24986; 24970; 24977; 25003; 25006; 25036; 25034; 25033; 25079; 25032; 25027; 25030; 25018; 25035; 32633; 25037;
    25062; 25059; 25078; 25082; 25076; 25087; 25085; 25084; 25086; 25088; 25096; 25097; 25101; 25100; 25108; 25115;
    25118; 25121; 25130; 25134; 25136; 25138; 25139; 25153; 25166; 25182; 25187; 25179; 25184; 25192; 25212; 25218;
    25225; 25214; 25234; 25235; 25238; 25300; 25219; 25236; 25303; 25297; 25275; 25295; 25343; 25286; 25812; 25288;
    25308; 25292; 25290; 25282; 25287; 25243; 25289; 25356; 25326; 25329; 25383; 25346; 25352; 25327; 25333; 25424;
    25406; 25421; 25628; 25423; 25494; 25486; 25472; 25515; 25462; 25507; 25487; 25481; 25503; 25525; 25451; 25449;
    25534; 25577; 25536; 25542; 25571; 25545; 25554; 25590; 25540; 25622; 25652; 25606; 25619; 25638; 25654; 25885;
    25623; 25640; 25615; 25703; 25711; 25718; 25678; 25898; 25749; 25747; 25765; 25769; 25736; 25788; 25818; 25810;
    25797; 25799; 25787; 25816; 25794; 25841; 25831; 33289; 25824; 25825; 25260; 25827; 25839; 25900; 25846; 25844;
    25842; 25850; 25856; 25853; 25880; 25884; 25861; 25892; 25891; 25899; 25908; 25909; 25911; 25910; 25912; 30027;
    25928; 25942; 25941; 25933; 25944; 25950; 25949; 25970; 25976; 25986; 25987; 35722; 26011; 26015; 26027; 26039;
    26051; 26054; 26049; 26052; 26060; 26066; 26075; 26073; 26080; 26081; 26097; 26482; 26122; 26115; 26107; 26483;
    26165; 26166; 26164; 26140; 26191; 26180; 26185; 26177; 26206; 26205; 26212; 26215; 26216; 26207; 26210; 26224;
    26243; 26248; 26254; 26249; 26244; 26264; 26269; 26305; 26297; 26313; 26302; 26300; 26308; 26296; 26326; 26330;
    26336; 26175; 26342; 26345; 26352; 26357; 26359; 26383; 26390; 26398; 26406; 26407; 38712; 26414; 26431; 26422;
    26433; 26424; 26423; 26438; 26462; 26464; 26457; 26467; 26468; 26505; 26480; 26537; 26492; 26474; 26508; 26507;
    26534; 26529; 26501; 26551; 26607; 26548; 26604; 26547; 26601; 26552; 26596; 26590; 26589; 26594; 26606; 26553;
    26574; 26566; 26599; 27292; 26654; 26694; 26665; 26688; 26701; 26674; 26702; 26803; 26667; 26713; 26723; 26743;
    26751; 26783; 26767; 26797; 26772; 26781; 26779; 26755; 27310; 26809; 26740; 26805; 26784; 26810; 26895; 26765;
    26750; 26881; 26826; 26888; 26840; 26914; 26918; 26849; 26892; 26829; 26836; 26855; 26837; 26934; 26898; 26884;
    26839; 26851; 26917; 26873; 26848; 26863; 26920; 26922; 26906; 26915; 26913; 26822; 27001; 26999; 26972; 27000;
    26987; 26964; 27006; 26990; 26937; 26996; 26941; 26969; 26928; 26977; 26974; 26973; 27009; 26986; 27058; 27054;
    27088; 27071; 27073; 27091; 27070; 27086; 23528; 27082; 27101; 27067; 27075; 27047; 27182; 27025; 27040; 27036;
    27029; 27060; 27102; 27112; 27138; 27163; 27135; 27402; 27129; 27122; 27111; 27141; 27057; 27166; 27117; 27156;
    27115; 27146; 27154; 27329; 27171; 27155; 27204; 27148; 27250; 27190; 27256; 27207; 27234; 27225; 27238; 27208;
    27192; 27170; 27280; 27277; 27296; 27268; 27298; 27299; 27287; 34327; 27323; 27331; 27330; 27320; 27315; 27308;
    27358; 27345; 27359; 27306; 27354; 27370; 27387; 27397; 34326; 27386; 27410; 27414; 39729; 27423; 27448; 27447;
    30428; 27449; 39150; 27463; 27459; 27465; 27472; 27481; 27476; 27483; 27487; 27489; 27512; 27513; 27519; 27520;
    27524; 27523; 27533; 27544; 27541; 27550; 27556; 27562; 27563; 27567; 27570; 27569; 27571; 27575; 27580; 27590;
    27595; 27603; 27615; 27628; 27627; 27635; 27631; 40638; 27656; 27667; 27668; 27675; 27684; 27683; 27742; 27733;
    27746; 27754; 27778; 27789; 27802; 27777; 27803; 27774; 27752; 27763; 27794; 27792; 27844; 27889; 27859; 27837;
    27863; 27845; 27869; 27822; 27825; 27838; 27834; 27867; 27887; 27865; 27882; 27935; 34893; 27958; 27947; 27965;
    27960; 27929; 27957; 27955; 27922; 27916; 28003; 28051; 28004; 27994; 28025; 27993; 28046; 28053; 28644; 28037;
    28153; 28181; 28170; 28085; 28103; 28134; 28088; 28102; 28140; 28126; 28108; 28136; 28114; 28101; 28154; 28121;
    28132; 28117; 28138; 28142; 28205; 28270; 28206; 28185; 28274; 28255; 28222; 28195; 28267; 28203; 28278; 28237;
    28191; 28227; 28218; 28238; 28196; 28415; 28189; 28216; 28290; 28330; 28312; 28361; 28343; 28371; 28349; 28335;
    28356; 28338; 28372; 28373; 28303; 28325; 28354; 28319; 28481; 28433; 28748; 28396; 28408; 28414; 28479; 28402;
    28465; 28399; 28466; 28364; 28478; 28435; 28407; 28550; 28538; 28536; 28545; 28544; 28527; 28507; 28659; 28525;
    28546; 28540; 28504; 28558; 28561; 28610; 28518; 28595; 28579; 28577; 28580; 28601; 28614; 28586; 28639; 28629;
    28652; 28628; 28632; 28657; 28654; 28635; 28681; 28683; 28666; 28689; 28673; 28687; 28670; 28699; 28698; 28532;
    28701; 28696; 28703; 28720; 28734; 28722; 28753; 28771; 28825; 28818; 28847; 28913; 28844; 28856; 28851; 28846;
    28895; 28875; 28893; 28889; 28937; 28925; 28956; 28953; 29029; 29013; 29064; 29030; 29026; 29004; 29014; 29036;
    29071; 29179; 29060; 29077; 29096; 29100; 29143; 29113; 29118; 29138; 29129; 29140; 29134; 29152; 29164; 29159;
    29173; 29180; 29177; 29183; 29197; 29200; 29211; 29224; 29229; 29228; 29232; 29234; 29243; 29244; 29247; 29248;
    29254; 29259; 29272; 29300; 29310; 29314; 29313; 29319; 29330; 29334; 29346; 29351; 29369; 29362; 29379; 29382;
    29380; 29390; 29394; 29410; 29408; 29409; 29433; 29431; 20495; 29463; 29450; 29468; 29462; 29469; 29492; 29487;
    29481; 29477; 29502; 29518; 29519; 40664; 29527; 29546; 29544; 29552; 29560; 29557; 29563; 29562; 29640; 29619;
    29646; 29627; 29632; 29669; 29678; 29662; 29858; 29701; 29807; 29733; 29688; 29746; 29754; 29781; 29759; 29791;
    29785; 29761; 29788; 29801; 29808; 29795; 29802; 29814; 29822; 29835; 29854; 29863; 29898; 29903; 29908; 29681;
    29920; 29923; 29927; 29929; 29934; 29938; 29936; 29937; 29944; 29943; 29956; 29955; 29957; 29964; 29966; 29965;
    29973; 29971; 29982; 29990; 29996; 30012; 30020; 30029; 30026; 30025; 30043; 30022; 30042; 30057; 30052; 30055;
    30059; 30061; 30072; 30070; 30086; 30087; 30068; 30090; 30089; 30082; 30100; 30106; 30109; 30117; 30115; 30146;
    30131; 30147; 30133; 30141; 30136; 30140; 30129; 30157; 30154; 30162; 30169; 30179; 30174; 30206; 30207; 30204;
    30209; 30192; 30202; 30194; 30195; 30219; 30221; 30217; 30239; 30247; 30240; 30241; 30242; 30244; 30260; 30256;
    30267; 30279; 30280; 30278; 30300; 30296; 30305; 30306; 30312; 30313; 30314; 30311; 30316; 30320; 30322; 30326;
    30328; 30332; 30336; 30339; 30344; 30347; 30350; 30358; 30355; 30361; 30362; 30384; 30388; 30392; 30393; 30394;
    30402; 30413; 30422; 30418; 30430; 30433; 30437; 30439; 30442; 34351; 30459; 30472; 30471; 30468; 30505; 30500;
    30494; 30501; 30502; 30491; 30519; 30520; 30535; 30554; 30568; 30571; 30555; 30565; 30591; 30590; 30585; 30606;
    30603; 30609; 30624; 30622; 30640; 30646; 30649; 30655; 30652; 30653; 30651; 30663; 30669; 30679; 30682; 30684;
    30691; 30702; 30716; 30732; 30738; 31014; 30752; 31018; 30789; 30862; 30836; 30854; 30844; 30874; 30860; 30883;
    30901; 30890; 30895; 30929; 30918; 30923; 30932; 30910; 30908; 30917; 30922; 30956; 30951; 30938; 30973; 30964;
    30983; 30994; 30993; 31001; 31020; 31019; 31040; 31072; 31063; 31071; 31066; 31061; 31059; 31098; 31103; 31114;
    31133; 31143; 40779; 31146; 31150; 31155; 31161; 31162; 31177; 31189; 31207; 31212; 31201; 31203; 31240; 31245;
    31256; 31257; 31264; 31263; 31104; 31281; 31291; 31294; 31287; 31299; 31319; 31305; 31329; 31330; 31337; 40861;
    31344; 31353; 31357; 31368; 31383; 31381; 31384; 31382; 31401; 31432; 31408; 31414; 31429; 31428; 31423; 36995;
    31431; 31434; 31437; 31439; 31445; 31443; 31449; 31450; 31453; 31457; 31458; 31462; 31469; 31472; 31490; 31503;
    31498; 31494; 31539; 31512; 31513; 31518; 31541; 31528; 31542; 31568; 31610; 31492; 31565; 31499; 31564; 31557;
    31605; 31589; 31604; 31591; 31600; 31601; 31596; 31598; 31645; 31640; 31647; 31629; 31644; 31642; 31627; 31634;
    31631; 31581; 31641; 31691; 31681; 31692; 31695; 31668; 31686; 31709; 31721; 31761; 31764; 31718; 31717; 31840;
    31744; 31751; 31763; 31731; 31735; 31767; 31757; 31734; 31779; 31783; 31786; 31775; 31799; 31787; 31805; 31820;
    31811; 31828; 31823; 31808; 31824; 31832; 31839; 31844; 31830; 31845; 31852; 31861; 31875; 31888; 31908; 31917;
    31906; 31915; 31905; 31912; 31923; 31922; 31921; 31918; 31929; 31933; 31936; 31941; 31938; 31960; 31954; 31964;
    31970; 39739; 31983; 31986; 31988; 31990; 31994; 32006; 32002; 32028; 32021; 32010; 32069; 32075; 32046; 32050;
    32063; 32053; 32070; 32115; 32086; 32078; 32114; 32104; 32110; 32079; 32099; 32147; 32137; 32091; 32143; 32125;
    32155; 32186; 32174; 32163; 32181; 32199; 32189; 32171; 32317; 32162; 32175; 32220; 32184; 32159; 32176; 32216;
    32221; 32228; 32222; 32251; 32242; 32225; 32261; 32266; 32291; 32289; 32274; 32305; 32287; 32265; 32267; 32290;
    32326; 32358; 32315; 32309; 32313; 32323; 32311; 32306; 32314; 32359; 32349; 32342; 32350; 32345; 32346; 32377;
    32362; 32361; 32380; 32379; 32387; 32213; 32381; 36782; 32383; 32392; 32393; 32396; 32402; 32400; 32403; 32404;
    32406; 32398; 32411; 32412; 32568; 32570; 32581; 32588; 32589; 32590; 32592; 32593; 32597; 32596; 32600; 32607;
    32608; 32616; 32617; 32615; 32632; 32642; 32646; 32643; 32648; 32647; 32652; 32660; 32670; 32669; 32666; 32675;
    32687; 32690; 32697; 32686; 32694; 32696; 35697; 32709; 32710; 32714; 32725; 32724; 32737; 32742; 32745; 32755;
    32761; 39132; 32774; 32772; 32779; 32786; 32792; 32793; 32796; 32801; 32808; 32831; 32827; 32842; 32838; 32850;
    32856; 32858; 32863; 32866; 32872; 32883; 32882; 32880; 32886; 32889; 32893; 32895; 32900; 32902; 32901; 32923;
    32915; 32922; 32941; 20880; 32940; 32987; 32997; 32985; 32989; 32964; 32986; 32982; 33033; 33007; 33009; 33051;
    33065; 33059; 33071; 33099; 38539; 33094; 33086; 33107; 33105; 33020; 33137; 33134; 33125; 33126; 33140; 33155;
    33160; 33162; 33152; 33154; 33184; 33173; 33188; 33187; 33119; 33171; 33193; 33200; 33205; 33214; 33208; 33213;
    33216; 33218; 33210; 33225; 33229; 33233; 33241; 33240; 33224; 33242; 33247; 33248; 33255; 33274; 33275; 33278;
    33281; 33282; 33285; 33287; 33290; 33293; 33296; 33302; 33321; 33323; 33336; 33331; 33344; 33369; 33368; 33373;
    33370; 33375; 33380; 33378; 33384; 33386; 33387; 33326; 33393; 33399; 33400; 33406; 33421; 33426; 33451; 33439;
    33467; 33452; 33505; 33507; 33503; 33490; 33524; 33523; 33530; 33683; 33539; 33531; 33529; 33502; 33542; 33500;
    33545; 33497; 33589; 33588; 33558; 33586; 33585; 33600; 33593; 33616; 33605; 33583; 33579; 33559; 33560; 33669;
    33690; 33706; 33695; 33698; 33686; 33571; 33678; 33671; 33674; 33660; 33717; 33651; 33653; 33696; 33673; 33704;
    33780; 33811; 33771; 33742; 33789; 33795; 33752; 33803; 33729; 33783; 33799; 33760; 33778; 33805; 33826; 33824;
    33725; 33848; 34054; 33787; 33901; 33834; 33852; 34138; 33924; 33911; 33899; 33965; 33902; 33922; 33897; 33862;
    33836; 33903; 33913; 33845; 33994; 33890; 33977; 33983; 33951; 34009; 33997; 33979; 34010; 34000; 33985; 33990;
    34006; 33953; 34081; 34047; 34036; 34071; 34072; 34092; 34079; 34069; 34068; 34044; 34112; 34147; 34136; 34120;
    34113; 34306; 34123; 34133; 34176; 34212; 34184; 34193; 34186; 34216; 34157; 34196; 34203; 34282; 34183; 34204;
    34167; 34174; 34192; 34249; 34234; 34255; 34233; 34256; 34261; 34269; 34277; 34268; 34297; 34314; 34323; 34315;
    34302; 34298; 34310; 34338; 34330; 34352; 34367; 34381; 20053; 34388; 34399; 34407; 34417; 34451; 34467; 34473;
    34474; 34443; 34444; 34486; 34479; 34500; 34502; 34480; 34505; 34851; 34475; 34516; 34526; 34537; 34540; 34527;
    34523; 34543; 34578; 34566; 34568; 34560; 34563; 34555; 34577; 34569; 34573; 34553; 34570; 34612; 34623; 34615;
    34619; 34597; 34601; 34586; 34656; 34655; 34680; 34636; 34638; 34676; 34647; 34664; 34670; 34649; 34643; 34659;
    34666; 34821; 34722; 34719; 34690; 34735; 34763; 34749; 34752; 34768; 38614; 34731; 34756; 34739; 34759; 34758;
    34747; 34799; 34802; 34784; 34831; 34829; 34814; 34806; 34807; 34830; 34770; 34833; 34838; 34837; 34850; 34849;
    34865; 34870; 34873; 34855; 34875; 34884; 34882; 34898; 34905; 34910; 34914; 34923; 34945; 34942; 34974; 34933;
    34941; 34997; 34930; 34946; 34967; 34962; 34990; 34969; 34978; 34957; 34980; 34992; 35007; 34993; 35011; 35012;
    35028; 35032; 35033; 35037; 35065; 35074; 35068; 35060; 35048; 35058; 35076; 35084; 35082; 35091; 35139; 35102;
    35109; 35114; 35115; 35137; 35140; 35131; 35126; 35128; 35148; 35101; 35168; 35166; 35174; 35172; 35181; 35178;
    35183; 35188; 35191; 35198; 35203; 35208; 35210; 35219; 35224; 35233; 35241; 35238; 35244; 35247; 35250; 35258;
    35261; 35263; 35264; 35290; 35292; 35293; 35303; 35316; 35320; 35331; 35350; 35344; 35340; 35355; 35357; 35365;
    35382; 35393; 35419; 35410; 35398; 35400; 35452; 35437; 35436; 35426; 35461; 35458; 35460; 35496; 35489; 35473;
    35493; 35494; 35482; 35491; 35524; 35533; 35522; 35546; 35563; 35571; 35559; 35556; 35569; 35604; 35552; 35554;
    35575; 35550; 35547; 35596; 35591; 35610; 35553; 35606; 35600; 35607; 35616; 35635; 38827; 35622; 35627; 35646;
    35624; 35649; 35660; 35663; 35662; 35657; 35670; 35675; 35674; 35691; 35679; 35692; 35695; 35700; 35709; 35712;
    35724; 35726; 35730; 35731; 35734; 35737; 35738; 35898; 35905; 35903; 35912; 35916; 35918; 35920; 35925; 35938;
    35948; 35960; 35962; 35970; 35977; 35973; 35978; 35981; 35982; 35988; 35964; 35992; 25117; 36013; 36010; 36029;
    36018; 36019; 36014; 36022; 36040; 36033; 36068; 36067; 36058; 36093; 36090; 36091; 36100; 36101; 36106; 36103;
    36111; 36109; 36112; 40782; 36115; 36045; 36116; 36118; 36199; 36205; 36209; 36211; 36225; 36249; 36290; 36286;
    36282; 36303; 36314; 36310; 36300; 36315; 36299; 36330; 36331; 36319; 36323; 36348; 36360; 36361; 36351; 36381;
    36382; 36368; 36383; 36418; 36405; 36400; 36404; 36426; 36423; 36425; 36428; 36432; 36424; 36441; 36452; 36448;
    36394; 36451; 36437; 36470; 36466; 36476; 36481; 36487; 36485; 36484; 36491; 36490; 36499; 36497; 36500; 36505;
    36522; 36513; 36524; 36528; 36550; 36529; 36542; 36549; 36552; 36555; 36571; 36579; 36604; 36603; 36587; 36606;
    36618; 36613; 36629; 36626; 36633; 36627; 36636; 36639; 36635; 36620; 36646; 36659; 36667; 36665; 36677; 36674;
    36670; 36684; 36681; 36678; 36686; 36695; 36700; 36706; 36707; 36708; 36764; 36767; 36771; 36781; 36783; 36791;
    36826; 36837; 36834; 36842; 36847; 36999; 36852; 36869; 36857; 36858; 36881; 36885; 36897; 36877; 36894; 36886;
    36875; 36903; 36918; 36917; 36921; 36856; 36943; 36944; 36945; 36946; 36878; 36937; 36926; 36950; 36952; 36958;
    36968; 36975; 36982; 38568; 36978; 36994; 36989; 36993; 36992; 37002; 37001; 37007; 37032; 37039; 37041; 37045;
    37090; 37092; 25160; 37083; 37122; 37138; 37145; 37170; 37168; 37194; 37206; 37208; 37219; 37221; 37225; 37235;
    37234; 37259; 37257; 37250; 37282; 37291; 37295; 37290; 37301; 37300; 37306; 37312; 37313; 37321; 37323; 37328;
    37334; 37343; 37345; 37339; 37372; 37365; 37366; 37406; 37375; 37396; 37420; 37397; 37393; 37470; 37463; 37445;
    37449; 37476; 37448; 37525; 37439; 37451; 37456; 37532; 37526; 37523; 37531; 37466; 37583; 37561; 37559; 37609;
    37647; 37626; 37700; 37678; 37657; 37666; 37658; 37667; 37690; 37685; 37691; 37724; 37728; 37756; 37742; 37718;
    37808; 37804; 37805; 37780; 37817; 37846; 37847; 37864; 37861; 37848; 37827; 37853; 37840; 37832; 37860; 37914;
    37908; 37907; 37891; 37895; 37904; 37942; 37931; 37941; 37921; 37946; 37953; 37970; 37956; 37979; 37984; 37986;
    37982; 37994; 37417; 38000; 38005; 38007; 38013; 37978; 38012; 38014; 38017; 38015; 38274; 38279; 38282; 38292;
    38294; 38296; 38297; 38304; 38312; 38311; 38317; 38332; 38331; 38329; 38334; 38346; 28662; 38339; 38349; 38348;
    38357; 38356; 38358; 38364; 38369; 38373; 38370; 38433; 38440; 38446; 38447; 38466; 38476; 38479; 38475; 38519;
    38492; 38494; 38493; 38495; 38502; 38514; 38508; 38541; 38552; 38549; 38551; 38570; 38567; 38577; 38578; 38576;
    38580; 38582; 38584; 38585; 38606; 38603; 38601; 38605; 35149; 38620; 38669; 38613; 38649; 38660; 38662; 38664;
    38675; 38670; 38673; 38671; 38678; 38681; 38692; 38698; 38704; 38713; 38717; 38718; 38724; 38726; 38728; 38722;
    38729; 38748; 38752; 38756; 38758; 38760; 21202; 38763; 38769; 38777; 38789; 38780; 38785; 38778; 38790; 38795;
    38799; 38800; 38812; 38824; 38822; 38819; 38835; 38836; 38851; 38854; 38856; 38859; 38876; 38893; 40783; 38898;
    31455; 38902; 38901; 38927; 38924; 38968; 38948; 38945; 38967; 38973; 38982; 38991; 38987; 39019; 39023; 39024;
    39025; 39028; 39027; 39082; 39087; 39089; 39094; 39108; 39107; 39110; 39145; 39147; 39171; 39177; 39186; 39188;
    39192; 39201; 39197; 39198; 39204; 39200; 39212; 39214; 39229; 39230; 39234; 39241; 39237; 39248; 39243; 39249;
    39250; 39244; 39253; 39319; 39320; 39333; 39341; 39342; 39356; 39391; 39387; 39389; 39384; 39377; 39405; 39406;
    39409; 39410; 39419; 39416; 39425; 39439; 39429; 39394; 39449; 39467; 39479; 39493; 39490; 39488; 39491; 39486;
    39509; 39501; 39515; 39511; 39519; 39522; 39525; 39524; 39529; 39531; 39530; 39597; 39600; 39612; 39616; 39631;
    39633; 39635; 39636; 39646; 39647; 39650; 39651; 39654; 39663; 39659; 39662; 39668; 39665; 39671; 39675; 39686;
    39704; 39706; 39711; 39714; 39715; 39717; 39719; 39720; 39721; 39722; 39726; 39727; 39730; 39748; 39747; 39759;
    39757; 39758; 39761; 39768; 39796; 39827; 39811; 39825; 39830; 39831; 39839; 39840; 39848; 39860; 39872; 39882;
    39865; 39878; 39887; 39889; 39890; 39907; 39906; 39908; 39892; 39905; 39994; 39922; 39921; 39920; 39957; 39956;
    39945; 39955; 39948; 39942; 39944; 39954; 39946; 39940; 39982; 39963; 39973; 39972; 39969; 39984; 40007; 39986;
    40006; 39998; 40026; 40032; 40039; 40054; 40056; 40167; 40172; 40176; 40201; 40200; 40171; 40195; 40198; 40234;
    40230; 40367; 40227; 40223; 40260; 40213; 40210; 40257; 40255; 40254; 40262; 40264; 40285; 40286; 40292; 40273;
    40272; 40281; 40306; 40329; 40327; 40363; 40303; 40314; 40346; 40356; 40361; 40370; 40388; 40385; 40379; 40376;
    40378; 40390; 40399; 40386; 40409; 40403; 40440; 40422; 40429; 40431; 40445; 40474; 40475; 40478; 40565; 40569;
    40573; 40577; 40584; 40587; 40588; 40594; 40597; 40593; 40605; 40613; 40617; 40632; 40618; 40621; 38753; 40652;
    40654; 40655; 40656; 40660; 40668; 40670; 40669; 40672; 40677; 40680; 40687; 40692; 40694; 40695; 40697; 40699;
    40700; 40701; 40711; 40712; 30391; 40725; 40737; 40748; 40766; 40778; 40786; 40788; 40803; 40799; 40800; 40801;
    40806; 40807; 40812; 40810; 40823; 40818; 40822; 40853; 40860; 40864; 22575; 27079; 36953; 29796; 20956; 29081;
    0; 0; 0; 0; 0; 0; 0; 0; 0; 0; 0; 0; 0; 0; 0; 0;
    0; 0; 0; 0; 0; 0; 0; 0; 0; 0; 0; 0; 0; 0; 0; 0;
    0; 0; 0; 0; 0; 0; 0; 0; 0; 0; 0; 0; 0; 0; 0; 0;
    0; 0; 0; 0; 0; 0; 0; 0; 0; 0; 0; 0; 0; 0; 0; 0;
    0; 0; 0; 0; 0; 0; 0; 0; 0; 0; 0; 0; 0; 0; 0; 0;
    0; 0; 0; 0; 0; 0; 0; 0; 0; 0; 0; 0; 0; 0; 0; 0;
    0; 0; 0; 0; 0; 0; 0; 0; 0; 0; 0; 0; 0; 0; 0; 0;
    0; 0; 0; 0; 0; 0; 0; 0; 0; 0; 0; 0; 0; 0; 0; 0;
    0; 0; 0; 0; 0; 0; 0; 0; 0; 0; 0; 0; 0; 0; 0; 0;
    0; 0; 0; 0; 0; 0; 0; 0; 0; 0; 0; 0; 0; 0; 0; 0;
    0; 0; 0; 0; 0; 0; 0; 0; 0; 0; 0; 0; 0; 0; 0; 0;
    0; 0; 0; 0; 0; 0; 0; 0; 0; 0; 0; 0; 0; 0; 0; 0;
    0; 0; 0; 0; 0; 0; 0; 0; 0; 0; 0; 0; 0; 0; 0; 0;
    0; 0; 0; 0; 0; 0; 0; 0; 0; 0; 0; 0; 0; 0; 0; 0;
    0; 0; 0; 0; 0; 0; 0; 0; 0; 0; 0; 0; 0; 0; 0; 0;
    0; 0; 0; 0; 0; 0; 0; 0; 0; 0; 0; 0; 0; 0; 0; 0;
    0; 0; 0; 0; 0; 0; 0; 0; 0; 0; 0; 0; 0; 0; 0; 0;
    0; 0; 0; 0; 0; 0; 0; 0; 0; 0; 0; 0; 0; 0; 0; 0;
    0; 0; 0; 0; 0; 0; 0; 0; 0; 0; 0; 0; 0; 0; 0; 0;
    0; 0; 0; 0; 0; 0; 0; 0; 0; 0; 0; 0; 0; 0; 0; 0;
    0; 0; 0; 0; 0; 0; 0; 0; 0; 0; 0; 0; 0; 0; 0; 0;
    0; 0; 0; 0; 0; 0; 0; 0; 0; 0; 0; 0; 0; 0; 0; 0;
    0; 0; 0; 0; 0; 0; 0; 0; 0; 0; 0; 0; 0; 0; 0; 0;
    0; 0; 0; 0; 0; 0; 0; 0; 0; 0; 0; 0; 0; 0; 0; 0;
    0; 0; 0; 0; 0; 0; 0; 0; 0; 0; 0; 0; 0; 0; 0; 0;
    0; 0; 0; 0; 0; 0; 0; 0; 0; 0; 0; 0; 0; 0; 0; 0;
    0; 0; 0; 0; 0; 0; 0; 0; 0; 0; 0; 0; 0; 0; 0; 0;
    0; 0; 0; 0; 0; 0; 0; 0; 0; 0; 0; 0; 0; 0; 0; 0;
    0; 0; 0; 0; 0; 0; 0; 0; 0; 0; 0; 0; 0; 0; 0; 0;
    0; 0; 0; 0; 0; 0; 0; 0; 0; 0; 0; 0; 0; 0; 0; 0;
    0; 0; 0; 0; 0; 0; 0; 0; 0; 0; 0; 0; 0; 0; 0; 0;
    0; 0; 0; 0; 0; 0; 0; 0; 0; 0; 0; 0; 0; 0; 0; 0;
    0; 0; 0; 0; 0; 0; 0; 0; 0; 0; 0; 0; 0; 0; 0; 0;
    0; 0; 0; 0; 0; 0; 0; 0; 0; 0; 0; 0; 0; 0; 0; 0;
    0; 0; 0; 0; 0; 0; 0; 0; 0; 0; 0; 0; 0; 0; 0; 0;
    0; 0; 0; 0; 0; 0; 0; 0; 0; 0; 0; 0; 0; 0; 0; 0;
    0; 0; 0; 0; 0; 0; 0; 0; 0; 0; 0; 0; 0; 0; 0; 0;
    0; 0; 0; 0; 0; 0; 0; 0; 0; 0; 0; 0; 0; 0; 0; 0;
    0; 0; 0; 0; 0; 0; 0; 0; 0; 0; 0; 0; 0; 0; 0; 0;
    0; 0; 0; 0; 0; 0; 0; 0; 0; 0; 0; 0; 0; 0; 0; 0;
    0; 0; 0; 0; 0; 0; 0; 0; 0; 0; 0; 0; 0; 0; 0; 0;
    0; 0; 0; 0; 0; 0; 0; 0; 0; 0; 0; 0; 0; 0; 0; 0;
    0; 0; 0; 0; 0; 0; 0; 0; 0; 0; 0; 0; 0; 0; 0; 0;
    0; 0; 0; 0; 0; 0; 0; 0; 0; 0; 0; 0; 0; 0; 0; 0;
    0; 0; 0; 0; 0; 0; 0; 0; 0; 0; 0; 0; 0; 0; 0; 0;
    0; 0; 0; 0; 0; 0; 0; 0; 0; 0; 0; 0; 0; 0; 0; 0;
    0; 0; 0; 0; 0; 0; 0; 0; 0; 0; 0; 0; 0; 0; 0; 0;
    0; 0; 0; 0; 0; 0; 0; 0; 0; 0; 0; 0; 0; 0; 0; 0;
    0; 0; 0; 0; 0; 0; 0; 0; 0; 0; 0; 0; 0; 0; 0; 0;
    0; 0; 0; 0; 0; 0; 0; 0; 0; 0; 0; 0; 0; 0; 0; 0;
    0; 0; 0; 0; 0; 0; 0; 0; 0; 0; 0; 0; 0; 0; 0; 0;
    0; 0; 0; 0; 0; 0; 0; 0; 0; 0; 0; 0; 0; 0; 0; 0;
    0; 0; 0; 0; 0; 0; 0; 0; 0; 0; 0; 0; 0; 0; 0; 0;
    0; 0; 0; 0; 0; 0; 0; 0; 0; 0; 0; 0; 0; 0; 0; 0;
    0; 0; 0; 0; 0; 0; 0; 0; 0; 0; 0; 0; 0; 0; 0; 0;
    0; 0; 0; 0; 0; 0; 0; 0; 0; 0; 0; 0; 0; 0; 0; 0;
    0; 0; 0; 0; 0; 0; 0; 0; 0; 0; 0; 0; 0; 0; 0; 0;
    0; 0; 0; 0; 0; 0; 0; 0; 0; 0; 0; 0; 0; 0; 0; 0;
    0; 0; 0; 0; 0; 0; 0; 0; 0; 0; 0; 0; 0; 0; 0; 0;
    0; 0; 0; 0; 0; 0; 0; 0; 0; 0; 0; 0; 0; 0; 0; 0;
    0; 0; 0; 0; 0; 0; 0; 0; 0; 0; 0; 0; 0; 0; 0; 0;
    0; 0; 0; 0; 0; 0; 0; 0; 0; 0; 0; 0; 0; 0; 0; 0;
    0; 0; 0; 0; 0; 0; 0; 0; 0; 0; 0; 0; 0; 0; 0; 0;
    0; 0; 0; 0; 0; 0; 0; 0; 0; 0; 0; 0; 0; 0; 0; 0;
    0; 0; 0; 0 ].

(** iso-2022-jp.  The character set designated to G0: ASCII at the start,
    JIS X 0201 Roman after [ESC ( J], JIS X 0208 after [ESC $ B] or
    [ESC $ @]. *)
Inductive jis_charset : Type :=
| JIS_ASCII
| JISX0201_R
| JISX0208.

Definition jis_charset_eqb (a b : jis_charset) : bool :=
  match a, b with
  | JIS_ASCII, JIS_ASCII | JISX0201_R, JISX0201_R | JISX0208, JISX0208 => true
  | _, _ => false
  end.

(** The escape sequence that designates a character set to G0, written
    when the encoder leaves the set [from]. *)
Definition jis_designate (from to : jis_charset) : pybytes :=
  if jis_charset_eqb from to then []
  else
    match to with
    | JIS_ASCII => [x1b; x28; x42]
    | JISX0201_R => [x1b; x28; x4a]
    | JISX0208 => [x1b; x24; x42]
    end.

(** The two bytes of a character of JIS X 0208: row and cell, from 21 hex. *)
Definition jisx0208_encoder (c : N) : option (N * N) :=
  match index_of c jisx0208 0 with
  | Some p => Some (33 + p / 94, 33 + p mod 94)
  | None => None
  end.

(** The encoder, G0 holding [g0]: a character below 80 hex is written in
    ASCII, another in JIS X 0208 if it is there, else in JIS X 0201 Roman
    (the yen sign and the overline); at the end G0 returns to ASCII. *)
Fixpoint jis_encode_from (g0 : jis_charset) (s : pystr) : result pybytes :=
  match s with
  | [] => Ok (jis_designate g0 JIS_ASCII)
  | c :: s' =>
      if c <? 128 then
        rest <- jis_encode_from JIS_ASCII s' ;;
        Ok (jis_designate g0 JIS_ASCII ++ byte_of_N c :: rest)
      else
        match jisx0208_encoder c with
        | Some (hi, lo) =>
            rest <- jis_encode_from JISX0208 s' ;;
            Ok (jis_designate g0 JISX0208 ++ byte_of_N hi :: byte_of_N lo :: rest)
        | None =>
            if c =? 165 then
              rest <- jis_encode_from JISX0201_R s' ;;
              Ok (jis_designate g0 JISX0201_R ++ x5c :: rest)
            else if c =? 8254 then
              rest <- jis_encode_from JISX0201_R s' ;;
              Ok (jis_designate g0 JISX0201_R ++ x7e :: rest)
            else Raise UnicodeEncodeError
        end
  end.

Definition jis_encode : pystr -> result pybytes := jis_encode_from JIS_ASCII.

(** [IS_ESCEND]: the byte that ends an escape sequence. *)
Definition jis_esc_end (c : N) : bool :=
  ((65 <=? c) && (c <=? 90)) || (c =? 64).

(** [IS_ISO2022ESC]: the byte after ESC that opens a designation. *)
Definition jis_iso2022esc (c : N) : bool :=
  (c =? 40) || (c =? 41) || (c =? 36) || (c =? 46) || (c =? 38).

(** The set a final byte names, for one-byte and for two-byte sets; [None]
    when iso-2022-jp does not have the set. *)
Definition jis_single (final : N) : option jis_charset :=
  if final =? 66 then Some JIS_ASCII
  else if final =? 74 then Some JISX0201_R
  else None.

Definition jis_double (final : N) : option jis_charset :=
  if (final =? 66) || (final =? 64) then Some JISX0208 else None.

(** G0 after a designation [ESC c2 c3]: a designation to G1 is read and has
    no effect, since iso-2022-jp never shifts. *)
Definition jis_escape3 (g0 : jis_charset) (c2 c3 : N) : option jis_charset :=
  if c2 =? 36 then jis_double c3
  else if c2 =? 40 then jis_single c3
  else if c2 =? 41 then
    match jis_single c3 with Some _ => Some g0 | None => None end
  else None.

(** G0 after a designation [ESC $ c3 c4]. *)
Definition jis_escape4 (g0 : jis_charset) (c2 c3 c4 : N) : option jis_charset :=
  if c2 =? 36 then
    if c3 =? 40 then jis_double c4
    else if c3 =? 41 then
      match jis_double c4 with Some _ => Some g0 | None => None end
    else None
  else None.

(** A byte of JIS X 0201 Roman. *)
Definition jisx0201_r_decoder (c : N) : N :=
  if c =? 92 then 165 else if c =? 126 then 8254 else c.

(** The character of two bytes of JIS X 0208. *)
Definition jisx0208_decoder (c1 c2 : N) : option N :=
  if (33 <=? c1) && (c1 <=? 126) && (33 <=? c2) && (c2 <=? 126) then
    let u := nth (N.to_nat ((c1 - 33) * 94 + (c2 - 33))) jisx0208 0 in
    if u =? 0 then None else Some u
  else None.

(** The decoder, G0 holding [g0]; [through] is set after an ESC that opens
    no designation, and then the bytes pass as they are up to the next
    byte that could end an escape sequence. *)
Fixpoint jis_decode_from (g0 : jis_charset) (through : bool) (d : pybytes)
    : result pystr :=
  match d with
  | [] => Ok []
  | b :: d1 =>
      let c := Byte.to_N b in
      if through then
        s <- jis_decode_from g0 (negb (jis_esc_end c)) d1 ;; Ok (c :: s)
      else if c =? ESC then
        match d1 with
        | [] => Raise UnicodeDecodeError
        | b2 :: d2 =>
            let c2 := Byte.to_N b2 in
            if jis_iso2022esc c2 then
              match d2 with
              | [] => Raise UnicodeDecodeError
              | b3 :: d3 =>
                  let c3 := Byte.to_N b3 in
                  if jis_esc_end c3 then
                    match jis_escape3 g0 c2 c3 with
                    | Some g => jis_decode_from g false d3
                    | None => Raise UnicodeDecodeError
                    end
                  else
                    match d3 with
                    | [] => Raise UnicodeDecodeError
                    | b4 :: d4 =>
                        let c4 := Byte.to_N b4 in
                        if jis_esc_end c4 then
                          match jis_escape4 g0 c2 c3 c4 with
                          | Some g => jis_decode_from g false d4
                          | None => Raise UnicodeDecodeError
                          end
                        else Raise UnicodeDecodeError
                    end
              end
            else s <- jis_decode_from g0 true d1 ;; Ok (ESC :: s)
        end
      else if c <? 32 then s <- jis_decode_from g0 false d1 ;; Ok (c :: s)
      else if 128 <=? c then Raise UnicodeDecodeError
      else
        match g0 with
        | JIS_ASCII => s <- jis_decode_from g0 false d1 ;; Ok (c :: s)
        | JISX0201_R =>
            s <- jis_decode_from g0 false d1 ;; Ok (jisx0201_r_decoder c :: s)
        | JISX0208 =>
            match d1 with
            | [] => Raise UnicodeDecodeError
            | b2 :: d2 =>
                match jisx0208_decoder c (Byte.to_N b2) with
                | Some u => s <- jis_decode_from g0 false d2 ;; Ok (u :: s)
                | None => Raise UnicodeDecodeError
                end
            end
        end
  end.

Definition jis_decode : pybytes -> result pystr := jis_decode_from JIS_ASCII false.

Definition encode (charset : pystr) (text : pystr) : result pybytes :=
  if str_eqb charset (py "utf-8") then utf8_encode text
  else if str_eqb charset (py "iso-2022-jp") then jis_encode text
  else if str_eqb charset (py "iso-8859-2") then latin2_encode text
  else if str_eqb charset (py "us-ascii") then ascii_encode text
  else Raise LookupError.

Definition decode (charset : pystr) (data : pybytes) : result pystr :=
  if str_eqb charset (py "utf-8") then utf8_decode data
  else if str_eqb charset (py "iso-2022-jp") then jis_decode data
  else if str_eqb charset (py "iso-8859-2") then latin2_decode data
  else if str_eqb charset (py "us-ascii") then ascii_decode data
  else Raise LookupError.

(** *** base64.b64decode: binascii.a2b_base64 without strict mode *)

Definition BASE64_PAD : N := 61.

(** [table_a2b_base64]; the pad character has an entry, with value 0. *)
Definition table_a2b_base64 (c : N) : option N :=
  if (65 <=? c) && (c <=? 90) then Some (c - 65)
  else if (97 <=? c) && (c <=? 122) then Some (c - 71)
  else if (48 <=? c) && (c <=? 57) then Some (c + 4)
  else if c =? 43 then Some 62
  else if c =? 47 then Some 63
  else if c =? BASE64_PAD then Some 0
  else None.

(** [binascii_find_valid(s, slen, num)]: the [num+1]-th character of [s]
    that has a table entry. *)
Fixpoint binascii_find_valid (s : pybytes) (num : nat) : option N :=
  match s with
  | [] => None
  | c :: s' =>
      match table_a2b_base64 (Byte.to_N c) with
      | Some _ =>
          match num with
          | O => Some (Byte.to_N c)
          | S num' => binascii_find_valid s' num'
          end
      | None => binascii_find_valid s' num
      end
  end.

(** The decoding loop: the bytes produced, and [leftbits] when it ends. *)
Fixpoint a2b_base64_loop (ascii_data : pybytes) (quad_pos leftbits leftchar : N)
    : pybytes * N :=
  match ascii_data with
  | [] => ([], leftbits)
  | c :: rest =>
      let this_ch := Byte.to_N c in
      if (127 <? this_ch) || (this_ch =? 13) || (this_ch =? 10) || (this_ch =? 32)
      then a2b_base64_loop rest quad_pos leftbits leftchar
      else if this_ch =? BASE64_PAD then
        if (quad_pos <? 2)
           || ((quad_pos =? 2)
               && negb (match binascii_find_valid ascii_data 1 with
                        | Some v => v =? BASE64_PAD
                        | None => false
                        end))
        then a2b_base64_loop rest quad_pos leftbits leftchar
        else ([], 0)
      else
        match table_a2b_base64 this_ch with
        | None => a2b_base64_loop rest quad_pos leftbits leftchar
        | Some v =>
            let quad_pos := N.land (quad_pos + 1) 3 in
            let leftchar := N.lor (N.shiftl leftchar 6) v in
            let leftbits := leftbits + 6 in
            if 8 <=? leftbits then
              let leftbits := leftbits - 8 in
              let out := byte_of_N (N.land (N.shiftr leftchar leftbits) 255) in
              let leftchar := N.land leftchar (N.shiftl 1 leftbits - 1) in
              let '(bin_data, final) :=
                a2b_base64_loop rest quad_pos leftbits leftchar in
              (out :: bin_data, final)
            else a2b_base64_loop rest quad_pos leftbits leftchar
        end
  end.

Definition a2b_base64 (data : pybytes) : result pybytes :=
  let '(bin_data, leftbits) := a2b_base64_loop data 0 0 0 in
  if leftbits =? 0 then Ok bin_data else Raise BinasciiError.

(** *** quopri.decodestring: binascii.a2b_qp with header=False *)

Definition hexval (c : N) : option N :=
  if (48 <=? c) && (c <=? 57) then Some (c - 48)
  else if (65 <=? c) && (c <=? 70) then Some (c - 55)
  else if (97 <=? c) && (c <=? 102) then Some (c - 87)
  else None.

(** [skipping] holds while a soft line break that began with [=\r] runs on to
    the next line feed. *)
Fixpoint a2b_qp (skipping : bool) (data : pybytes) : pybytes :=
  match data with
  | [] => []
  | c :: d1 =>
      if skipping then a2b_qp (negb (Byte.to_N c =? LF)) d1
      else if Byte.to_N c =? 61 then
        match d1 with
        | [] => []
        | n :: d2 =>
            if Byte.to_N n =? LF then a2b_qp false d2
            else if Byte.to_N n =? CR then a2b_qp true d2
            else if Byte.to_N n =? 61 then c :: a2b_qp false d2
            else
              match d2 with
              | m :: d3 =>
                  match hexval (Byte.to_N n), hexval (Byte.to_N m) with
                  | Some h, Some l => byte_of_N (h * 16 + l) :: a2b_qp false d3
                  | _, _ => c :: a2b_qp false d1
                  end
              | [] => c :: a2b_qp false d1
              end
        end
      else c :: a2b_qp false d1
  end.

#[export] Instance runtime : PyRuntime := {
  str_encode := encode;
  bytes_decode := decode;
  b64decode := a2b_base64;
  quopri_decodestring := fun data => Ok (a2b_qp false data);
  lower := map lower_char;
  lower_ascii := fun s _ => eq_refl
}.

(** *** The encoders of the round trip

    The program only decodes; the round trip of the specification composes
    it with [charset_encode], which is [encode] above, and with
    [transfer_encode], which no file of the repository defines. *)

(** Modelled from the spec: the alphabet of [transfer_encode] for base64
    (RFC 4648). *)
Definition table_b2a_base64 (v : N) : byte :=
  byte_of_N (if v <? 26 then v + 65
             else if v <? 52 then v + 71
             else if v <? 62 then v - 4
             else if v =? 62 then 43 else 47).

Definition pad : byte := byte_of_N BASE64_PAD.

(** Modelled from the spec: [transfer_encode] for base64, three bytes to
    four characters, padded with [=] (RFC 4648). *)
Fixpoint b64encode (data : pybytes) : pybytes :=
  match data with
  | [] => []
  | [x] =>
      let a := Byte.to_N x in
      [table_b2a_base64 (a / 4); table_b2a_base64 ((a mod 4) * 16); pad; pad]
  | [x; y] =>
      let a := Byte.to_N x in
      let b := Byte.to_N y in
      [table_b2a_base64 (a / 4); table_b2a_base64 ((a mod 4) * 16 + b / 16);
       table_b2a_base64 ((b mod 16) * 4); pad]
  | x :: y :: z :: rest =>
      let a := Byte.to_N x in
      let b := Byte.to_N y in
      let c := Byte.to_N z in
      table_b2a_base64 (a / 4) :: table_b2a_base64 ((a mod 4) * 16 + b / 16)
        :: table_b2a_base64 ((b mod 16) * 4 + c / 64)
        :: table_b2a_base64 (c mod 64) :: b64encode rest
  end.

(** Modelled from the spec: the hexadecimal digit of an escape [=XX]. *)
Definition hexdigit (v : N) : byte :=
  byte_of_N (if v <? 10 then v + 48 else v + 55).

(** Modelled from the spec: how [transfer_encode] for quoted-printable
    writes one byte: printable ASCII other than [=] as it is, any other byte
    as [=XX]. *)
Definition qp_token (c : byte) : pybytes :=
  let n := Byte.to_N c in
  if (33 <=? n) && (n <=? 126) && negb (n =? 61) then [c]
  else [byte_of_N 61; hexdigit (n / 16); hexdigit (n mod 16)].

(** Modelled from the spec: [transfer_encode] for quoted-printable, with a
    soft line break [=] LF before a line would pass 72 characters. *)
Fixpoint qp_encode (column : nat) (data : pybytes) : pybytes :=
  match data with
  | [] => []
  | c :: rest =>
      let token := qp_token c in
      if (Nat.ltb 72 (column + List.length token))%nat
      then byte_of_N 61 :: byte_of_N LF :: token
             ++ qp_encode (List.length token) rest
      else token ++ qp_encode (column + List.length token) rest
  end.

(** Modelled from the spec: [transfer_encode], for the two transfer
    methods. *)
Definition transfer_encode (transfer_method : pystr) (data : pybytes) : pybytes :=
  if str_eqb transfer_method (py "base64") then b64encode data
  else qp_encode 0 data.

End CPython.

(** ** The vocabulary of the specification *)

(** ContentDecoder: build a [Decoder] and call it. *)
Definition ContentDecoder {R : PyRuntime} (msg charset transfer_method : pystr)
    : result pystr :=
  self <- Decoder.__init__ msg charset transfer_method ;;
  Decoder.call self.

(** One of the three stages of ContentDecoder raises [e]. *)
Definition stage_fails {R : PyRuntime} (msg charset transfer_method : pystr)
    (e : exn) : Prop :=
  str_encode charset msg = Raise e
  \/ (exists self,
        Decoder.__init__ msg charset transfer_method = Ok self
        /\ Decoder._decode_with_transfer self = Raise e)
  \/ (exists self decoded_transfer,
        Decoder.__init__ msg charset transfer_method = Ok self
        /\ Decoder._decode_with_transfer self = Ok decoded_transfer
        /\ Decoder._decode_charset self decoded_transfer = Raise e).

(** [needle] occurs in [s]. *)
Definition occurs_in (needle s : pystr) : Prop :=
  exists pre suf, s = pre ++ needle ++ suf.

(** [s] begins with an encoded-word marker as [SubjectDecoder] detects it:
    [=?], one of the two charsets in lower case, [?], one character that is
    not a line feed, [?]. *)
Definition marker_at (s : pystr) : Prop :=
  exists cs c rest,
    (cs = py "utf-8" \/ cs = py "iso-2022-jp")
    /\ c <> LF
    /\ s = py "=?" ++ cs ++ [SubjectDecoder.QUESTION; c; SubjectDecoder.QUESTION] ++ rest.

Definition has_marker (s : pystr) : Prop :=
  exists pre suf, s = pre ++ suf /\ marker_at suf.

(** The encoded-word marker in the words of the specification,
    [=?<charset>?<B|Q>?<text>?=], the charset being utf-8 or iso-2022-jp in
    any case. *)
Definition spec_marker_at (s : pystr) : Prop :=
  exists charset selector text rest,
    (map lower_char charset = py "utf-8"
     \/ map lower_char charset = py "iso-2022-jp")
    /\ (selector = 66 \/ selector = 81)
    /\ s = py "=?" ++ charset
             ++ [SubjectDecoder.QUESTION; selector; SubjectDecoder.QUESTION]
             ++ text ++ py "?=" ++ rest.

Definition has_spec_marker (s : pystr) : Prop :=
  exists pre suf, s = pre ++ suf /\ spec_marker_at suf.

(** Idempotence as the specification words it. *)
Definition no_marker_unchanged_as_stated {R : PyRuntime} : Prop :=
  forall subject,
    ~ has_spec_marker subject -> SubjectDecoder.call subject = Ok subject.

(** [s] begins with two characters, neither a line feed, and then [From:]:
    a match of the pattern of [EmailDecoder]. *)
Definition chain_at (s : pystr) : Prop :=
  exists a b rest, a <> LF /\ b <> LF /\ s = a :: b :: py "From:" ++ rest.

(** [s] begins with any two characters and then [From:]. *)
Definition any_two_then_From (s : pystr) : Prop :=
  exists a b rest, s = a :: b :: py "From:" ++ rest.

(** [pre] is what precedes the leftmost place of [text] where [P] holds. *)
Definition before_first (P : pystr -> Prop) (text pre : pystr) : Prop :=
  exists suf,
    text = pre ++ suf /\ P suf
    /\ forall pre' suf',
         text = pre' ++ suf' -> (List.length pre' < List.length pre)%nat -> ~ P suf'.

Definition nowhere (P : pystr -> Prop) (text : pystr) : Prop :=
  forall pre suf, text = pre ++ suf -> ~ P suf.

(** The text one match of the pattern of [SubjectDecoder] covers. *)
Definition marker_text (m : pystr) : Prop :=
  exists cs c,
    (cs = py "utf-8" \/ cs = py "iso-2022-jp")
    /\ c <> LF
    /\ m = py "=?" ++ cs ++ [SubjectDecoder.QUESTION; c; SubjectDecoder.QUESTION].

(** [t] is what follows the last match when [s] is scanned from the left,
    each search resuming where the match before it ended: the last piece
    [re.split] returns. *)
Inductive after_last_match : pystr -> pystr -> Prop :=
| after_no_match (s : pystr) :
    ~ has_marker s -> after_last_match s s
| after_next_match (s before m rest t : pystr) :
    before_first marker_at s before ->
    marker_text m ->
    s = before ++ m ++ rest ->
    after_last_match rest t ->
    after_last_match s t.

Definition remove_crlf (s : pystr) : pystr := remove_char LF (remove_char CR s).

(** The chain split as the specification words it, for one decoded text:
    the split is at any two characters followed by [From:]. *)
Definition chain_split_as_stated (text : pystr) : Prop :=
  (forall pre, before_first any_two_then_From text pre ->
     EmailDecoder.first_of_text text = Ok (remove_crlf pre))
  /\ (nowhere any_two_then_From text ->
     EmailDecoder.first_of_text text = Ok (remove_crlf text)).

(** The cells a spreadsheet holds after the records [rs]: the titles of the
    first record in row 0, then one row for each record. *)
Fixpoint content_rows (row : N) (rs : list dict) : list (N * N * pyobj) :=
  match rs with
  | [] => []
  | r :: rs' =>
      ExcelSheet.write_row row 0 (map snd r) ++ content_rows (row + 1) rs'
  end.

Definition sheet_cells (rs : list dict) : list (N * N * pyobj) :=
  match rs with
  | [] => []
  | r :: _ => ExcelSheet.write_row 0 0 (map (fun key => Some (Str key)) (map fst r)) ++ content_rows 1 rs
  end.

(** The messages of [mbox] other than the one at index [k]. *)
Definition all_but (k : nat) (mbox : list Message) : list Message :=
  firstn k mbox ++ skipn (S k) mbox.

Definition parsed {R : PyRuntime} (ms : list Message) (rs : list dict) : Prop :=
  Forall2 (fun m r => GmailMboxMessage.parse_email m = Ok r) ms rs.

(** Batch continuation as the specification words it, for one mailbox and
    one failing index. *)
Definition batch_continues_as_stated {R : PyRuntime} (mbox : list Message)
    (k : nat) : Prop :=
  forall m e rs,
    nth_error mbox k = Some m ->
    GmailMboxMessage.parse_email m = Raise e ->
    parsed (all_but k mbox) rs ->
    ExcelSheet.worksheet (spreadsheet (main (opened mbox))) = sheet_cells rs
    /\ closed (main (opened mbox)) = 1.

(** The round trip as the specification words it, for one text and one
    pair, with the encoders of [CPython]. *)
Definition round_trip_as_stated (charset transfer_method text : pystr) : Prop :=
  forall data,
    CPython.encode charset text = Ok data ->
    ContentDecoder (R := CPython.runtime)
      (ascii_text (CPython.transfer_encode transfer_method data))
      charset transfer_method = Ok text.

Definition supported_charsets : list pystr :=
  [py "utf-8"; py "iso-2022-jp"; py "iso-8859-2"; py "us-ascii"].

Definition supported_transfers : list pystr :=
  [py "base64"; py "quoted-printable"].

(** A character of the base64 alphabet. *)
Definition base64_alphabet (c : N) : bool :=
  ((65 <=? c) && (c <=? 90)) || ((97 <=? c) && (c <=? 122))
  || ((48 <=? c) && (c <=? 57)) || (c =? 43) || (c =? 47).

(** Base64 text in the words of RFC 4648: groups of four characters of the
    alphabet, the last group ending in no, one or two pad characters. *)
Fixpoint well_padded (s : pystr) : bool :=
  match s with
  | [] => true
  | a :: b :: c :: d :: rest =>
      match rest with
      | [] =>
          base64_alphabet a && base64_alphabet b
          && ((base64_alphabet c && (base64_alphabet d || (d =? 61)))
              || ((c =? 61) && (d =? 61)))
      | _ :: _ =>
          base64_alphabet a && base64_alphabet b && base64_alphabet c
          && base64_alphabet d && well_padded rest
      end
  | _ => false
  end.

(** Malformed input as the specification words it: a base64 payload with
    invalid padding makes the decode fail. *)
Definition invalid_padding_raises_as_stated {R : PyRuntime} : Prop :=
  forall payload charset,
    In charset supported_charsets ->
    well_padded payload = false ->
    exists e, ContentDecoder payload charset (py "base64") = Raise e.

(** [d[key]]. *)
Fixpoint dict_get (key : pystr) (d : dict) : option pyobj :=
  match d with
  | [] => None
  | (k, v) :: d' => if str_eqb k key then Some v else dict_get key d'
  end.

(** The record of a message whose first leaf gave [content], under
    the decoded subject [subject]. *)
Definition record_of (m : Message) (subject : pystr)
    (content : pystr * pystr * value * pystr) : dict :=
  let '(content_type, charset, transfer, text) := content in
  [ (py "Date", Date (headers m)); (py "From", From_ (headers m));
    (py "To", To (headers m)); (py "Subject", Some (Str subject));
    (py "Content_type", Some (Str content_type));
    (py "Charset", Some (Str charset));
    (py "Transfer", Some transfer); (py "Text", Some (Str text)) ].

(** ** Sample inputs *)

Definition plain_headers (subject : pystr) : Headers :=
  {| Date := Some (Str (py "Mon, 1 Feb 2021 10:00:00 +0900"));
     From_ := Some (Str (py "a@example.com")); To := Some (Str (py "b@example.com"));
     Subject := Some (Str subject);
     Content_Type := None; Content_Transfer_Encoding := None |}.

(** A [text/plain] part with the given transfer encoding and payload. *)
Definition text_part (transfer payload : pystr) : Message :=
  {| headers :=
       {| Date := None; From_ := None; To := None; Subject := None;
          Content_Type := Some (Str (py "text/plain; charset=UTF-8"));
          Content_Transfer_Encoding := Some (Str transfer) |};
     get_content_type := py "text/plain";
     get_payload := inl payload |}.

Definition as_part (m : Message) : part :=
  Part (headers m) (get_content_type m) (get_payload m).

(** A [text/html] part. *)
Definition html_part (transfer payload : pystr) : Message :=
  {| headers :=
       {| Date := None; From_ := None; To := None; Subject := None;
          Content_Type := Some (Str (py "text/html; charset=UTF-8"));
          Content_Transfer_Encoding := Some (Str transfer) |};
     get_content_type := py "text/html";
     get_payload := inl payload |}.

(** A [text/html] part whose Content-Type names a file with raw 8-bit
    bytes, [name="r\xe9sum\xe9.html"]: [msg.get] hands it over as a [Header]
    object. *)
Definition raw_html_part : Message :=
  {| headers :=
       {| Date := None; From_ := None; To := None; Subject := None;
          Content_Type :=
            Some (Header (py "text/html; name=" ++ [34] ++ py "r" ++ [56553]
                            ++ py "sum" ++ [56553] ++ py ".html" ++ [34]));
          Content_Transfer_Encoding := Some (Str (py "base64")) |};
     get_content_type := py "text/html";
     get_payload := inl (py "SGk=") |}.

(** A multipart message with the given parts. *)
Definition multipart_of (subject : pystr) (parts : list part) : Message :=
  {| headers := plain_headers subject;
     get_content_type := py "multipart/mixed";
     get_payload := inr parts |}.

(** A message whose body is a bare string. *)
Definition single_part (subject body : pystr) : Message :=
  {| headers := plain_headers subject;
     get_content_type := py "text/plain";
     get_payload := inl body |}.

(** ** Auxiliary definitions of the proofs *)

(** The subject the comment in [_set_regex] gives as its example. *)
Definition example_subject : pystr :=
  py "=?UTF-8?Q?Marqu=C3=A9s_de_Vargas_=26_Baud?=".

Definition chain_here (s : pystr) : bool :=
  match EmailDecoder.chained_email s with Some _ => true | None => false end.

Definition any_two_here (s : pystr) : bool :=
  match s with
  | _ :: _ :: s' => startswith (py "From:") s'
  | _ => false
  end.

(** The body of the specification's example. *)
Definition chained_body : pystr :=
  py "Hi there" ++ [CR; LF] ++ py "..From: someone@example.com" ++ [CR; LF]
    ++ py "Old reply".

(** A reply quoted from the start of a line. *)
Definition reply_at_line_start : pystr :=
  py "Hello" ++ [CR; LF] ++ py "From: x".

(** The state after the loop has emitted the records [rs], the first of them
    being message number [idx + 1]. *)
Fixpoint emitted (num_entries idx : N) (rs : list dict) (w : world) : world :=
  match rs with
  | [] => w
  | r :: rs' =>
      emitted num_entries (idx + 1) rs'
        (info (Info (idx + 1) num_entries) (spreadsheet_call r w))
  end.

(** The progress lines of messages [idx + 1], [idx + 2], ... *)
Fixpoint progress (num_entries idx : N) (count : nat) : list log_record :=
  match count with
  | O => []
  | S count' => Info (idx + 1) num_entries :: progress num_entries (idx + 1) count'
  end.

Definition good_message : Message :=
  multipart_of (py "Hello") [as_part (text_part (py "base64") (py "SGk="))].

(** A message whose base64 body has invalid padding. *)
Definition bad_message : Message :=
  multipart_of (py "Broken") [as_part (text_part (py "base64") (py "YQ"))].

Definition good_record : dict :=
  record_of good_message (py "Hello")
    (py "text/plain", py "utf-8", Str (py "base64"), py "Hi").

(** Checking a property of the numbers below a bound by enumeration. *)
Definition below (n : nat) : list N := map N.of_nat (seq 0 n).

(** A character of the base64 alphabet is neither skipped nor a pad, and has
    its value in the decoding table. *)
Definition alphabet_ok (v : N) : bool :=
  let ch := Byte.to_N (CPython.table_b2a_base64 v) in
  negb ((127 <? ch) || (ch =? 13) || (ch =? 10) || (ch =? 32))
  && negb (ch =? CPython.BASE64_PAD)
  && match CPython.table_a2b_base64 ch with
     | Some v' => v' =? v
     | None => false
     end.

(** The bit arithmetic of one group of four characters, by enumeration. *)
Definition second_char_ok (a : N) : bool :=
  forallb (fun hb =>
    let leftchar := N.lor (N.shiftl (a / 4) 6) ((a mod 4) * 16 + hb) in
    (N.land (N.shiftr leftchar 4) 255 =? a)
    && (N.land leftchar (N.shiftl 1 4 - 1) =? hb)) (below 16).

Definition third_char_ok (hb : N) : bool :=
  forallb (fun lb =>
    forallb (fun hc =>
      let leftchar := N.lor (N.shiftl hb 6) (lb * 4 + hc) in
      (N.land (N.shiftr leftchar 2) 255 =? hb * 16 + lb)
      && (N.land leftchar (N.shiftl 1 2 - 1) =? hc)) (below 4)) (below 16).

Definition fourth_char_ok (hc : N) : bool :=
  forallb (fun lc =>
    let leftchar := N.lor (N.shiftl hc 6) lc in
    (N.land (N.shiftr leftchar 0) 255 =? hc * 64 + lc)
    && (N.land leftchar (N.shiftl 1 0 - 1) =? 0)) (below 64).

Definition seven_bit (data : pybytes) : bool :=
  forallb (fun b => Byte.to_N b <? 128) data.

(** ** Encoded words, worksheet cells and further samples *)

Definition long_enough (line : pystr) : bool := negb (len line <? 10).

(** What [_fetch_charset] starts from: the Content-Type header of the leaf,
    or [NA]. *)
Definition declared_type (msg : leaf) : value :=
  match msg with
  | BareStr _ => Str (py "NA")
  | LeafMsg m => get_or_NA (Content_Type (headers m))
  end.

Definition record_keys : list pystr :=
  [py "Date"; py "From"; py "To"; py "Subject"; py "Content_type";
   py "Charset"; py "Transfer"; py "Text"].

Definition headerless_message : Message :=
  {| headers := {| Date := None; From_ := None; To := None; Subject := None;
                   Content_Type := None; Content_Transfer_Encoding := None |};
     get_content_type := py "text/plain";
     get_payload := inl (py "body") |}.

(** The cell a worksheet shows at a position: the last write there. *)
Definition cell_at (row col : N) (cells : list (N * N * pyobj)) : option pyobj :=
  match find (fun w => (fst (fst w) =? row) && (snd (fst w) =? col)) (rev cells) with
  | Some w => Some (snd w)
  | None => None
  end.

(** The encoded word [=?charset?x?body?=]. *)
Definition encoded_word (charset : pystr) (selector : N) (body : pystr) : pystr :=
  py "=?" ++ charset ++ [SubjectDecoder.QUESTION; selector; SubjectDecoder.QUESTION]
    ++ body ++ py "?=".

(** A header value folded over several lines: every line after the first
    begins with a space. *)
Fixpoint folded (lines : list pystr) : pystr :=
  match lines with
  | [] => []
  | [line] => line
  | line :: rest => line ++ [LF; 32] ++ folded rest
  end.

(** The lines of a folded value. *)
Definition continuation_lines (lines : list pystr) : list pystr :=
  match lines with
  | [] => [[]]
  | line :: rest => line :: map (fun l => 32 :: l) rest
  end.

(** What every marker begins with: [=?] and the first letter of a charset. *)
Definition marker_head (s : pystr) : Prop :=
  exists x rest, s = 61 :: 63 :: x :: rest /\ (x = 117 \/ x = 105).

(** The transfer method a selector stands for. *)
Definition method_of (selector : N) : pystr :=
  if selector =? 66 then py "base64" else py "quoted-printable".

(** [word] is an encoded word whose body, with the closing [?=] that the
    split leaves on it, ContentDecoder turns into [text]. *)
Definition word_decodes {R : PyRuntime} (word text : pystr) : Prop :=
  exists charset selector body,
    (charset = py "utf-8" \/ charset = py "iso-2022-jp")
    /\ (selector = 66 \/ selector = 81)
    /\ (~ In 63 body \/ ~ In 61 body)
    /\ ~ In LF body
    /\ word = encoded_word charset selector body
    /\ ContentDecoder (body ++ py "?=") charset (method_of selector) = Ok text.

(** The characters of base64 text. *)
Definition base64_char (b : byte) : bool :=
  negb (Byte.to_N b =? 63) && negb (Byte.to_N b =? LF).

(** Text that needs no escape: seven-bit, without [=] and line feed. *)
Definition plain_char (b : byte) : bool :=
  (Byte.to_N b <? 128) && negb (Byte.to_N b =? 61) && negb (Byte.to_N b =? LF).

(** What the loop does with one line of ten characters or more. *)
Definition decode_one {R : PyRuntime} (line : pystr) : result pystr :=
  encoding <- SubjectDecoder._identify_decode_method line ;;
  SubjectDecoder._decode_line encoding.

(** A leaf whose Content-Type declares one charset and names another. *)
Definition two_charsets_leaf : leaf :=
  LeafMsg
    {| headers :=
         {| Date := None; From_ := None; To := None; Subject := None;
            Content_Type :=
              Some (Str (py "text/plain; charset=US-ASCII; name=notes-utf-8.txt"));
            Content_Transfer_Encoding := None |};
       get_content_type := py "text/plain";
       get_payload := inl (py "body") |}.

(** * Properties *)

(** ** Strings *)

Lemma str_eqb_eq (a b : pystr) : str_eqb a b = true <-> a = b.
Proof.
  revert b; induction a as [|x a IH]; intros [|y b]; simpl;
    try (split; [discriminate | discriminate]); try tauto.
  rewrite andb_true_iff, N.eqb_eq, IH.
  split; [intros [-> ->]; reflexivity | intros H; injection H; auto].
Qed.

Lemma str_eqb_refl (a : pystr) : str_eqb a a = true.
Proof. apply str_eqb_eq; reflexivity. Qed.

Lemma str_eqb_neq (a b : pystr) : str_eqb a b = false <-> a <> b.
Proof.
  rewrite <- str_eqb_eq. destruct (str_eqb a b); split; congruence.
Qed.

Lemma str_in_spec (x : pystr) (xs : list pystr) : str_in x xs = true <-> In x xs.
Proof.
  unfold str_in. rewrite existsb_exists. split.
  - intros [y [Hin Heq]]. apply str_eqb_eq in Heq. subst; assumption.
  - intros Hin. exists x. split; [assumption | apply str_eqb_refl].
Qed.

Lemma strip_prefix_spec (p s r : pystr) :
  strip_prefix p s = Some r <-> s = p ++ r.
Proof.
  revert s; induction p as [|x p IH]; intros s; simpl.
  - split; [intros H; injection H; auto | intros ->; reflexivity].
  - destruct s as [|y s].
    + split; discriminate.
    + destruct (N.eqb_spec x y) as [->|Hne].
      * rewrite IH. split; [intros ->; reflexivity | intros H; injection H; auto].
      * split; [discriminate | intros H; injection H; intros; subst; congruence].
Qed.

Lemma startswith_spec (p s : pystr) :
  startswith p s = true <-> exists r, s = p ++ r.
Proof.
  unfold startswith. destruct (strip_prefix p s) as [r|] eqn:E.
  - apply strip_prefix_spec in E. split; [eauto | reflexivity].
  - split; [discriminate|]. intros [r Hr].
    apply strip_prefix_spec in Hr. congruence.
Qed.

Lemma contains_spec (needle s : pystr) :
  contains needle s = true <-> occurs_in needle s.
Proof.
  unfold occurs_in. induction s as [|c s IH].
  - simpl. rewrite orb_false_r, startswith_spec. split.
    + intros [r Hr]. exists [], r. assumption.
    + intros [pre [suf H]]. destruct pre; [|discriminate]. eauto.
  - simpl. rewrite orb_true_iff, startswith_spec, IH. split.
    + intros [[r Hr] | [pre [suf H]]].
      * exists [], r. assumption.
      * exists (c :: pre), suf. simpl. congruence.
    + intros [[|x pre] [suf H]].
      * left. eauto.
      * right. injection H as _ H. eauto.
Qed.

Lemma remove_char_app (c : N) (a b : pystr) :
  remove_char c (a ++ b) = remove_char c a ++ remove_char c b.
Proof. apply filter_app. Qed.

Lemma remove_char_not_in (c : N) (s : pystr) : ~ In c (remove_char c s).
Proof.
  unfold remove_char. intros H. apply filter_In in H as [_ H].
  rewrite N.eqb_refl in H. discriminate.
Qed.

Lemma bind_Ok {A B} (r : result A) (k : A -> result B) (b : B) :
  bind r k = Ok b <-> exists a, r = Ok a /\ k a = Ok b.
Proof.
  destruct r as [a|e]; simpl.
  - split; [eauto | intros [a' [H1 H2]]; congruence].
  - split; [discriminate | intros [a' [H1 _]]; discriminate].
Qed.

(** ** The encoded-word marker *)

Lemma after_charset_spec (cs s : pystr) (m : SubjectDecoder.Match) (rest : pystr) :
  SubjectDecoder.after_charset cs s = Some (m, rest) <->
  exists c, c <> LF
    /\ s = cs ++ [SubjectDecoder.QUESTION; c; SubjectDecoder.QUESTION] ++ rest
    /\ m = {| SubjectDecoder.group0 :=
                py "=?" ++ cs ++ [SubjectDecoder.QUESTION; c; SubjectDecoder.QUESTION];
              SubjectDecoder.group1 := cs |}.
Proof.
  unfold SubjectDecoder.after_charset.
  destruct (strip_prefix cs s) as [r|] eqn:E.
  - apply strip_prefix_spec in E. subst s.
    destruct r as [|q1 [|c [|q2 r]]];
      try (split; [discriminate | intros [c' [_ [H _]]];
                   apply app_inv_head in H; discriminate]).
    destruct (N.eqb_spec q1 SubjectDecoder.QUESTION) as [->|H1]; simpl.
    + destruct (N.eqb_spec c LF) as [->|Hc]; simpl.
      * split; [discriminate|]. intros [c' [Hc' [H _]]].
        apply app_inv_head in H. injection H; intros; subst; congruence.
      * destruct (N.eqb_spec q2 SubjectDecoder.QUESTION) as [->|H2].
        -- split.
           ++ intros H. injection H as <- <-. exists c. auto.
           ++ intros [c' [Hc' [H ->]]]. apply app_inv_head in H.
              injection H as <- <-. reflexivity.
        -- split; [discriminate|]. intros [c' [_ [H _]]].
           apply app_inv_head in H. injection H; intros; subst; congruence.
    + split; [discriminate|]. intros [c' [_ [H _]]].
      apply app_inv_head in H. injection H; intros; subst; congruence.
  - split; [discriminate|]. intros [c [_ [H _]]].
    assert (strip_prefix cs s = Some ([SubjectDecoder.QUESTION; c; SubjectDecoder.QUESTION] ++ rest))
      by (apply strip_prefix_spec; assumption).
    congruence.
Qed.

Lemma regex_match_marker (s : pystr) :
  (exists m rest, SubjectDecoder.regex_match s = Some (m, rest)) <-> marker_at s.
Proof.
  unfold SubjectDecoder.regex_match, marker_at. split.
  - intros [m [rest H]].
    destruct (strip_prefix (py "=?") s) as [s1|] eqn:E; [|discriminate].
    apply strip_prefix_spec in E. subst s.
    destruct (SubjectDecoder.after_charset (py "utf-8") s1) as [[m' r']|] eqn:E1.
    + apply after_charset_spec in E1 as [c [Hc [-> _]]].
      exists (py "utf-8"), c, r'. auto.
    + apply after_charset_spec in H as [c [Hc [-> _]]].
      exists (py "iso-2022-jp"), c, rest. auto.
  - intros [cs [c [rest [Hcs [Hc ->]]]]].
    assert (E : strip_prefix (py "=?")
                  (py "=?" ++ cs ++ [SubjectDecoder.QUESTION; c; SubjectDecoder.QUESTION] ++ rest)
                = Some (cs ++ [SubjectDecoder.QUESTION; c; SubjectDecoder.QUESTION] ++ rest))
      by (apply strip_prefix_spec; reflexivity).
    rewrite E.
    destruct (SubjectDecoder.after_charset (py "utf-8")
                (cs ++ [SubjectDecoder.QUESTION; c; SubjectDecoder.QUESTION] ++ rest))
      as [[m r]|] eqn:E1; [eauto|].
    destruct Hcs as [-> | ->].
    + assert (H : SubjectDecoder.after_charset (py "utf-8")
                (py "utf-8" ++ [SubjectDecoder.QUESTION; c; SubjectDecoder.QUESTION] ++ rest)
              = Some ({| SubjectDecoder.group0 :=
                           py "=?" ++ py "utf-8" ++ [SubjectDecoder.QUESTION; c; SubjectDecoder.QUESTION];
                         SubjectDecoder.group1 := py "utf-8" |}, rest))
        by (apply after_charset_spec; exists c; auto).
      congruence.
    + eexists _, rest. apply after_charset_spec. exists c. auto.
Qed.

Lemma regex_search_None (s : pystr) :
  SubjectDecoder.regex_search s = None <-> ~ has_marker s.
Proof.
  unfold has_marker. induction s as [|x s IH]; simpl.
  - destruct (SubjectDecoder.regex_match []) as [[m r]|] eqn:E.
    + split; [discriminate|]. intros H. exfalso. apply H.
      exists [], []. split; [reflexivity|]. apply regex_match_marker. eauto.
    + split; [|reflexivity]. intros _ [pre [suf [H Hm]]].
      destruct pre; [|discriminate]. simpl in H. subst suf.
      apply regex_match_marker in Hm as [m [r Hm]]. congruence.
  - destruct (SubjectDecoder.regex_match (x :: s)) as [[m r]|] eqn:E.
    + split; [discriminate|]. intros H. exfalso. apply H.
      exists [], (x :: s). split; [reflexivity|]. apply regex_match_marker. eauto.
    + rewrite IH. split.
      * intros H [[|y pre] [suf [Hs Hm]]].
        -- simpl in Hs. subst suf.
           apply regex_match_marker in Hm as [m [r Hm]]. congruence.
        -- injection Hs as -> Hs. apply H. eauto.
      * intros H [pre [suf [Hs Hm]]]. apply H.
        exists (x :: pre), suf. split; [simpl; congruence | assumption].
Qed.

(** ** HeaderWordDecoder *)

(** C7: a subject in which the marker of [SubjectDecoder] occurs nowhere is
    returned as it is. *)
Theorem C7_no_marker_unchanged {R : PyRuntime} (subject : pystr) :
  ~ has_marker subject -> SubjectDecoder.call subject = Ok subject.
Proof.
  intros H. apply regex_search_None in H.
  unfold SubjectDecoder.call, SubjectDecoder._is_required_to_decode.
  rewrite H. reflexivity.
Qed.

Lemma C7_no_marker_unchanged_witness :
  ~ has_marker (py "Re: meeting notes")
  /\ SubjectDecoder.call (R := CPython.runtime) (py "Re: meeting notes")
     = Ok (py "Re: meeting notes").
Proof.
  assert (H : ~ has_marker (py "Re: meeting notes"))
    by (apply regex_search_None; vm_compute; reflexivity).
  split; [exact H | exact (C7_no_marker_unchanged (R := CPython.runtime) _ H)].
Defined.

Lemma spec_marker_closes (s : pystr) :
  has_spec_marker s -> occurs_in (py "?=") s.
Proof.
  intros [pre [suf [-> [charset [selector [text [rest [_ [_ ->]]]]]]]]].
  exists (pre ++ py "=?" ++ charset
            ++ [SubjectDecoder.QUESTION; selector; SubjectDecoder.QUESTION] ++ text),
         rest.
  repeat rewrite <- app_assoc. reflexivity.
Qed.

(** An opening [=?utf-8?Q?] that is never closed is no encoded word, yet the
    subject is changed. *)
Lemma C7_unclosed_marker_is_decoded :
  ~ no_marker_unchanged_as_stated (R := CPython.runtime).
Proof.
  intros H.
  assert (N : ~ has_spec_marker (py "=?utf-8?Q?abcdefgh")).
  { intros M. apply spec_marker_closes, contains_spec in M.
    vm_compute in M. discriminate. }
  specialize (H _ N). vm_compute in H. discriminate.
Qed.

(** C2: on the example subject, whose charset token is in upper case, the
    case-sensitive pattern finds no marker and [call] returns the subject
    unchanged, with its framing: it does not return the decoded text. *)
Theorem C2_upper_case_charset_left_encoded {R : PyRuntime} :
  SubjectDecoder._is_required_to_decode example_subject = false
  /\ SubjectDecoder.call example_subject = Ok example_subject
  /\ SubjectDecoder.call example_subject
     <> Ok (py "Marqu" ++ [233] ++ py "s de Vargas & Baud").
Proof.
  assert (E : SubjectDecoder._is_required_to_decode example_subject = false)
    by (vm_compute; reflexivity).
  assert (C : SubjectDecoder.call example_subject = Ok example_subject)
    by (unfold SubjectDecoder.call; rewrite E; reflexivity).
  split; [exact E | split; [exact C |]].
  rewrite C. intros H. injection H as H. vm_compute in H. discriminate.
Qed.

(** With the charset token in lower case the marker is found and the text is
    decoded as quoted-printable, byte for byte: the underscores stay, and so
    does the question mark of the closing [?=]. *)
Lemma lower_case_marker_decodes_literally :
  SubjectDecoder.call (R := CPython.runtime)
    (py "=?utf-8?Q?Marqu=C3=A9s_de_Vargas_=26_Baud?=")
  = Ok (py "Marqu" ++ [233] ++ py "s_de_Vargas_&_Baud?").
Proof. vm_compute. reflexivity. Qed.

(** The marker is the opening [=?charset?x?] alone: a subject that has it is
    decoded whether or not a closing [?=] follows. *)
Lemma marker_needs_no_closing :
  SubjectDecoder.call (R := CPython.runtime) (py "=?utf-8?Q?abcdefgh")
  = Ok (py "abcdefgh").
Proof. vm_compute. reflexivity. Qed.

(** C5: a line of ten characters or more without a marker is not dropped:
    [_identify_decode_method] asks the failed search for its group and the
    whole call raises AttributeError, whether the line comes first (under
    any runtime) or follows a line that decodes. *)
Theorem C5_unmarked_long_line_raises :
  (forall R : PyRuntime,
     SubjectDecoder.call (R := R)
       (py "plain continuation text" ++ [LF] ++ py "=?utf-8?B?aGVsbG8=?=")
     = Raise AttributeError)
  /\ SubjectDecoder.call (R := CPython.runtime)
       (py "=?utf-8?B?aGVsbG8=?=" ++ [LF] ++ py " plain continuation text")
     = Raise AttributeError
  /\ SubjectDecoder.call (R := CPython.runtime)
       (py "=?utf-8?B?aGVsbG8=?=" ++ [LF] ++ py " short")
     = Ok (py "hello").
Proof.
  split; [| split].
  - intros R. reflexivity.
  - vm_compute. reflexivity.
  - vm_compute. reflexivity.
Qed.

(** ** ContentDecoder *)

(** The two transfer decoders are lenient, and what they let through is not
    a failure of a stage: [b64decode] skips the characters outside its
    alphabet, [quopri.decodestring] keeps an escape it cannot read. *)
Lemma non_alphabet_characters_are_skipped :
  ContentDecoder (R := CPython.runtime) (py "!!!!") (py "utf-8") (py "base64")
  = Ok [].
Proof. vm_compute. reflexivity. Qed.

Lemma unreadable_escape_is_kept :
  ContentDecoder (R := CPython.runtime) (py "=ZZ") (py "utf-8")
    (py "quoted-printable")
  = Ok (py "=ZZ").
Proof. vm_compute. reflexivity. Qed.

(** ** MessageTreeWalker *)

Lemma is_readable_text_spec {R : PyRuntime} (content_type encoded_way charset : pystr) :
  exists readable,
    GmailMboxMessage._is_readable_text content_type (Str encoded_way) charset
      = Ok readable
    /\ (readable = true <->
        occurs_in (py "text/plain") (lower content_type)
        /\ In (lower encoded_way) supported_transfers
        /\ In charset supported_charsets).
Proof.
  unfold GmailMboxMessage._is_readable_text, value_lower. cbn [bind].
  fold supported_charsets. fold supported_transfers.
  pose proof (contains_spec (py "text/plain") (lower content_type)) as H1.
  pose proof (str_in_spec (lower encoded_way) supported_transfers) as H2.
  pose proof (str_in_spec charset supported_charsets) as H3.
  destruct (contains (py "text/plain") (lower content_type));
    [|exists false; split; [reflexivity | intuition congruence]].
  destruct (str_in (lower encoded_way) supported_transfers);
    destruct (str_in charset supported_charsets); cbn [andb];
    eexists; (split; [reflexivity | intuition congruence]).
Qed.

Lemma lower_text_html {R : PyRuntime} : lower (py "text/html") = py "text/html".
Proof. rewrite lower_ascii; reflexivity. Qed.

(** The charset of a leaf whose Content-Type is a [str], or missing. *)
Lemma fetch_charset_Str {R : PyRuntime} (msg : leaf) (declared : pystr) :
  declared_type msg = Str declared ->
  exists charset, GmailMboxMessage._fetch_charset msg = Ok charset.
Proof.
  intros H. unfold GmailMboxMessage._fetch_charset.
  change (match msg with
          | BareStr _ => Str (py "NA")
          | LeafMsg m => get_or_NA (Content_Type (headers m))
          end) with (declared_type msg).
  rewrite H. eexists. reflexivity.
Qed.

Lemma fetch_charset_Header {R : PyRuntime} (msg : leaf) (text : pystr) :
  declared_type msg = Header text ->
  GmailMboxMessage._fetch_charset msg = Raise AttributeError.
Proof.
  intros H. unfold GmailMboxMessage._fetch_charset.
  change (match msg with
          | BareStr _ => Str (py "NA")
          | LeafMsg m => get_or_NA (Content_Type (headers m))
          end) with (declared_type msg).
  rewrite H. reflexivity.
Qed.

(** C4: for a leaf whose Content-Type and Content-Transfer-Encoding are
    strings or missing, the gate answers [True] exactly when the content
    type holds [text/plain] and the transfer encoding is base64 or
    quoted-printable, both after lowering, and the normalized charset is one
    of the four; such a leaf goes to text extraction and any other, a
    [text/html] one among them, gets the text NA without an exception.  A
    leaf whose Content-Type is a [Header] object raises AttributeError,
    whatever its content type; one whose Content-Transfer-Encoding is a
    [Header] object raises it when the content type holds [text/plain] and
    gets NA otherwise. *)
Theorem C4_eligibility_gate {R : PyRuntime} (msg : leaf) :
  let content_type := GmailMboxMessage._fetch_content_type msg in
  let encoding := GmailMboxMessage._fetch_encoding_method msg in
  (forall declared transfer,
     declared_type msg = Str declared ->
     encoding = Str transfer ->
     exists charset,
       GmailMboxMessage._fetch_charset msg = Ok charset
       /\ (GmailMboxMessage._is_readable_text content_type encoding charset
             = Ok true <->
           occurs_in (py "text/plain") (lower content_type)
           /\ In (lower transfer) supported_transfers
           /\ In charset supported_charsets)
       /\ (GmailMboxMessage._is_readable_text content_type encoding charset
             = Ok true ->
           GmailMboxMessage._read_email_text msg =
             (payload <- GmailMboxMessage.leaf_payload msg ;;
              decoder <- EmailDecoder.__init__ payload charset transfer ;;
              text <- EmailDecoder.fetch_first_email decoder ;;
              Ok (content_type, charset, encoding, text)))
       /\ (GmailMboxMessage._is_readable_text content_type encoding charset
             <> Ok true ->
           GmailMboxMessage._read_email_text msg
             = Ok (content_type, charset, encoding, py "NA"))
       /\ (content_type = py "text/html" ->
           GmailMboxMessage._read_email_text msg
             = Ok (py "text/html", charset, encoding, py "NA")))
  /\ (forall text,
        declared_type msg = Header text ->
        GmailMboxMessage._read_email_text msg = Raise AttributeError)
  /\ (forall declared text,
        declared_type msg = Str declared ->
        encoding = Header text ->
        (occurs_in (py "text/plain") (lower content_type) ->
         GmailMboxMessage._read_email_text msg = Raise AttributeError)
        /\ (~ occurs_in (py "text/plain") (lower content_type) ->
            exists charset,
              GmailMboxMessage._read_email_text msg
                = Ok (content_type, charset, encoding, py "NA"))).
Proof.
  intros content_type encoding. split; [| split].
  - intros declared transfer Hd He.
    destruct (fetch_charset_Str msg declared Hd) as [charset Hc].
    exists charset. split; [exact Hc|].
    destruct (is_readable_text_spec content_type transfer charset)
      as [readable [Hr Hiff]].
    rewrite He.
    assert (Hno : GmailMboxMessage._is_readable_text content_type (Str transfer)
                    charset <> Ok true ->
                  GmailMboxMessage._read_email_text msg
                    = Ok (content_type, charset, Str transfer, py "NA")).
    { intros E. unfold GmailMboxMessage._read_email_text.
      fold content_type encoding. rewrite Hc, He. cbn [bind].
      unfold GmailMboxMessage._create_readable_text. rewrite Hr. cbn [bind].
      destruct readable; [exfalso; apply E; exact Hr | reflexivity]. }
    split; [| split; [| split; [exact Hno |]]].
    + rewrite Hr. split.
      * intros E. apply Hiff. congruence.
      * intros E. f_equal. apply Hiff. exact E.
    + intros E. unfold GmailMboxMessage._read_email_text.
      fold content_type encoding. rewrite Hc, He. cbn [bind].
      unfold GmailMboxMessage._create_readable_text. rewrite E. cbn [bind].
      destruct (GmailMboxMessage.leaf_payload msg) as [payload|]; [|reflexivity].
      cbn [bind].
      destruct (EmailDecoder.__init__ payload charset transfer) as [decoder|];
        [|reflexivity].
      cbn [bind].
      destruct (EmailDecoder.fetch_first_email decoder); reflexivity.
    + intros Hct. rewrite <- Hct. apply Hno.
      unfold GmailMboxMessage._is_readable_text.
      rewrite Hct, lower_text_html. discriminate.
  - intros text Hd. unfold GmailMboxMessage._read_email_text.
    rewrite (fetch_charset_Header msg text Hd). reflexivity.
  - intros declared text Hd He.
    destruct (fetch_charset_Str msg declared Hd) as [charset Hc].
    split.
    + intros Ho. apply contains_spec in Ho.
      unfold GmailMboxMessage._read_email_text.
      fold content_type encoding. rewrite Hc, He. cbn [bind].
      unfold GmailMboxMessage._create_readable_text,
        GmailMboxMessage._is_readable_text.
      rewrite Ho. reflexivity.
    + intros Ho. exists charset.
      assert (E : contains (py "text/plain") (lower content_type) = false).
      { destruct (contains (py "text/plain") (lower content_type)) eqn:E;
          [|reflexivity].
        exfalso. apply Ho, contains_spec, E. }
      unfold GmailMboxMessage._read_email_text.
      fold content_type encoding. rewrite Hc, He. cbn [bind].
      unfold GmailMboxMessage._create_readable_text,
        GmailMboxMessage._is_readable_text.
      rewrite E. reflexivity.
Qed.

(** A [text/html] part whose Content-Type names a file in raw 8-bit bytes
    raises; with the name in ASCII it gets NA, and a [text/plain] part is
    read. *)
Lemma C4_eligibility_gate_witness :
  GmailMboxMessage._read_email_text (R := CPython.runtime) (LeafMsg raw_html_part)
  = Raise AttributeError
  /\ GmailMboxMessage._read_email_text (R := CPython.runtime)
       (LeafMsg (html_part (py "base64") (py "SGk=")))
     = Ok (py "text/html", py "utf-8", Str (py "base64"), py "NA")
  /\ GmailMboxMessage._read_email_text (R := CPython.runtime)
       (LeafMsg (text_part (py "base64") (py "SGk=")))
     = Ok (py "text/plain", py "utf-8", Str (py "base64"), py "Hi").
Proof.
  split; [| split].
  - exact (proj1 (proj2
      (C4_eligibility_gate (R := CPython.runtime) (LeafMsg raw_html_part)))
      _ eq_refl).
  - destruct (proj1
      (C4_eligibility_gate (R := CPython.runtime)
         (LeafMsg (html_part (py "base64") (py "SGk="))))
      _ _ eq_refl eq_refl) as [charset [Hc [_ [_ [_ H]]]]].
    vm_compute in Hc. injection Hc as <-. exact (H eq_refl).
  - destruct (proj1
      (C4_eligibility_gate (R := CPython.runtime)
         (LeafMsg (text_part (py "base64") (py "SGk="))))
      _ _ eq_refl eq_refl) as [charset [Hc [_ [H _]]]].
    vm_compute in Hc. injection Hc as <-.
    rewrite (H eq_refl). vm_compute. reflexivity.
Defined.

(** C9: a leaf that passes the gate with a transfer encoding that is not
    literally [base64] or [quoted-printable] (the gate lowers it, the
    dispatch of [Decoder] does not) gets [None] from the transfer stage, and
    decoding the charset of [None] raises AttributeError. *)
Theorem C9_gate_and_dispatch_disagree {R : PyRuntime} (m : Message)
    (payload charset : pystr) (data : pybytes) :
  let content_type := GmailMboxMessage._fetch_content_type (LeafMsg m) in
  let encoding := GmailMboxMessage._fetch_encoding_method (LeafMsg m) in
  GmailMboxMessage._fetch_charset (LeafMsg m) = Ok charset ->
  GmailMboxMessage._is_readable_text content_type encoding charset = Ok true ->
  encoding <> Str (py "base64") ->
  encoding <> Str (py "quoted-printable") ->
  get_payload m = inl payload ->
  str_encode charset payload = Ok data ->
  exists transfer,
    encoding = Str transfer
    /\ (exists self,
          Decoder.__init__ payload charset transfer = Ok self
          /\ Decoder._decode_with_transfer self = Ok None
          /\ Decoder.call self = Raise AttributeError)
    /\ GmailMboxMessage._read_email_text (LeafMsg m) = Raise AttributeError.
Proof.
  intros content_type encoding Hcs Hgate Hb Hq Hp Henc.
  destruct encoding as [transfer | text] eqn:Ee.
  2:{ unfold GmailMboxMessage._is_readable_text, value_lower in Hgate.
      destruct (contains (py "text/plain") (lower content_type));
        discriminate. }
  exists transfer. split; [reflexivity|].
  assert (Hb' : transfer <> py "base64") by congruence.
  assert (Hq' : transfer <> py "quoted-printable") by congruence.
  apply str_eqb_neq in Hb', Hq'.
  assert (Hi : Decoder.__init__ payload charset transfer
               = Ok {| Decoder.msg := payload; Decoder.charset := charset;
                       Decoder.transfer_method := transfer;
                       Decoder.bynary := data |}).
  { unfold Decoder.__init__, Decoder._encode_charset. rewrite Henc. reflexivity. }
  assert (Ht : Decoder._decode_with_transfer
                 {| Decoder.msg := payload; Decoder.charset := charset;
                    Decoder.transfer_method := transfer;
                    Decoder.bynary := data |} = Ok None).
  { unfold Decoder._decode_with_transfer. simpl. rewrite Hb', Hq'. reflexivity. }
  assert (Hc : Decoder.call
                 {| Decoder.msg := payload; Decoder.charset := charset;
                    Decoder.transfer_method := transfer;
                    Decoder.bynary := data |} = Raise AttributeError).
  { unfold Decoder.call. rewrite Ht. reflexivity. }
  split.
  - eexists. split; [exact Hi | split; [exact Ht | exact Hc]].
  - unfold GmailMboxMessage._read_email_text.
    fold content_type. rewrite Hcs. cbn [bind].
    change (GmailMboxMessage._fetch_encoding_method (LeafMsg m)) with encoding.
    rewrite Ee.
    unfold GmailMboxMessage._create_readable_text. rewrite Hgate. cbn [bind].
    unfold GmailMboxMessage.leaf_payload. rewrite Hp. cbn [bind].
    unfold EmailDecoder.__init__. rewrite Hi. cbn [bind].
    unfold EmailDecoder.fetch_first_email. rewrite Hc. reflexivity.
Qed.

Lemma C9_gate_and_dispatch_disagree_witness :
  GmailMboxMessage._is_readable_text (R := CPython.runtime)
    (py "text/plain") (Str (py "BASE64")) (py "utf-8") = Ok true
  /\ GmailMboxMessage._read_email_text (R := CPython.runtime)
       (LeafMsg (text_part (py "BASE64") (py "SGk=")))
     = Raise AttributeError.
Proof.
  split; [reflexivity |].
  destruct (C9_gate_and_dispatch_disagree (R := CPython.runtime)
              (text_part (py "BASE64") (py "SGk=")) (py "SGk=") (py "utf-8")
              (pyb "SGk=") eq_refl eq_refl) as [transfer [_ [_ H]]].
  - intros H; vm_compute in H; discriminate.
  - intros H; vm_compute in H; discriminate.
  - reflexivity.
  - reflexivity.
  - exact H.
Defined.

(** ** MessageRecordBuilder *)

Lemma index_first_Ok {A} (xs : list A) (x : A) :
  index_first xs = Ok x -> exists rest, xs = x :: rest.
Proof.
  destruct xs as [|y rest]; simpl; [discriminate|].
  intros H. injection H as ->. eauto.
Qed.

Lemma map_result_cons_Ok {A B} (f : A -> result B) (xs : list A) (y : B) (ys : list B) :
  map_result f xs = Ok (y :: ys) ->
  exists x xs', xs = x :: xs' /\ f x = Ok y /\ map_result f xs' = Ok ys.
Proof.
  destruct xs as [|x xs']; simpl; [discriminate|].
  destruct (f x) as [y'|] eqn:Ef; simpl; [|discriminate].
  destruct (map_result f xs') as [ys'|] eqn:Em; simpl; [|discriminate].
  intros H. injection H as -> ->. eauto.
Qed.

Lemma parse_email_Ok {R : PyRuntime} (m : Message) (r : dict) :
  GmailMboxMessage.parse_email m = Ok r ->
  exists subject content rest,
    SubjectDecoder.call (str_of (Subject (headers m))) = Ok subject
    /\ GmailMboxMessage._read_email_payload m = Ok (content :: rest)
    /\ r = record_of m subject content.
Proof.
  unfold GmailMboxMessage.parse_email. intros H.
  apply bind_Ok in H as [subject [Hs H]].
  apply bind_Ok in H as [contents [Hc H]].
  apply bind_Ok in H as [content [Hf H]].
  apply index_first_Ok in Hf as [rest ->].
  exists subject, content, rest.
  destruct content as [[[ct cs] tr] tx]. injection H as <-.
  auto.
Qed.

(** C10: a message that is not multipart is read as one bare string, so its
    record has NA for Content_type, Charset, Transfer and Text, whatever the
    body holds; the record of a multipart message is that of the first leaf
    the walk yields; hence a text other than NA comes from a multipart
    message only. *)
Theorem C10_single_part_never_decoded {R : PyRuntime} (m : Message) :
  (forall body,
     get_payload m = inl body ->
     GmailMboxMessage.parse_email m =
       (subject <- SubjectDecoder.call (str_of (Subject (headers m))) ;;
        Ok (record_of m subject (py "NA", py "NA", Str (py "NA"), py "NA"))))
  /\ (forall parts r,
        get_payload m = inr parts ->
        GmailMboxMessage.parse_email m = Ok r ->
        exists subject first rest content,
          GmailMboxMessage._get_email_messages parts = first :: rest
          /\ GmailMboxMessage._read_email_text (LeafMsg first) = Ok content
          /\ r = record_of m subject content)
  /\ (forall r text,
        GmailMboxMessage.parse_email m = Ok r ->
        dict_get (py "Text") r = Some (Some (Str text)) ->
        text <> py "NA" ->
        is_multipart m = true).
Proof.
  assert (Hbare : forall s,
            GmailMboxMessage._read_email_text (BareStr s)
            = Ok (py "NA", py "NA", Str (py "NA"), py "NA")).
  { intros s. unfold GmailMboxMessage._read_email_text.
    assert (E : GmailMboxMessage._fetch_charset (BareStr s) = Ok (py "NA")).
    { assert (L : lower (py "NA") = py "na")
        by (rewrite lower_ascii; reflexivity).
      unfold GmailMboxMessage._fetch_charset. cbv zeta. cbv iota.
      rewrite L. change (contains (py "utf-8") (py "na")) with false. cbv iota.
      rewrite L. change (contains (py "iso-2022-jp") (py "na")) with false. cbv iota.
      rewrite L. change (contains (py "iso-8859-2") (py "na")) with false. cbv iota.
      rewrite L. reflexivity. }
    rewrite E. cbn [bind]. simpl GmailMboxMessage._fetch_content_type.
    simpl GmailMboxMessage._fetch_encoding_method.
    unfold GmailMboxMessage._create_readable_text,
      GmailMboxMessage._is_readable_text.
    rewrite (lower_ascii (py "NA")) by reflexivity. reflexivity. }
  assert (Hsingle : forall body,
            get_payload m = inl body ->
            GmailMboxMessage.parse_email m =
              (subject <- SubjectDecoder.call (str_of (Subject (headers m))) ;;
               Ok (record_of m subject (py "NA", py "NA", Str (py "NA"), py "NA")))).
  { intros body Hp. unfold GmailMboxMessage.parse_email,
      GmailMboxMessage._read_email_payload.
    rewrite Hp. simpl map_result. rewrite Hbare. reflexivity. }
  split; [exact Hsingle | split].
  - intros parts r Hp H.
    apply parse_email_Ok in H as [subject [content [rest [Hs [Hc ->]]]]].
    unfold GmailMboxMessage._read_email_payload in Hc. rewrite Hp in Hc.
    apply map_result_cons_Ok in Hc as [x [xs' [Hx [Hf _]]]].
    destruct (GmailMboxMessage._get_email_messages parts) as [|first others];
      [discriminate|].
    simpl in Hx. injection Hx as <- _.
    exists subject, first, others, content. auto.
  - intros r text H Hget Hne. unfold is_multipart.
    destruct (get_payload m) as [body|parts] eqn:Hp; [|reflexivity].
    rewrite (Hsingle body eq_refl) in H.
    apply bind_Ok in H as [subject [_ H]]. injection H as <-.
    vm_compute in Hget. injection Hget as <-. exfalso. apply Hne. reflexivity.
Qed.

Lemma C10_single_part_never_decoded_witness :
  GmailMboxMessage.parse_email (R := CPython.runtime)
    (single_part (py "Hello") (py "plain body text"))
  = Ok (record_of (single_part (py "Hello") (py "plain body text")) (py "Hello")
          (py "NA", py "NA", Str (py "NA"), py "NA"))
  /\ is_multipart (multipart_of (py "Hello")
                     [as_part (text_part (py "base64") (py "SGk="))]) = true.
Proof.
  split.
  - exact (proj1 (C10_single_part_never_decoded (R := CPython.runtime)
                    (single_part (py "Hello") (py "plain body text")))
             (py "plain body text") eq_refl).
  - refine (proj2 (proj2 (C10_single_part_never_decoded (R := CPython.runtime)
                    (multipart_of (py "Hello")
                       [as_part (text_part (py "base64") (py "SGk="))])))
             _ (py "Hi") eq_refl eq_refl _).
    intros H; vm_compute in H; discriminate.
Defined.

(** ** ChainedBodyExtractor *)

Lemma chained_email_spec (s rest : pystr) :
  EmailDecoder.chained_email s = Some rest <->
  exists a b, a <> LF /\ b <> LF /\ s = a :: b :: py "From:" ++ rest.
Proof.
  unfold EmailDecoder.chained_email.
  destruct s as [|a [|b s']];
    try (split; [discriminate | intros [a' [b' [_ [_ H]]]]; discriminate]).
  destruct (N.eqb_spec a LF) as [->|Ha]; unfold orb; cbv iota.
  - split; [discriminate|]. intros [a' [b' [Ha' [_ H]]]].
    injection H; intros; subst; congruence.
  - destruct (N.eqb_spec b LF) as [->|Hb]; cbv iota.
    + split; [discriminate|]. intros [a' [b' [_ [Hb' H]]]].
      injection H; intros; subst; congruence.
    + rewrite strip_prefix_spec. split.
      * intros ->. exists a, b. auto.
      * intros [a' [b' [_ [_ H]]]]. injection H; auto.
Qed.

Lemma chained_email_chain_at (s : pystr) :
  (exists rest, EmailDecoder.chained_email s = Some rest) <-> chain_at s.
Proof.
  unfold chain_at. split.
  - intros [rest H]. apply chained_email_spec in H as [a [b H]]. eauto.
  - intros [a [b [rest H]]]. exists rest. apply chained_email_spec. eauto.
Qed.

Lemma regex_split_cons (c : N) (s cur : pystr) :
  EmailDecoder.regex_split 0 cur (c :: s) =
  match EmailDecoder.chained_email (c :: s) with
  | Some _ => rev cur :: EmailDecoder.regex_split 6 [] s
  | None => EmailDecoder.regex_split 0 (c :: cur) s
  end.
Proof. reflexivity. Qed.

Lemma regex_split_nowhere (text cur : pystr) :
  nowhere chain_at text ->
  EmailDecoder.regex_split 0 cur text = [rev cur ++ text].
Proof.
  revert cur. induction text as [|c text IH]; intros cur H.
  - simpl. rewrite app_nil_r. reflexivity.
  - rewrite regex_split_cons.
    destruct (EmailDecoder.chained_email (c :: text)) as [r|] eqn:E.
    + exfalso. apply (H [] (c :: text) eq_refl).
      apply chained_email_chain_at. eauto.
    + rewrite IH.
      * simpl. rewrite <- app_assoc. reflexivity.
      * intros pre suf Hs. apply (H (c :: pre) suf). simpl. congruence.
Qed.

Lemma regex_split_before_first (text pre cur : pystr) :
  before_first chain_at text pre ->
  exists more, EmailDecoder.regex_split 0 cur text = (rev cur ++ pre) :: more.
Proof.
  revert text cur. induction pre as [|x pre IH]; intros text cur [suf [Ht [Hc Hmin]]].
  - simpl in Ht. subst suf.
    apply chained_email_chain_at in Hc as [r Hr].
    destruct text as [|c text]; [discriminate|].
    rewrite regex_split_cons, Hr, app_nil_r. eauto.
  - subst text. simpl app. rewrite regex_split_cons.
    destruct (EmailDecoder.chained_email (x :: pre ++ suf)) as [r|] eqn:E.
    + exfalso. apply (Hmin [] (x :: pre ++ suf) eq_refl); [simpl; lia|].
      apply chained_email_chain_at. eauto.
    + destruct (IH (pre ++ suf) (x :: cur)) as [more Hm].
      * exists suf. split; [reflexivity | split; [assumption|]].
        intros pre' suf' Hs Hl. apply (Hmin (x :: pre') suf').
        -- simpl. congruence.
        -- simpl. lia.
      * exists more. rewrite Hm. simpl. rewrite <- app_assoc. reflexivity.
Qed.

Lemma first_of_text_before_first (text pre : pystr) :
  before_first chain_at text pre ->
  EmailDecoder.first_of_text text = Ok (remove_crlf pre).
Proof.
  intros H. unfold EmailDecoder.first_of_text.
  destruct (regex_split_before_first text pre [] H) as [more ->].
  reflexivity.
Qed.

Lemma first_of_text_nowhere (text : pystr) :
  nowhere chain_at text ->
  EmailDecoder.first_of_text text = Ok (remove_crlf text).
Proof.
  intros H. unfold EmailDecoder.first_of_text.
  rewrite regex_split_nowhere by assumption. reflexivity.
Qed.

Lemma first_of_text_no_crlf (text out : pystr) :
  EmailDecoder.first_of_text text = Ok out -> ~ In CR out /\ ~ In LF out.
Proof.
  unfold EmailDecoder.first_of_text. intros H.
  apply bind_Ok in H as [first [_ H]]. injection H as <-. split.
  - intros Hin. unfold remove_char at 1 in Hin.
    apply filter_In in Hin as [Hin _].
    exact (remove_char_not_in _ _ Hin).
  - apply remove_char_not_in.
Qed.

(** The suffixes of a text, to decide where a pattern first holds. *)
Lemma split_skipn (text pre suf : pystr) :
  text = pre ++ suf -> suf = skipn (List.length pre) text.
Proof.
  intros ->. rewrite skipn_app, skipn_all, Nat.sub_diag. reflexivity.
Qed.

Lemma before_first_decide (P : pystr -> Prop) (Pb : pystr -> bool)
    (text pre suf : pystr) :
  (forall s, Pb s = true <-> P s) ->
  text = pre ++ suf ->
  Pb suf = true ->
  forallb (fun k => negb (Pb (skipn k text))) (seq 0 (List.length pre)) = true ->
  before_first P text pre.
Proof.
  intros HP Ht Hs Hall. exists suf. split; [assumption|].
  split; [apply HP; assumption|].
  intros pre' suf' Ht' Hl HP'.
  rewrite forallb_forall in Hall.
  specialize (Hall (List.length pre')).
  rewrite <- (split_skipn _ _ _ Ht') in Hall.
  apply HP in HP'. rewrite HP' in Hall.
  assert (In (List.length pre') (seq 0 (List.length pre)))
    by (apply in_seq; lia).
  specialize (Hall H). discriminate.
Qed.

Lemma nowhere_decide (P : pystr -> Prop) (Pb : pystr -> bool) (text : pystr) :
  (forall s, Pb s = true <-> P s) ->
  forallb (fun k => negb (Pb (skipn k text))) (seq 0 (S (List.length text))) = true ->
  nowhere P text.
Proof.
  intros HP Hall pre suf Ht HP'.
  rewrite forallb_forall in Hall.
  specialize (Hall (List.length pre)).
  rewrite <- (split_skipn _ _ _ Ht) in Hall.
  apply HP in HP'. rewrite HP' in Hall.
  assert (In (List.length pre) (seq 0 (S (List.length text)))).
  { apply in_seq. subst text. rewrite length_app. lia. }
  specialize (Hall H). discriminate.
Qed.

Lemma chain_here_spec (s : pystr) : chain_here s = true <-> chain_at s.
Proof.
  rewrite <- chained_email_chain_at. unfold chain_here.
  destruct (EmailDecoder.chained_email s); split; eauto; try discriminate.
  intros [r H]. discriminate.
Qed.

Lemma any_two_here_spec (s : pystr) : any_two_here s = true <-> any_two_then_From s.
Proof.
  unfold any_two_here, any_two_then_From.
  destruct s as [|a [|b s']];
    try (split; [discriminate | intros [a' [b' [r H]]]; discriminate]).
  rewrite startswith_spec. split.
  - intros [r ->]. exists a, b, r. reflexivity.
  - intros [a' [b' [r H]]]. exists r. injection H as _ _ H. exact H.
Qed.

Lemma regex_split_nonempty (skip : nat) (cur s : pystr) :
  EmailDecoder.regex_split skip cur s <> [].
Proof.
  revert skip cur. induction s as [|c s IH]; intros skip cur.
  - simpl. discriminate.
  - destruct skip as [|k].
    + rewrite regex_split_cons.
      destruct (EmailDecoder.chained_email (c :: s)); [discriminate | apply IH].
    + simpl. apply IH.
Qed.

Lemma first_of_text_total (text : pystr) :
  exists out, EmailDecoder.first_of_text text = Ok out.
Proof.
  unfold EmailDecoder.first_of_text.
  destruct (EmailDecoder.regex_split 0 [] text) as [|first more] eqn:E.
  - exfalso. exact (regex_split_nonempty _ _ _ E).
  - simpl. eauto.
Qed.

Lemma chained_body_first : before_first chain_at chained_body (py "Hi there" ++ [CR; LF]).
Proof.
  apply (before_first_decide chain_at chain_here chained_body
           (py "Hi there" ++ [CR; LF])
           (py "..From: someone@example.com" ++ [CR; LF] ++ py "Old reply")
           chain_here_spec); reflexivity.
Qed.

(** C3, as the code has it: the decoded text is split where two characters,
    neither of them a line feed, precede [From:]; the result is what precedes
    the leftmost such place, or the whole text when there is none, with
    carriage returns and line feeds removed.  The example body yields
    [Hi there]. *)
Theorem C3_chain_split {R : PyRuntime} (self : Decoder.t) (text : pystr) :
  Decoder.call self = Ok text ->
  (forall pre,
     before_first chain_at text pre ->
     EmailDecoder.fetch_first_email self = Ok (remove_crlf pre))
  /\ (nowhere chain_at text ->
      EmailDecoder.fetch_first_email self = Ok (remove_crlf text))
  /\ (exists out,
        EmailDecoder.fetch_first_email self = Ok out
        /\ ~ In CR out /\ ~ In LF out)
  /\ (text = chained_body ->
      EmailDecoder.fetch_first_email self = Ok (py "Hi there")).
Proof.
  intros Hcall.
  assert (E : EmailDecoder.fetch_first_email self = EmailDecoder.first_of_text text)
    by (unfold EmailDecoder.fetch_first_email; rewrite Hcall; reflexivity).
  rewrite E. split; [| split; [| split]].
  - apply first_of_text_before_first.
  - apply first_of_text_nowhere.
  - destruct (first_of_text_total text) as [out Hout].
    exists out. split; [assumption | exact (first_of_text_no_crlf _ _ Hout)].
  - intros ->. rewrite (first_of_text_before_first _ _ chained_body_first).
    reflexivity.
Qed.

Lemma C3_chain_split_witness :
  exists self,
    Decoder.__init__ (R := CPython.runtime)
      chained_body (py "us-ascii") (py "quoted-printable") = Ok self
    /\ EmailDecoder.fetch_first_email (R := CPython.runtime) self
       = Ok (py "Hi there").
Proof.
  eexists. split; [vm_compute; reflexivity |].
  refine (proj2 (proj2 (proj2
            (C3_chain_split (R := CPython.runtime) _ chained_body _))) eq_refl).
  vm_compute. reflexivity.
Defined.

(** When a line feed is one of the two characters before [From:] the text is
    not split there, against the wording "any two characters". *)
Lemma C3_line_feed_before_From_not_split :
  ~ chain_split_as_stated reply_at_line_start.
Proof.
  intros [H _].
  assert (B : before_first any_two_then_From reply_at_line_start (py "Hello")).
  { apply (before_first_decide any_two_then_From any_two_here reply_at_line_start
             (py "Hello") ([CR; LF] ++ py "From: x") any_two_here_spec);
      reflexivity. }
  specialize (H _ B). vm_compute in H. discriminate.
Qed.

(** ** main *)

Lemma for_loop_parsed {R : PyRuntime} (num_entries : N) (pre rest : list Message)
    (rs : list dict) (idx : N) (w : world) :
  parsed pre rs ->
  for_loop num_entries idx (pre ++ rest) w =
  for_loop num_entries (idx + N.of_nat (List.length pre)) rest
    (emitted num_entries idx rs w).
Proof.
  intros H. revert idx w. induction H as [|m r pre rs Hm _ IH]; intros idx w.
  - simpl. rewrite N.add_0_r. reflexivity.
  - simpl app. simpl for_loop. rewrite Hm. rewrite IH. simpl emitted.
    f_equal. simpl List.length. lia.
Qed.

Lemma emitted_closed (num_entries idx : N) (rs : list dict) (w : world) :
  closed (emitted num_entries idx rs w) = closed w.
Proof.
  revert idx w. induction rs as [|r rs IH]; intros idx w; simpl;
    [reflexivity | rewrite IH; reflexivity].
Qed.

Lemma emitted_log (num_entries idx : N) (rs : list dict) (w : world) :
  log (emitted num_entries idx rs w)
  = log w ++ progress num_entries idx (List.length rs).
Proof.
  revert idx w. induction rs as [|r rs IH]; intros idx w; simpl.
  - rewrite app_nil_r. reflexivity.
  - rewrite IH. simpl. rewrite <- app_assoc. reflexivity.
Qed.

Lemma emitted_spreadsheet (num_entries idx : N) (rs : list dict) (w : world) :
  spreadsheet (emitted num_entries idx rs w)
  = fold_left ExcelSheet.call rs (spreadsheet w).
Proof.
  revert idx w. induction rs as [|r rs IH]; intros idx w; simpl;
    [reflexivity | rewrite IH; reflexivity].
Qed.

Lemma calls_after_first (rs : list dict) (s : ExcelSheet.t) :
  ExcelSheet.row s <> 0 ->
  ExcelSheet.worksheet (fold_left ExcelSheet.call rs s)
  = ExcelSheet.worksheet s ++ content_rows (ExcelSheet.row s) rs.
Proof.
  revert s. induction rs as [|r rs IH]; intros s Hrow; simpl.
  - rewrite app_nil_r. reflexivity.
  - assert (E : ExcelSheet.call s r =
               {| ExcelSheet.worksheet :=
                    ExcelSheet.worksheet s
                      ++ ExcelSheet.write_row (ExcelSheet.row s) 0 (map snd r);
                  ExcelSheet.content := r;
                  ExcelSheet.row := ExcelSheet.row s + 1 |}).
    { unfold ExcelSheet.call, ExcelSheet._set_content. simpl.
      destruct (N.eqb_spec (ExcelSheet.row s) 0); [contradiction | reflexivity]. }
    rewrite E, IH by (simpl; lia). simpl. rewrite <- app_assoc. reflexivity.
Qed.

Lemma calls_from_new_sheet (rs : list dict) :
  ExcelSheet.worksheet (fold_left ExcelSheet.call rs ExcelSheet.__init__)
  = sheet_cells rs.
Proof.
  destruct rs as [|r rs]; [reflexivity|].
  simpl fold_left. rewrite calls_after_first by (simpl; lia).
  unfold sheet_cells. simpl. rewrite <- app_assoc. reflexivity.
Qed.

Lemma for_loop_closed {R : PyRuntime} (mbox : list Message) (n idx : N) (w : world) :
  closed (fst (for_loop n idx mbox w)) = closed w
  /\ raised (fst (for_loop n idx mbox w)) = raised w.
Proof.
  revert n idx w. induction mbox as [|m mbox IH]; intros n idx w; simpl;
    [split; reflexivity|].
  destruct (GmailMboxMessage.parse_email m); [|split; reflexivity].
  destruct (IH n (idx + 1) (info (Info (idx + 1) n) (spreadsheet_call a w)))
    as [E1 E2].
  rewrite E1, E2. split; reflexivity.
Qed.

Lemma main_closes_once {R : PyRuntime} (mbox : list Message) :
  closed (main (opened mbox)) = 1 /\ raised (main (opened mbox)) = None.
Proof.
  unfold main, opened. cbn [mailbox_mbox xlsxwriter_Workbook add_worksheet].
  pose proof (for_loop_closed mbox (N.of_nat (List.length mbox)) 0
                {| spreadsheet := ExcelSheet.__init__; log := []; closed := 0;
                   raised := None |}) as [H1 H2].
  destruct (for_loop _ _ _ _) as [w r]. simpl in H1, H2.
  destruct r; simpl; rewrite H1, H2; split; reflexivity.
Qed.

(** When the mailbox or the workbook cannot be opened, the [finally] clause
    finds [workbook] unbound: the error is logged, [main] ends with
    UnboundLocalError and nothing is closed. *)
Lemma main_unopened_never_closes {R : PyRuntime} (a : args) (e : exn) :
  mailbox_mbox a = Raise e
  \/ (exists mbox, mailbox_mbox a = Ok mbox) /\ xlsxwriter_Workbook a = Raise e ->
  closed (main a) = 0
  /\ log (main a) = [Error e]
  /\ raised (main a) = Some UnboundLocalError.
Proof.
  intros [H | [[mbox H1] H2]]; unfold main.
  - rewrite H. repeat split.
  - rewrite H1, H2. repeat split.
Qed.

(** C1, as the code has it: the [try] encloses the whole loop, so the first
    message that raises ends the run.  The records of the messages before it
    are in the spreadsheet, the log holds their progress lines and one
    error, no later message is read, the workbook is closed exactly once and
    [main] returns. *)
Theorem C1_batch_stops_at_first_failure {R : PyRuntime}
    (pre post : list Message) (m : Message) (rs : list dict) (e : exn) :
  parsed pre rs ->
  GmailMboxMessage.parse_email m = Raise e ->
  let mbox := pre ++ m :: post in
  ExcelSheet.worksheet (spreadsheet (main (opened mbox))) = sheet_cells rs
  /\ log (main (opened mbox))
     = progress (N.of_nat (List.length mbox)) 0 (List.length pre) ++ [Error e]
  /\ closed (main (opened mbox)) = 1
  /\ raised (main (opened mbox)) = None.
Proof.
  intros Hpre Hm mbox.
  assert (E : main (opened mbox) =
              workbook_close
                (info (Error e)
                   (emitted (N.of_nat (List.length mbox)) 0 rs
                      {| spreadsheet := ExcelSheet.__init__; log := [];
                         closed := 0; raised := None |}))).
  { unfold main, opened. cbn [mailbox_mbox xlsxwriter_Workbook add_worksheet].
    subst mbox. rewrite (for_loop_parsed _ _ _ _ _ _ Hpre).
    simpl for_loop. rewrite Hm. reflexivity. }
  split; [| split; [| split]].
  - rewrite E. simpl. rewrite emitted_spreadsheet. apply calls_from_new_sheet.
  - rewrite E. simpl. rewrite emitted_log. simpl.
    rewrite (Forall2_length Hpre). reflexivity.
  - apply main_closes_once.
  - apply main_closes_once.
Qed.

Lemma good_message_parsed :
  GmailMboxMessage.parse_email (R := CPython.runtime) good_message = Ok good_record.
Proof. vm_compute. reflexivity. Qed.

Lemma bad_message_raises :
  GmailMboxMessage.parse_email (R := CPython.runtime) bad_message
  = Raise BinasciiError.
Proof. vm_compute. reflexivity. Qed.

Lemma C1_batch_stops_at_first_failure_witness :
  ExcelSheet.worksheet
    (spreadsheet (main (R := CPython.runtime)
                    (opened ([good_message] ++ bad_message :: [good_message]))))
  = sheet_cells [good_record]
  /\ closed (main (R := CPython.runtime)
               (opened ([good_message] ++ bad_message :: [good_message]))) = 1.
Proof.
  pose proof (C1_batch_stops_at_first_failure (R := CPython.runtime)
                [good_message] [good_message] bad_message [good_record]
                BinasciiError
                (Forall2_cons _ _ good_message_parsed (Forall2_nil _))
                bad_message_raises) as H.
  split; [exact (proj1 H) | exact (proj1 (proj2 (proj2 H)))].
Defined.

(** A mailbox of two messages whose first raises: the record of the second
    is not emitted, against batch continuation. *)
Lemma C1_later_messages_not_processed :
  ~ batch_continues_as_stated (R := CPython.runtime) [bad_message; good_message] 0.
Proof.
  intros H.
  specialize (H bad_message BinasciiError [good_record] eq_refl
                bad_message_raises
                (Forall2_cons _ _ good_message_parsed (Forall2_nil _))).
  destruct H as [H _]. vm_compute in H. discriminate.
Qed.

(** ** The round trip *)

Lemma to_N_byte_of_N (n : N) : n < 256 -> Byte.to_N (CPython.byte_of_N n) = n.
Proof.
  intros H. unfold CPython.byte_of_N.
  destruct (Byte.of_N n) as [b|] eqn:E.
  - apply Byte.to_of_N. assumption.
  - apply Byte.of_N_None_iff in E. lia.
Qed.

Lemma byte_of_N_to_N (b : byte) : CPython.byte_of_N (Byte.to_N b) = b.
Proof. unfold CPython.byte_of_N. rewrite Byte.of_to_N. reflexivity. Qed.

Ltac Zify.zify_post_hook ::= Z.to_euclidean_division_equations.

Ltac decide_cmp b :=
  match b with
  | context [?x <? ?y] =>
      first [ rewrite (proj2 (N.ltb_lt x y)) by lia
            | rewrite (proj2 (N.ltb_ge x y)) by lia ]
  | context [?x <=? ?y] =>
      first [ rewrite (proj2 (N.leb_le x y)) by lia
            | rewrite (proj2 (N.leb_gt x y)) by lia ]
  | context [?x =? ?y] =>
      first [ rewrite (proj2 (N.eqb_eq x y)) by lia
            | rewrite (proj2 (N.eqb_neq x y)) by lia ]
  end.

(** Decide the tests at the head of the left-hand side, one after the other. *)
Ltac settle :=
  cbv beta zeta; rewrite ?to_N_byte_of_N by lia;
  repeat (match goal with
          | |- (if ?b then _ else _) = _ => decide_cmp b
          end; cbv [andb orb negb]; cbv beta iota).

Lemma Ok_inj {A} (a b : A) : Ok a = Ok b -> a = b.
Proof. intros H. injection H. auto. Qed.

Lemma utf8_decode_cons (b1 : byte) (d1 : pybytes) :
  CPython.utf8_decode (b1 :: d1) =
      let n1 := Byte.to_N b1 in
      if n1 <? 128 then s <- CPython.utf8_decode d1 ;; Ok (n1 :: s)
      else if n1 <? 192 then Raise UnicodeDecodeError
      else if n1 <? 224 then
        match d1 with
        | b2 :: d2 =>
            match CPython.continuation b2 with
            | Some c2 =>
                let c := (n1 - 192) * 64 + c2 in
                if c <? 128 then Raise UnicodeDecodeError
                else s <- CPython.utf8_decode d2 ;; Ok (c :: s)
            | None => Raise UnicodeDecodeError
            end
        | _ => Raise UnicodeDecodeError
        end
      else if n1 <? 240 then
        match d1 with
        | b2 :: b3 :: d3 =>
            match CPython.continuation b2, CPython.continuation b3 with
            | Some c2, Some c3 =>
                let c := (n1 - 224) * 4096 + c2 * 64 + c3 in
                if (c <? 2048) || ((55296 <=? c) && (c <=? 57343))
                then Raise UnicodeDecodeError
                else s <- CPython.utf8_decode d3 ;; Ok (c :: s)
            | _, _ => Raise UnicodeDecodeError
            end
        | _ => Raise UnicodeDecodeError
        end
      else if n1 <? 248 then
        match d1 with
        | b2 :: b3 :: b4 :: d4 =>
            match CPython.continuation b2, CPython.continuation b3, CPython.continuation b4 with
            | Some c2, Some c3, Some c4 =>
                let c := (n1 - 240) * 262144 + c2 * 4096 + c3 * 64 + c4 in
                if (c <? 65536) || (1114112 <=? c)
                then Raise UnicodeDecodeError
                else s <- CPython.utf8_decode d4 ;; Ok (c :: s)
            | _, _, _ => Raise UnicodeDecodeError
            end
        | _ => Raise UnicodeDecodeError
        end
      else Raise UnicodeDecodeError.
Proof. reflexivity. Qed.

Lemma continuation_byte (n : N) :
  n < 64 -> CPython.continuation (CPython.byte_of_N (128 + n)) = Some n.
Proof.
  intros H. unfold CPython.continuation. cbv zeta.
  settle. f_equal. lia.
Qed.

Lemma utf8_char_round_trip (c : N) (bs rest : pybytes) :
  CPython.utf8_encode_char c = Ok bs ->
  CPython.utf8_decode (bs ++ rest) = (s <- CPython.utf8_decode rest ;; Ok (c :: s)).
Proof.
  unfold CPython.utf8_encode_char.
  destruct (N.ltb_spec c 128) as [H1|H1].
  { intros E. apply Ok_inj in E. subst bs. cbn [app]. rewrite utf8_decode_cons. settle.
    reflexivity. }
  destruct (N.ltb_spec c 2048) as [H2|H2].
  { intros E. apply Ok_inj in E. subst bs. cbn [app]. rewrite utf8_decode_cons. settle.
    rewrite continuation_byte by (apply N.mod_lt; lia).
    replace ((192 + c / 64 - 192) * 64 + c mod 64) with c by lia.
    settle. reflexivity. }
  destruct (N.leb_spec 55296 c) as [H3|H3]; cbv [andb].
  { destruct (N.leb_spec c 57343) as [H4|H4]; [discriminate|].
    destruct (N.ltb_spec c 65536) as [H5|H5].
    { intros E. apply Ok_inj in E. subst bs. cbn [app]. rewrite utf8_decode_cons. settle.
      rewrite !continuation_byte by (apply N.mod_lt; lia).
      replace ((224 + c / 4096 - 224) * 4096 + (c / 64) mod 64 * 64 + c mod 64) with c by lia.
      settle. cbv [orb andb]. reflexivity. }
    destruct (N.ltb_spec c 1114112) as [H6|H6]; [|discriminate].
    intros E. apply Ok_inj in E. subst bs. cbn [app]. rewrite utf8_decode_cons. settle.
    rewrite !continuation_byte by (apply N.mod_lt; lia).
    replace ((240 + c / 262144 - 240) * 262144 + (c / 4096) mod 64 * 4096
             + (c / 64) mod 64 * 64 + c mod 64) with c by lia.
    settle. cbv [orb andb]. reflexivity. }
  destruct (N.ltb_spec c 65536) as [H5|H5]; [|lia].
  intros E. apply Ok_inj in E. subst bs. cbn [app]. rewrite utf8_decode_cons. settle.
  rewrite !continuation_byte by (apply N.mod_lt; lia).
  replace ((224 + c / 4096 - 224) * 4096 + (c / 64) mod 64 * 64 + c mod 64) with c by lia.
  settle. cbv [orb andb]. reflexivity.
Qed.

Lemma forall_below (n : nat) (Pb : N -> bool) :
  forallb Pb (below n) = true -> forall v, v < N.of_nat n -> Pb v = true.
Proof.
  intros H v Hv. rewrite forallb_forall in H. apply H.
  unfold below. apply in_map_iff. exists (N.to_nat v). split.
  - apply N2Nat.id.
  - apply in_seq. lia.
Qed.

Lemma a2b_base64_loop_cons (c : byte) (rest : pybytes) (quad_pos leftbits leftchar : N) :
  CPython.a2b_base64_loop (c :: rest) quad_pos leftbits leftchar =
      let this_ch := Byte.to_N c in
      if (127 <? this_ch) || (this_ch =? 13) || (this_ch =? 10) || (this_ch =? 32)
      then CPython.a2b_base64_loop rest quad_pos leftbits leftchar
      else if this_ch =? CPython.BASE64_PAD then
        if (quad_pos <? 2)
           || ((quad_pos =? 2)
               && negb (match CPython.binascii_find_valid (c :: rest) 1 with
                        | Some v => v =? CPython.BASE64_PAD
                        | None => false
                        end))
        then CPython.a2b_base64_loop rest quad_pos leftbits leftchar
        else ([], 0)
      else
        match CPython.table_a2b_base64 this_ch with
        | None => CPython.a2b_base64_loop rest quad_pos leftbits leftchar
        | Some v =>
            let quad_pos := N.land (quad_pos + 1) 3 in
            let leftchar := N.lor (N.shiftl leftchar 6) v in
            let leftbits := leftbits + 6 in
            if 8 <=? leftbits then
              let leftbits := leftbits - 8 in
              let out := CPython.byte_of_N (N.land (N.shiftr leftchar leftbits) 255) in
              let leftchar := N.land leftchar (N.shiftl 1 leftbits - 1) in
              let '(bin_data, final) :=
                CPython.a2b_base64_loop rest quad_pos leftbits leftchar in
              (out :: bin_data, final)
            else CPython.a2b_base64_loop rest quad_pos leftbits leftchar
        end.
Proof. reflexivity. Qed.

Lemma alphabet_ok_all (v : N) : v < 64 -> alphabet_ok v = true.
Proof. apply (forall_below 64). vm_compute. reflexivity. Qed.

(** One character of the alphabet, with no byte completed ... *)
Lemma loop_char_keep (v : N) (rest : pybytes) (quad_pos leftbits leftchar : N) :
  v < 64 -> leftbits + 6 < 8 ->
  CPython.a2b_base64_loop (CPython.table_b2a_base64 v :: rest) quad_pos leftbits leftchar
  = CPython.a2b_base64_loop rest (N.land (quad_pos + 1) 3) (leftbits + 6)
      (N.lor (N.shiftl leftchar 6) v).
Proof.
  intros Hv Hb. pose proof (alphabet_ok_all v Hv) as H.
  unfold alphabet_ok in H. cbv zeta in H.
  apply andb_true_iff in H as [H H3]. apply andb_true_iff in H as [H1 H2].
  apply negb_true_iff in H1, H2.
  rewrite a2b_base64_loop_cons. cbv zeta. rewrite H1, H2.
  destruct (CPython.table_a2b_base64 (to_N (CPython.table_b2a_base64 v)))
    as [v'|]; [|discriminate].
  apply N.eqb_eq in H3. subst v'.
  rewrite (proj2 (N.leb_gt 8 (leftbits + 6))) by lia. reflexivity.
Qed.

(** ... and with one completed. *)
Lemma loop_char_emit (v : N) (rest : pybytes) (quad_pos leftbits leftchar : N) :
  v < 64 -> 8 <= leftbits + 6 ->
  CPython.a2b_base64_loop (CPython.table_b2a_base64 v :: rest) quad_pos leftbits leftchar
  = let '(bin_data, final) :=
      CPython.a2b_base64_loop rest (N.land (quad_pos + 1) 3) (leftbits + 6 - 8)
        (N.land (N.lor (N.shiftl leftchar 6) v) (N.shiftl 1 (leftbits + 6 - 8) - 1)) in
    (CPython.byte_of_N
       (N.land (N.shiftr (N.lor (N.shiftl leftchar 6) v) (leftbits + 6 - 8)) 255)
       :: bin_data, final).
Proof.
  intros Hv Hb. pose proof (alphabet_ok_all v Hv) as H.
  unfold alphabet_ok in H. cbv zeta in H.
  apply andb_true_iff in H as [H H3]. apply andb_true_iff in H as [H1 H2].
  apply negb_true_iff in H1, H2.
  rewrite a2b_base64_loop_cons. cbv zeta. rewrite H1, H2.
  destruct (CPython.table_a2b_base64 (to_N (CPython.table_b2a_base64 v)))
    as [v'|]; [|discriminate].
  apply N.eqb_eq in H3. subst v'.
  rewrite (proj2 (N.leb_le 8 (leftbits + 6))) by lia. reflexivity.
Qed.

Lemma second_char (a hb : N) :
  a < 256 -> hb < 16 ->
  N.land (N.shiftr (N.lor (N.shiftl (a / 4) 6) ((a mod 4) * 16 + hb)) 4) 255 = a
  /\ N.land (N.lor (N.shiftl (a / 4) 6) ((a mod 4) * 16 + hb)) (N.shiftl 1 4 - 1) = hb.
Proof.
  intros Ha Hb.
  assert (H : second_char_ok a = true)
    by (apply (forall_below 256); [vm_compute; reflexivity | exact Ha]).
  unfold second_char_ok in H.
  apply (forall_below 16 _ H) in Hb. cbv zeta in Hb.
  apply andb_true_iff in Hb as [H1 H2].
  apply N.eqb_eq in H1, H2. auto.
Qed.

Lemma third_char (hb lb hc : N) :
  hb < 16 -> lb < 16 -> hc < 4 ->
  N.land (N.shiftr (N.lor (N.shiftl hb 6) (lb * 4 + hc)) 2) 255 = hb * 16 + lb
  /\ N.land (N.lor (N.shiftl hb 6) (lb * 4 + hc)) (N.shiftl 1 2 - 1) = hc.
Proof.
  intros Hhb Hlb Hhc.
  assert (H : third_char_ok hb = true)
    by (apply (forall_below 16); [vm_compute; reflexivity | exact Hhb]).
  unfold third_char_ok in H.
  apply (forall_below 16 _ H) in Hlb.
  apply (forall_below 4 _ Hlb) in Hhc. cbv zeta in Hhc.
  apply andb_true_iff in Hhc as [H1 H2].
  apply N.eqb_eq in H1, H2. auto.
Qed.

Lemma fourth_char (hc lc : N) :
  hc < 4 -> lc < 64 ->
  N.land (N.shiftr (N.lor (N.shiftl hc 6) lc) 0) 255 = hc * 64 + lc
  /\ N.land (N.lor (N.shiftl hc 6) lc) (N.shiftl 1 0 - 1) = 0.
Proof.
  intros Hhc Hlc.
  assert (H : fourth_char_ok hc = true)
    by (apply (forall_below 4); [vm_compute; reflexivity | exact Hhc]).
  unfold fourth_char_ok in H.
  apply (forall_below 64 _ H) in Hlc. cbv zeta in Hlc.
  apply andb_true_iff in Hlc as [H1 H2].
  apply N.eqb_eq in H1, H2. auto.
Qed.

Lemma list_ind3 {A} (P : list A -> Prop) :
  P [] -> (forall x, P [x]) -> (forall x y, P [x; y]) ->
  (forall x y z rest, P rest -> P (x :: y :: z :: rest)) ->
  forall l, P l.
Proof.
  intros H0 H1 H2 H3. fix IH 1.
  intros [|x [|y [|z rest]]]; [exact H0 | apply H1 | apply H2 |].
  apply H3. apply IH.
Qed.

Lemma to_N_lt_256 (b : byte) : Byte.to_N b < 256.
Proof. pose proof (Byte.to_N_bounded b). lia. Qed.

(** After the first two characters of a group the first byte is out and the
    high half of the second is held back. *)
Lemma loop_two_chars (a hb : N) (rest : pybytes) :
  a < 256 -> hb < 16 ->
  CPython.a2b_base64_loop
    (CPython.table_b2a_base64 (a / 4)
       :: CPython.table_b2a_base64 ((a mod 4) * 16 + hb) :: rest) 0 0 0
  = let '(bin_data, final) := CPython.a2b_base64_loop rest 2 4 hb in
    (CPython.byte_of_N a :: bin_data, final).
Proof.
  intros Ha Hb.
  rewrite loop_char_keep by lia.
  rewrite loop_char_emit by lia.
  change (N.land (0 + 1) 3) with 1. change (N.land (1 + 1) 3) with 2.
  change (0 + 6 + 6 - 8) with 4.
  rewrite N.shiftl_0_l, N.lor_0_l.
  destruct (second_char a hb Ha Hb) as [-> ->]. reflexivity.
Qed.

Lemma loop_third_char (hb lb hc : N) (rest : pybytes) :
  hb < 16 -> lb < 16 -> hc < 4 ->
  CPython.a2b_base64_loop (CPython.table_b2a_base64 (lb * 4 + hc) :: rest) 2 4 hb
  = let '(bin_data, final) := CPython.a2b_base64_loop rest 3 2 hc in
    (CPython.byte_of_N (hb * 16 + lb) :: bin_data, final).
Proof.
  intros Hhb Hlb Hhc.
  rewrite loop_char_emit by lia.
  change (N.land (2 + 1) 3) with 3. change (4 + 6 - 8) with 2.
  destruct (third_char hb lb hc Hhb Hlb Hhc) as [-> ->]. reflexivity.
Qed.

Lemma loop_fourth_char (hc lc : N) (rest : pybytes) :
  hc < 4 -> lc < 64 ->
  CPython.a2b_base64_loop (CPython.table_b2a_base64 lc :: rest) 3 2 hc
  = let '(bin_data, final) := CPython.a2b_base64_loop rest 0 0 0 in
    (CPython.byte_of_N (hc * 64 + lc) :: bin_data, final).
Proof.
  intros Hhc Hlc.
  rewrite loop_char_emit by lia.
  change (N.land (3 + 1) 3) with 0. change (2 + 6 - 8) with 0.
  destruct (fourth_char hc lc Hhc Hlc) as [-> ->]. reflexivity.
Qed.

Lemma byte_of_parts_16 (b : byte) :
  CPython.byte_of_N (Byte.to_N b / 16 * 16 + Byte.to_N b mod 16) = b.
Proof.
  replace (Byte.to_N b / 16 * 16 + Byte.to_N b mod 16) with (Byte.to_N b) by lia.
  apply byte_of_N_to_N.
Qed.

Lemma byte_of_parts_64 (b : byte) :
  CPython.byte_of_N (Byte.to_N b / 64 * 64 + Byte.to_N b mod 64) = b.
Proof.
  replace (Byte.to_N b / 64 * 64 + Byte.to_N b mod 64) with (Byte.to_N b) by lia.
  apply byte_of_N_to_N.
Qed.

Lemma a2b_base64_loop_b64encode (data : pybytes) :
  CPython.a2b_base64_loop (CPython.b64encode data) 0 0 0 = (data, 0).
Proof.
  induction data as [| x | x y | x y z rest IH] using list_ind3.
  - reflexivity.
  - pose proof (to_N_lt_256 x).
    cbn [CPython.b64encode]. cbv zeta.
    replace (Byte.to_N x mod 4 * 16) with (Byte.to_N x mod 4 * 16 + 0) by lia.
    rewrite loop_two_chars by lia.
    change (CPython.a2b_base64_loop [CPython.pad; CPython.pad] 2 4 0) with
      (@nil byte, 0).
    rewrite byte_of_N_to_N. reflexivity.
  - pose proof (to_N_lt_256 x). pose proof (to_N_lt_256 y).
    cbn [CPython.b64encode]. cbv zeta.
    rewrite loop_two_chars by lia.
    replace (Byte.to_N y mod 16 * 4) with (Byte.to_N y mod 16 * 4 + 0) by lia.
    rewrite loop_third_char by lia.
    change (CPython.a2b_base64_loop [CPython.pad] 3 2 0) with (@nil byte, 0).
    rewrite byte_of_N_to_N, byte_of_parts_16. reflexivity.
  - pose proof (to_N_lt_256 x). pose proof (to_N_lt_256 y).
    pose proof (to_N_lt_256 z).
    cbn [CPython.b64encode]. cbv zeta.
    rewrite loop_two_chars by lia.
    rewrite loop_third_char by lia.
    rewrite loop_fourth_char by lia.
    rewrite IH, byte_of_N_to_N, byte_of_parts_16, byte_of_parts_64. reflexivity.
Qed.

Lemma a2b_base64_b64encode (data : pybytes) :
  CPython.a2b_base64 (CPython.b64encode data) = Ok data.
Proof.
  unfold CPython.a2b_base64. rewrite a2b_base64_loop_b64encode. reflexivity.
Qed.

(** *** quoted-printable *)

Lemma a2b_qp_token (c : byte) (rest : pybytes) :
  CPython.a2b_qp false (CPython.qp_token c ++ rest) = c :: CPython.a2b_qp false rest.
Proof. destruct c; reflexivity. Qed.

Lemma a2b_qp_soft_break (rest : pybytes) :
  CPython.a2b_qp false (CPython.byte_of_N 61 :: CPython.byte_of_N LF :: rest)
  = CPython.a2b_qp false rest.
Proof. reflexivity. Qed.

Lemma a2b_qp_qp_encode (column : nat) (data : pybytes) :
  CPython.a2b_qp false (CPython.qp_encode column data) = data.
Proof.
  revert column. induction data as [|c data IH]; intros column.
  - reflexivity.
  - cbn [CPython.qp_encode]. cbv zeta.
    destruct (Nat.ltb 72 (column + List.length (CPython.qp_token c))).
    + rewrite a2b_qp_soft_break, a2b_qp_token, IH. reflexivity.
    + rewrite a2b_qp_token, IH. reflexivity.
Qed.

(** *** Seven-bit text *)

Lemma seven_bit_app (a b : pybytes) :
  seven_bit (a ++ b) = seven_bit a && seven_bit b.
Proof. apply forallb_app. Qed.

Lemma qp_token_seven_bit (c : byte) : seven_bit (CPython.qp_token c) = true.
Proof. destruct c; reflexivity. Qed.

Lemma qp_encode_seven_bit (column : nat) (data : pybytes) :
  seven_bit (CPython.qp_encode column data) = true.
Proof.
  revert column. induction data as [|c data IH]; intros column.
  - reflexivity.
  - cbn [CPython.qp_encode]. cbv zeta.
    destruct (Nat.ltb 72 (column + List.length (CPython.qp_token c))).
    + change (seven_bit (CPython.qp_token c ++ CPython.qp_encode (List.length (CPython.qp_token c)) data) = true).
      rewrite seven_bit_app, qp_token_seven_bit, IH. reflexivity.
    + rewrite seven_bit_app, qp_token_seven_bit, IH. reflexivity.
Qed.

Lemma table_b2a_seven_bit (v : N) :
  v < 64 -> (Byte.to_N (CPython.table_b2a_base64 v) <? 128) = true.
Proof.
  apply (forall_below 64 (fun v => Byte.to_N (CPython.table_b2a_base64 v) <? 128)).
  vm_compute. reflexivity.
Qed.

Lemma b64encode_seven_bit (data : pybytes) :
  seven_bit (CPython.b64encode data) = true.
Proof.
  induction data as [| x | x y | x y z rest IH] using list_ind3.
  - reflexivity.
  - pose proof (to_N_lt_256 x).
    cbn [CPython.b64encode seven_bit forallb]. cbv zeta.
    rewrite !table_b2a_seven_bit by lia. reflexivity.
  - pose proof (to_N_lt_256 x). pose proof (to_N_lt_256 y).
    cbn [CPython.b64encode seven_bit forallb]. cbv zeta.
    rewrite !table_b2a_seven_bit by lia. reflexivity.
  - pose proof (to_N_lt_256 x). pose proof (to_N_lt_256 y).
    pose proof (to_N_lt_256 z).
    cbn [CPython.b64encode seven_bit forallb]. cbv zeta.
    rewrite !table_b2a_seven_bit by lia. exact IH.
Qed.

(** *** The charsets *)

(** Seven-bit text encodes to its own bytes. *)
Lemma encode_chars_seven_bit (f : N -> result pybytes) :
  (forall b, Byte.to_N b < 128 -> f (Byte.to_N b) = Ok [b]) ->
  forall data, seven_bit data = true ->
  CPython.encode_chars f (ascii_text data) = Ok data.
Proof.
  intros Hf. induction data as [|b data IH]; intros H.
  - reflexivity.
  - cbn [seven_bit forallb] in H. apply andb_true_iff in H as [Hb H].
    apply N.ltb_lt in Hb.
    cbn [ascii_text map CPython.encode_chars].
    rewrite (Hf b Hb). cbn [bind].
    unfold ascii_text in IH. rewrite (IH H). reflexivity.
Qed.

Lemma utf8_seven_bit (b : byte) :
  Byte.to_N b < 128 -> CPython.utf8_encode_char (Byte.to_N b) = Ok [b].
Proof.
  intros H. unfold CPython.utf8_encode_char.
  rewrite (proj2 (N.ltb_lt _ _) H), byte_of_N_to_N. reflexivity.
Qed.

Lemma ascii_seven_bit (b : byte) :
  Byte.to_N b < 128 -> CPython.ascii_encode_char (Byte.to_N b) = Ok [b].
Proof.
  intros H. unfold CPython.ascii_encode_char.
  rewrite (proj2 (N.ltb_lt _ _) H), byte_of_N_to_N. reflexivity.
Qed.

Lemma jis_seven_bit (data : pybytes) :
  seven_bit data = true -> CPython.jis_encode (ascii_text data) = Ok data.
Proof.
  unfold CPython.jis_encode. induction data as [|b data IH]; intros H.
  - reflexivity.
  - cbn [seven_bit forallb] in H. apply andb_true_iff in H as [Hb H].
    cbn [ascii_text map CPython.jis_encode_from]. rewrite Hb.
    fold (ascii_text data). rewrite (IH H). cbn [bind].
    rewrite byte_of_N_to_N. reflexivity.
Qed.

Lemma latin2_seven_bit (b : byte) :
  Byte.to_N b < 128 -> CPython.latin2_encode_char (Byte.to_N b) = Ok [b].
Proof.
  intros H. unfold CPython.latin2_encode_char.
  rewrite (proj2 (N.ltb_lt (Byte.to_N b) 160)) by lia.
  rewrite byte_of_N_to_N. reflexivity.
Qed.

Lemma encode_seven_bit (charset : pystr) (data : pybytes) :
  In charset supported_charsets ->
  seven_bit data = true ->
  CPython.encode charset (ascii_text data) = Ok data.
Proof.
  intros Hcs H.
  destruct Hcs as [<- | [<- | [<- | [<- | []]]]].
  - change (CPython.utf8_encode (ascii_text data) = Ok data).
    apply encode_chars_seven_bit; [exact utf8_seven_bit | exact H].
  - change (CPython.jis_encode (ascii_text data) = Ok data).
    exact (jis_seven_bit data H).
  - change (CPython.latin2_encode (ascii_text data) = Ok data).
    apply encode_chars_seven_bit; [exact latin2_seven_bit | exact H].
  - change (CPython.ascii_encode (ascii_text data) = Ok data).
    apply encode_chars_seven_bit; [exact ascii_seven_bit | exact H].
Qed.

(** A decoder that undoes the encoder one character at a time undoes it on
    every text whose characters satisfy [P]. *)
Lemma encode_chars_round_trip (f : N -> result pybytes)
    (dec : pybytes -> result pystr) (P : N -> Prop) :
  dec [] = Ok [] ->
  (forall c bs rest,
     P c -> f c = Ok bs -> dec (bs ++ rest) = (s <- dec rest ;; Ok (c :: s))) ->
  forall text data,
    Forall P text -> CPython.encode_chars f text = Ok data -> dec data = Ok text.
Proof.
  intros Hnil Hchar. induction text as [|c text IH]; intros data HP H.
  - cbn in H. apply Ok_inj in H. subst data. exact Hnil.
  - cbn [CPython.encode_chars] in H.
    apply bind_Ok in H as [bs [Hc H]]. apply bind_Ok in H as [rest [Hrest H]].
    apply Ok_inj in H. subst data.
    inversion HP as [|? ? Pc Ptext]; subst.
    rewrite (Hchar c bs rest Pc Hc), (IH rest Ptext Hrest). reflexivity.
Qed.

Lemma utf8_round_trip (text : pystr) (data : pybytes) :
  CPython.utf8_encode text = Ok data -> CPython.utf8_decode data = Ok text.
Proof.
  apply (encode_chars_round_trip CPython.utf8_encode_char CPython.utf8_decode
           (fun _ => True)).
  - reflexivity.
  - intros c bs rest _. apply utf8_char_round_trip.
  - apply Forall_forall. intros; exact I.
Qed.

Lemma decode_bytes_cons (f : byte -> result N) (b : byte) (d : pybytes) :
  CPython.decode_bytes f (b :: d)
  = (c <- f b ;; s <- CPython.decode_bytes f d ;; Ok (c :: s)).
Proof. reflexivity. Qed.

Lemma ascii_round_trip (text : pystr) (data : pybytes) :
  CPython.ascii_encode text = Ok data -> CPython.ascii_decode data = Ok text.
Proof.
  apply (encode_chars_round_trip CPython.ascii_encode_char CPython.ascii_decode
           (fun _ => True)).
  - reflexivity.
  - intros c bs rest _. unfold CPython.ascii_encode_char.
    destruct (N.ltb_spec c 128) as [Hc|Hc]; [|discriminate].
    intros E. apply Ok_inj in E. subst bs. cbn [app].
    unfold CPython.ascii_decode. rewrite decode_bytes_cons.
    unfold CPython.ascii_decode_byte. rewrite to_N_byte_of_N by lia.
    rewrite (proj2 (N.ltb_lt _ _) Hc). reflexivity.
  - apply Forall_forall. intros; exact I.
Qed.

Lemma index_of_spec (c : N) (xs : list N) (i n : N) :
  CPython.index_of c xs i = Some n ->
  i <= n /\ n < i + N.of_nat (List.length xs)
  /\ nth (N.to_nat (n - i)) xs 0 = c.
Proof.
  revert i. induction xs as [|x xs IH]; intros i; cbn [CPython.index_of].
  - discriminate.
  - destruct (N.eqb_spec x c) as [->|Hne].
    + intros E. injection E as <-. rewrite N.sub_diag. cbn [List.length].
      split; [lia | split; [lia | reflexivity]].
    + intros E. apply IH in E as [H1 [H2 H3]]. cbn [List.length].
      split; [lia | split; [lia |]].
      replace (N.to_nat (n - i)) with (S (N.to_nat (n - (i + 1)))) by lia.
      exact H3.
Qed.

Lemma latin2_round_trip (text : pystr) (data : pybytes) :
  CPython.latin2_encode text = Ok data -> CPython.latin2_decode data = Ok text.
Proof.
  apply (encode_chars_round_trip CPython.latin2_encode_char CPython.latin2_decode
           (fun _ => True)).
  - reflexivity.
  - intros c bs rest _. unfold CPython.latin2_encode_char.
    unfold CPython.latin2_decode. 
    destruct (N.ltb_spec c 160) as [Hc|Hc].
    + intros E. apply Ok_inj in E. subst bs. cbn [app].
      rewrite decode_bytes_cons.
      unfold CPython.latin2_decode_byte, CPython.latin2_decode_N.
      rewrite to_N_byte_of_N by lia.
      rewrite (proj2 (N.ltb_lt _ _) Hc). reflexivity.
    + destruct (CPython.index_of c CPython.latin2_high 160) as [n|] eqn:En;
        [|discriminate].
      intros E. apply Ok_inj in E. subst bs. cbn [app].
      apply index_of_spec in En as [H1 [H2 H3]].
      change (N.of_nat (List.length CPython.latin2_high)) with 96 in H2.
      rewrite decode_bytes_cons.
      unfold CPython.latin2_decode_byte, CPython.latin2_decode_N.
      rewrite to_N_byte_of_N by lia.
      rewrite (proj2 (N.ltb_ge n 160)) by lia.
      rewrite H3. reflexivity.
  - apply Forall_forall. intros; exact I.
Qed.

Lemma jis_decode_designate (g0 g : CPython.jis_charset) (d : pybytes) :
  CPython.jis_decode_from g0 false (CPython.jis_designate g0 g ++ d)
  = CPython.jis_decode_from g false d.
Proof. destruct g0, g; reflexivity. Qed.

Lemma jis_decode_plain (g0 : CPython.jis_charset) (b : byte) (d1 : pybytes) :
  Byte.to_N b <> CPython.ESC ->
  CPython.jis_decode_from g0 false (b :: d1) =
  let c := Byte.to_N b in
  if c <? 32 then s <- CPython.jis_decode_from g0 false d1 ;; Ok (c :: s)
  else if 128 <=? c then Raise UnicodeDecodeError
  else
    match g0 with
    | CPython.JIS_ASCII => s <- CPython.jis_decode_from g0 false d1 ;; Ok (c :: s)
    | CPython.JISX0201_R =>
        s <- CPython.jis_decode_from g0 false d1 ;; Ok (CPython.jisx0201_r_decoder c :: s)
    | CPython.JISX0208 =>
        match d1 with
        | [] => Raise UnicodeDecodeError
        | b2 :: d2 =>
            match CPython.jisx0208_decoder c (Byte.to_N b2) with
            | Some u => s <- CPython.jis_decode_from g0 false d2 ;; Ok (u :: s)
            | None => Raise UnicodeDecodeError
            end
        end
    end.
Proof.
  intros H. apply N.eqb_neq in H.
  cbn [CPython.jis_decode_from]. cbv zeta. rewrite H. destruct g0; reflexivity.
Qed.

Lemma jis_decode_ascii (c : N) (d1 : pybytes) :
  c < 128 -> c <> CPython.ESC ->
  CPython.jis_decode_from CPython.JIS_ASCII false (CPython.byte_of_N c :: d1) =
  (s <- CPython.jis_decode_from CPython.JIS_ASCII false d1 ;; Ok (c :: s)).
Proof.
  intros Hc He.
  rewrite jis_decode_plain by (rewrite to_N_byte_of_N by lia; exact He).
  cbv zeta. rewrite to_N_byte_of_N by lia.
  destruct (c <? 32); [reflexivity|].
  rewrite (proj2 (N.leb_gt 128 c)) by lia. reflexivity.
Qed.

Lemma jisx0208_length : N.of_nat (List.length CPython.jisx0208) = 8836.
Proof. vm_compute. reflexivity. Qed.

Lemma jisx0208_encoder_spec (c hi lo : N) :
  128 <= c ->
  CPython.jisx0208_encoder c = Some (hi, lo) ->
  33 <= hi <= 126 /\ 33 <= lo <= 126
  /\ CPython.jisx0208_decoder hi lo = Some c.
Proof.
  intros Hc. unfold CPython.jisx0208_encoder.
  destruct (CPython.index_of c CPython.jisx0208 0) as [p|] eqn:E; [|discriminate].
  intros H.
  assert (Hh : hi = 33 + p / 94) by congruence.
  assert (Hl : lo = 33 + p mod 94) by congruence.
  clear H.
  apply index_of_spec in E as [_ [Hp Hn]]. rewrite jisx0208_length in Hp.
  rewrite N.sub_0_r in Hn.
  assert (Hhi : 33 <= hi <= 126) by lia.
  assert (Hlo : 33 <= lo <= 126) by lia.
  split; [exact Hhi | split; [exact Hlo|]].
  unfold CPython.jisx0208_decoder.
  rewrite (proj2 (N.leb_le 33 hi)) by lia.
  rewrite (proj2 (N.leb_le hi 126)) by lia.
  rewrite (proj2 (N.leb_le 33 lo)) by lia.
  rewrite (proj2 (N.leb_le lo 126)) by lia.
  cbn [andb]. cbv zeta.
  replace ((hi - 33) * 94 + (lo - 33)) with p by lia.
  rewrite Hn. rewrite (proj2 (N.eqb_neq c 0)) by lia. reflexivity.
Qed.

Lemma jis_decode_double (c hi lo : N) (d2 : pybytes) :
  33 <= hi <= 126 -> 33 <= lo <= 126 ->
  CPython.jisx0208_decoder hi lo = Some c ->
  CPython.jis_decode_from CPython.JISX0208 false (CPython.byte_of_N hi :: CPython.byte_of_N lo :: d2) =
  (s <- CPython.jis_decode_from CPython.JISX0208 false d2 ;; Ok (c :: s)).
Proof.
  intros Hhi Hlo Hd.
  rewrite jis_decode_plain
    by (rewrite to_N_byte_of_N by lia; unfold CPython.ESC; lia).
  cbv zeta. rewrite !to_N_byte_of_N by lia.
  rewrite (proj2 (N.ltb_ge hi 32)) by lia.
  rewrite (proj2 (N.leb_gt 128 hi)) by lia.
  rewrite Hd. reflexivity.
Qed.

Lemma jis_round_trip_from (text : pystr) :
  ~ In CPython.ESC text ->
  forall g0 data,
    CPython.jis_encode_from g0 text = Ok data ->
    CPython.jis_decode_from g0 false data = Ok text.
Proof.
  induction text as [|c text IH]; intros Hesc g0 data.
  - cbn [CPython.jis_encode_from]. intros H. injection H as <-.
    destruct g0; reflexivity.
  - assert (Hc : c <> CPython.ESC) by (intros ->; apply Hesc; left; reflexivity).
    assert (Ht : ~ In CPython.ESC text) by (intros H; apply Hesc; right; exact H).
    cbn [CPython.jis_encode_from].
    destruct (N.ltb_spec c 128) as [Hlt | Hge].
    + intros H. apply bind_Ok in H as [rest [Hr H]]. injection H as <-.
      rewrite jis_decode_designate, jis_decode_ascii by assumption.
      rewrite (IH Ht _ _ Hr). reflexivity.
    + destruct (CPython.jisx0208_encoder c) as [[hi lo]|] eqn:E.
      * intros H. apply bind_Ok in H as [rest [Hr H]]. injection H as <-.
        destruct (jisx0208_encoder_spec c hi lo Hge E) as [Hhi [Hlo Hd]].
        rewrite jis_decode_designate, (jis_decode_double c) by assumption.
        rewrite (IH Ht _ _ Hr). reflexivity.
      * destruct (N.eqb_spec c 165) as [-> | H165].
        { intros H. apply bind_Ok in H as [rest [Hr H]]. injection H as <-.
          rewrite jis_decode_designate.
          rewrite jis_decode_plain by (vm_compute; discriminate).
          cbv zeta. change (Byte.to_N x5c) with 92.
          cbn -[CPython.jis_decode_from].
          rewrite (IH Ht _ _ Hr). reflexivity. }
        destruct (N.eqb_spec c 8254) as [-> | H8254]; [|discriminate].
        intros H. apply bind_Ok in H as [rest [Hr H]]. injection H as <-.
        rewrite jis_decode_designate.
        rewrite jis_decode_plain by (vm_compute; discriminate).
        cbv zeta. change (Byte.to_N x7e) with 126.
        cbn -[CPython.jis_decode_from].
        rewrite (IH Ht _ _ Hr). reflexivity.
Qed.

(** Under iso-2022-jp the text must not hold the escape character. *)
Lemma jis_round_trip (text : pystr) (data : pybytes) :
  ~ In CPython.ESC text ->
  CPython.jis_encode text = Ok data -> CPython.jis_decode data = Ok text.
Proof. intros H. exact (jis_round_trip_from text H CPython.JIS_ASCII data). Qed.

Lemma decode_encode (charset text : pystr) (data : pybytes) :
  In charset supported_charsets ->
  (charset = py "iso-2022-jp" -> ~ In CPython.ESC text) ->
  CPython.encode charset text = Ok data ->
  CPython.decode charset data = Ok text.
Proof.
  intros Hcs Hesc.
  destruct Hcs as [<- | [<- | [<- | [<- | []]]]].
  - exact (utf8_round_trip text data).
  - exact (jis_round_trip text data (Hesc eq_refl)).
  - exact (latin2_round_trip text data).
  - exact (ascii_round_trip text data).
Qed.

Lemma transfer_encode_seven_bit (transfer_method : pystr) (data : pybytes) :
  seven_bit (CPython.transfer_encode transfer_method data) = true.
Proof.
  unfold CPython.transfer_encode.
  destruct (str_eqb transfer_method (py "base64"));
    [apply b64encode_seven_bit | apply qp_encode_seven_bit].
Qed.

(** C6, as the code has it: for utf-8, iso-8859-2 and us-ascii with either
    transfer method, encoding a text the charset can encode, transfer-encoding
    the bytes, and decoding the resulting text with ContentDecoder gives the
    text back.  Under iso-2022-jp this holds for text without the escape
    character: an escape sequence in the text is read back as a designation
    and is lost. *)
Theorem C6_round_trip (charset transfer_method text : pystr) (data : pybytes) :
  In charset supported_charsets ->
  In transfer_method supported_transfers ->
  (charset = py "iso-2022-jp" -> ~ In CPython.ESC text) ->
  CPython.encode charset text = Ok data ->
  ContentDecoder (R := CPython.runtime)
    (ascii_text (CPython.transfer_encode transfer_method data))
    charset transfer_method = Ok text.
Proof.
  intros Hcs Htm Hesc Henc.
  unfold ContentDecoder, Decoder.__init__, Decoder._encode_charset.
  cbn [str_encode CPython.runtime].
  rewrite (encode_seven_bit charset _ Hcs (transfer_encode_seven_bit _ _)).
  cbn [bind]. unfold Decoder.call, Decoder._decode_with_transfer.
  cbn [Decoder.transfer_method Decoder.bynary Decoder.charset].
  destruct Htm as [<- | [<- | []]].
  - change (str_eqb (py "base64") (py "base64")) with true. cbv iota.
    unfold Decoder._decode_with_base64. cbn [Decoder.bynary b64decode CPython.runtime].
    change (CPython.transfer_encode (py "base64") data) with (CPython.b64encode data).
    rewrite a2b_base64_b64encode. cbn [bind Decoder._decode_charset Decoder.charset].
    cbn [bytes_decode CPython.runtime].
    exact (decode_encode charset text data Hcs Hesc Henc).
  - change (str_eqb (py "quoted-printable") (py "base64")) with false.
    change (str_eqb (py "quoted-printable") (py "quoted-printable")) with true.
    cbv iota.
    unfold Decoder._decode_with_quoted_printable.
    cbn [Decoder.bynary quopri_decodestring CPython.runtime].
    change (CPython.transfer_encode (py "quoted-printable") data)
      with (CPython.qp_encode 0 data).
    rewrite a2b_qp_qp_encode. cbn [bind Decoder._decode_charset Decoder.charset].
    cbn [bytes_decode CPython.runtime].
    exact (decode_encode charset text data Hcs Hesc Henc).
Qed.

(** [Caf\u00e9] under utf-8 and quoted-printable, and the three characters
    U+65E5 U+672C U+8A9E of JIS X 0208 under iso-2022-jp and base64. *)
Lemma C6_round_trip_witness :
  ContentDecoder (R := CPython.runtime)
    (ascii_text (CPython.transfer_encode (py "quoted-printable")
                   (pyb "Caf" ++ [xc3; xa9])))
    (py "utf-8") (py "quoted-printable")
  = Ok (py "Caf" ++ [233])
  /\ ContentDecoder (R := CPython.runtime)
       (ascii_text (CPython.transfer_encode (py "base64")
                      [x1b; x24; x42; x46; x7c; x4b; x5c; x38; x6c;
                       x1b; x28; x42]))
       (py "iso-2022-jp") (py "base64")
     = Ok [26085; 26412; 35486].
Proof.
  split.
  - apply C6_round_trip.
    + left; reflexivity.
    + right; left; reflexivity.
    + intros H; vm_compute in H; discriminate.
    + vm_compute; reflexivity.
  - apply C6_round_trip.
    + right; left; reflexivity.
    + left; reflexivity.
    + intros _ H. vm_compute in H. intuition discriminate.
    + vm_compute; reflexivity.
Defined.

(** The text [ESC ( B] under iso-2022-jp and base64 comes back empty. *)
Lemma C6_escape_sequence_lost :
  ~ round_trip_as_stated (py "iso-2022-jp") (py "base64") [CPython.ESC; 40; 66].
Proof.
  intros H. specialize (H [x1b; x28; x42] eq_refl).
  vm_compute in H. discriminate.
Qed.

(** ** ContentDecoder: stage failures and malformed payloads *)

Lemma a2b_base64_loop_leftbits (vs : list N) :
  Forall (fun v => v < 64) vs ->
  forall quad_pos leftbits leftchar,
    leftbits = 0 \/ leftbits = 2 \/ leftbits = 4 \/ leftbits = 6 ->
    snd (CPython.a2b_base64_loop (map CPython.table_b2a_base64 vs)
           quad_pos leftbits leftchar)
    = (leftbits + 6 * N.of_nat (List.length vs)) mod 8.
Proof.
  induction 1 as [|v vs Hv _ IH]; intros quad_pos leftbits leftchar Hb.
  - cbn [map CPython.a2b_base64_loop snd List.length]. lia.
  - cbn [map List.length].
    destruct (N.eq_dec leftbits 0) as [-> | Hnz].
    + rewrite loop_char_keep by (try exact Hv; lia).
      rewrite IH by lia. lia.
    + rewrite loop_char_emit by (try exact Hv; lia).
      specialize (IH (N.land (quad_pos + 1) 3) (leftbits + 6 - 8)
                    (N.land (N.lor (N.shiftl leftchar 6) v)
                       (N.shiftl 1 (leftbits + 6 - 8) - 1))).
      destruct (CPython.a2b_base64_loop _ _ _ _) as [bin_data final].
      cbn [snd] in *. rewrite IH by lia. lia.
Qed.

Lemma seven_bit_alphabet (vs : list N) :
  Forall (fun v => v < 64) vs ->
  seven_bit (map CPython.table_b2a_base64 vs) = true.
Proof.
  induction 1 as [|v vs Hv _ IH]; [reflexivity|].
  cbn [map seven_bit forallb]. apply andb_true_iff. split; [|exact IH].
  pose proof (alphabet_ok_all v Hv) as H. unfold alphabet_ok in H. cbv zeta in H.
  apply andb_true_iff in H as [H _]. apply andb_true_iff in H as [H _].
  apply negb_true_iff, orb_false_iff in H as [H _].
  apply orb_false_iff in H as [H _]. apply orb_false_iff in H as [H _].
  apply N.ltb_ge in H. apply N.ltb_lt. lia.
Qed.

Lemma well_padded_length (s : pystr) :
  (List.length s mod 4 <> 0)%nat -> well_padded s = false.
Proof.
  assert (G : forall n s, (List.length s <= n)%nat ->
                (List.length s mod 4 <> 0)%nat -> well_padded s = false).
  { clear s. induction n as [|n IH]; intros s Hn Hm.
    - destruct s; [exfalso; apply Hm; reflexivity | simpl in Hn; lia].
    - destruct s as [|a [|b [|c [|d rest]]]]; try reflexivity.
      + exfalso. apply Hm. reflexivity.
      + destruct rest as [|e rest].
        * exfalso. apply Hm. reflexivity.
        * change (well_padded (a :: b :: c :: d :: e :: rest))
            with (base64_alphabet a && base64_alphabet b && base64_alphabet c
                  && base64_alphabet d && well_padded (e :: rest)).
          rewrite (IH (e :: rest)).
          -- rewrite !andb_false_r. reflexivity.
          -- simpl in Hn |- *. lia.
          -- intros H. apply Hm.
             change (List.length (a :: b :: c :: d :: e :: rest))
               with (4 + List.length (e :: rest))%nat.
             rewrite <- Nat.Div0.add_mod_idemp_l. simpl (4 mod 4)%nat.
             exact H. }
  exact (G (List.length s) s (le_n _)).
Qed.

Lemma missing_padding_raises (charset : pystr) (vs : list N) :
  In charset supported_charsets ->
  Forall (fun v => v < 64) vs ->
  (List.length vs mod 4 <> 0)%nat ->
  ContentDecoder (R := CPython.runtime)
    (ascii_text (map CPython.table_b2a_base64 vs)) charset (py "base64")
  = Raise BinasciiError.
Proof.
  intros Hcs Hvs Hlen.
  unfold ContentDecoder, Decoder.__init__, Decoder._encode_charset.
  change (str_encode charset) with (CPython.encode charset).
  rewrite (encode_seven_bit charset _ Hcs (seven_bit_alphabet vs Hvs)).
  cbn [bind]. unfold Decoder.call, Decoder._decode_with_transfer.
  cbn [Decoder.transfer_method]. rewrite str_eqb_refl.
  unfold Decoder._decode_with_base64. cbn [Decoder.bynary].
  change (b64decode (map CPython.table_b2a_base64 vs))
    with (CPython.a2b_base64 (map CPython.table_b2a_base64 vs)).
  unfold CPython.a2b_base64.
  pose proof (a2b_base64_loop_leftbits vs Hvs 0 0 0 (or_introl eq_refl)) as L.
  destruct (CPython.a2b_base64_loop _ _ _ _) as [bin_data leftbits].
  cbn [snd] in L. subst leftbits.
  assert (E : ((0 + 6 * N.of_nat (List.length vs)) mod 8 =? 0) = false).
  { apply N.eqb_neq.
    pose proof (Nat.div_mod_eq (List.length vs) 4) as D.
    pose proof (Nat.mod_upper_bound (List.length vs) 4 ltac:(lia)) as U.
    set (r := (List.length vs mod 4)%nat) in *.
    set (a := (List.length vs / 4)%nat) in *.
    rewrite D.
    destruct r as [|[|[|[|r]]]]; try lia. }
  rewrite E. reflexivity.
Qed.

(** C8: when one of the three stages raises, the whole decode raises the
    same exception, the stage's own, and returns no string, empty or
    partial; and under the reference runtime a base64 payload of alphabet
    characters whose number is not a multiple of four, which is one whose
    padding is missing, makes the transfer stage raise binascii.Error. *)
Theorem C8_stage_failure_aborts :
  (forall (R : PyRuntime) (msg charset transfer_method : pystr) (e : exn),
     stage_fails msg charset transfer_method e ->
     ContentDecoder msg charset transfer_method = Raise e
     /\ forall s, ContentDecoder msg charset transfer_method <> Ok s)
  /\ (forall (charset : pystr) (vs : list N),
        In charset supported_charsets ->
        Forall (fun v => v < 64) vs ->
        (List.length vs mod 4 <> 0)%nat ->
        let payload := ascii_text (map CPython.table_b2a_base64 vs) in
        well_padded payload = false
        /\ ContentDecoder (R := CPython.runtime) payload charset (py "base64")
           = Raise BinasciiError).
Proof.
  split.
  - intros R msg charset transfer_method e H.
    assert (E : ContentDecoder msg charset transfer_method = Raise e).
    { unfold ContentDecoder.
      destruct H as [H | [[self [Hi Ht]] | [self [t [Hi [Ht Hc]]]]]].
      - unfold Decoder.__init__, Decoder._encode_charset. rewrite H. reflexivity.
      - rewrite Hi. simpl. unfold Decoder.call. rewrite Ht. reflexivity.
      - rewrite Hi. simpl. unfold Decoder.call. rewrite Ht. simpl. exact Hc. }
    split; [exact E | intros s; rewrite E; discriminate].
  - intros charset vs Hcs Hvs Hlen payload. split.
    + apply well_padded_length. subst payload. unfold ascii_text.
      rewrite !length_map. exact Hlen.
    + exact (missing_padding_raises charset vs Hcs Hvs Hlen).
Qed.

(** A base64 payload whose padding is missing. *)
Lemma C8_stage_failure_aborts_witness :
  stage_fails (R := CPython.runtime) (py "YQ") (py "utf-8") (py "base64") BinasciiError
  /\ ContentDecoder (R := CPython.runtime) (py "YQ") (py "utf-8") (py "base64")
     = Raise BinasciiError
  /\ ContentDecoder (R := CPython.runtime) (py "YWJjZ") (py "us-ascii") (py "base64")
     = Raise BinasciiError.
Proof.
  assert (H : stage_fails (R := CPython.runtime)
                (py "YQ") (py "utf-8") (py "base64") BinasciiError).
  { right; left. eexists. split; vm_compute; reflexivity. }
  split; [exact H | split].
  - exact (proj1 (proj1 C8_stage_failure_aborts CPython.runtime _ _ _ _ H)).
  - refine (proj2 (proj2 C8_stage_failure_aborts (py "us-ascii") [24; 22; 9; 35; 25] _ _ _)).
    + simpl. auto 10.
    + repeat constructor.
    + simpl. discriminate.
Defined.

(** A payload of one pad character has invalid padding, and is decoded to
    the empty string without an error. *)
Lemma C8_lone_padding_decodes_to_empty :
  ~ invalid_padding_raises_as_stated (R := CPython.runtime).
Proof.
  intros H.
  destruct (H (py "=") (py "utf-8")) as [e He].
  - simpl. auto.
  - reflexivity.
  - vm_compute in He. discriminate.
Qed.

(** * Further properties *)

(** ** EmailDecoder: what the first segment is *)

Lemma regex_split_head (text cur : pystr) :
  exists pre suf more,
    text = pre ++ suf
    /\ (suf = [] \/ chain_at suf)
    /\ EmailDecoder.regex_split 0 cur text = (rev cur ++ pre) :: more.
Proof.
  revert cur. induction text as [|c text IH]; intros cur.
  - exists [], [], []. simpl. rewrite app_nil_r. auto.
  - rewrite regex_split_cons.
    destruct (EmailDecoder.chained_email (c :: text)) as [r|] eqn:E.
    + exists [], (c :: text), (EmailDecoder.regex_split 6 [] text).
      rewrite app_nil_r. split; [reflexivity | split; [|reflexivity]].
      right. apply chained_email_chain_at. eauto.
    + destruct (IH (c :: cur)) as [pre [suf [more [Ht [Hs Hr]]]]].
      exists (c :: pre), suf, more. split; [simpl; congruence|].
      split; [exact Hs|]. rewrite Hr. simpl. rewrite <- app_assoc. reflexivity.
Qed.

Lemma remove_char_length (c : N) (s : pystr) :
  (List.length (remove_char c s) <= List.length s)%nat.
Proof. apply filter_length_le. Qed.

Lemma first_segment_is_stripped_prefix {R : PyRuntime} (self : Decoder.t) (text : pystr) :
  Decoder.call self = Ok text ->
  exists pre suf,
    text = pre ++ suf
    /\ (suf = [] \/ chain_at suf)
    /\ EmailDecoder.fetch_first_email self = Ok (remove_crlf pre)
    /\ (List.length (remove_crlf pre) <= List.length text)%nat.
Proof.
  intros Hcall.
  destruct (regex_split_head text []) as [pre [suf [more [Ht [Hs Hr]]]]].
  exists pre, suf. split; [exact Ht | split; [exact Hs | split]].
  - unfold EmailDecoder.fetch_first_email. rewrite Hcall. simpl bind.
    unfold EmailDecoder.first_of_text. rewrite Hr. reflexivity.
  - unfold remove_crlf.
    pose proof (remove_char_length LF (remove_char CR pre)).
    pose proof (remove_char_length CR pre).
    subst text. rewrite length_app. lia.
Qed.

Lemma chain_at_occurs (text pre suf : pystr) :
  text = pre ++ suf -> chain_at suf -> occurs_in (py "From:") text.
Proof.
  intros -> [a [b [rest [_ [_ ->]]]]].
  exists (pre ++ [a; b]), rest. rewrite <- app_assoc. reflexivity.
Qed.

Lemma no_From_no_split {R : PyRuntime} (self : Decoder.t) (text : pystr) :
  Decoder.call self = Ok text ->
  ~ occurs_in (py "From:") text ->
  EmailDecoder.fetch_first_email self = Ok (remove_crlf text).
Proof.
  intros Hcall Hno. unfold EmailDecoder.fetch_first_email.
  rewrite Hcall. simpl bind. apply first_of_text_nowhere.
  intros pre suf Ht Hc. apply Hno. exact (chain_at_occurs _ _ _ Ht Hc).
Qed.

(** X1: when the transfer and charset decoding give [text],
    [fetch_first_email] returns a prefix of [text], cut at the end of the
    text or where two characters other than a line feed are followed by
    [From:], with every carriage return and line feed removed; the result
    is never longer than [text]; and a text in which [From:] does not occur
    is returned whole, stripped of its carriage returns and line feeds. *)
Theorem X1_first_email_is_stripped_prefix {R : PyRuntime} (self : Decoder.t) (text : pystr) :
  Decoder.call self = Ok text ->
  (exists pre suf,
     text = pre ++ suf
     /\ (suf = [] \/ chain_at suf)
     /\ EmailDecoder.fetch_first_email self = Ok (remove_crlf pre)
     /\ (List.length (remove_crlf pre) <= List.length text)%nat)
  /\ (~ occurs_in (py "From:") text ->
      EmailDecoder.fetch_first_email self = Ok (remove_crlf text)).
Proof.
  intros Hcall. split.
  - exact (first_segment_is_stripped_prefix self text Hcall).
  - exact (no_From_no_split self text Hcall).
Qed.

Lemma X1_first_email_is_stripped_prefix_witness :
  exists self,
    Decoder.__init__ (R := CPython.runtime)
      (py "Hello=0D=0Aworld") (py "us-ascii") (py "quoted-printable") = Ok self
    /\ EmailDecoder.fetch_first_email (R := CPython.runtime) self
       = Ok (py "Helloworld").
Proof.
  eexists. split; [vm_compute; reflexivity|].
  refine (proj2 (X1_first_email_is_stripped_prefix (R := CPython.runtime) _
                   (py "Hello" ++ [CR; LF] ++ py "world") _) _).
  - vm_compute. reflexivity.
  - intros H. apply contains_spec in H. vm_compute in H. discriminate.
Defined.

(** ** SubjectDecoder: the loop over the lines *)

Lemma decode_lines_filter {R : PyRuntime} (lines : list pystr) :
  SubjectDecoder.decode_lines (filter long_enough lines)
  = SubjectDecoder.decode_lines lines.
Proof.
  induction lines as [|line lines IH]; [reflexivity|].
  cbn [filter SubjectDecoder.decode_lines]. unfold long_enough at 1.
  destruct (len line <? 10) eqn:E; cbn [negb].
  - exact IH.
  - cbn [SubjectDecoder.decode_lines]. rewrite E, IH. reflexivity.
Qed.

Lemma decode_lines_app {R : PyRuntime} (l1 l2 : list pystr) :
  SubjectDecoder.decode_lines (l1 ++ l2) =
  (r1 <- SubjectDecoder.decode_lines l1 ;;
   r2 <- SubjectDecoder.decode_lines l2 ;;
   Ok (r1 ++ r2)).
Proof.
  induction l1 as [|line l1 IH].
  - simpl. destruct (SubjectDecoder.decode_lines l2); reflexivity.
  - cbn [app SubjectDecoder.decode_lines].
    destruct (len line <? 10); [exact IH|].
    destruct (SubjectDecoder._identify_decode_method line) as [enc|]; [|reflexivity].
    cbn [bind].
    destruct (SubjectDecoder._decode_line enc) as [d|]; [|reflexivity].
    cbn [bind]. rewrite IH.
    destruct (SubjectDecoder.decode_lines l1) as [r1|]; [|reflexivity].
    cbn [bind].
    destruct (SubjectDecoder.decode_lines l2) as [r2|]; reflexivity.
Qed.

(** ** The walk over the parts *)

Lemma visit_leaves {R : PyRuntime} (p : part) :
  Forall (fun m => exists s, get_payload m = inl s) (GmailMboxMessage.visit p).
Proof.
  revert p. fix IH 1. intros [h ct [s | parts] | items].
  - cbn [GmailMboxMessage.visit]. constructor; [|constructor]. exists s. reflexivity.
  - cbn [GmailMboxMessage.visit].
    induction parts as [|q parts IHparts]; cbn [flat_map]; [constructor|].
    apply Forall_app. split; [apply IH | exact IHparts].
  - cbn [GmailMboxMessage.visit].
    induction items as [|q items IHitems]; cbn [flat_map]; [constructor|].
    apply Forall_app. split; [apply IH | exact IHitems].
Qed.

(** X2: every message that [_get_email_messages] yields is a leaf: it is
    not multipart and its payload is a string, whatever the nesting of
    multipart parts and of lists the walk went through. *)
Theorem X2_walk_yields_leaves {R : PyRuntime} (email_payload : list part) (m : Message) :
  In m (GmailMboxMessage._get_email_messages email_payload) ->
  is_multipart m = false
  /\ exists s, GmailMboxMessage.leaf_payload (LeafMsg m) = Ok s.
Proof.
  assert (H : Forall (fun m => exists s, get_payload m = inl s)
                (GmailMboxMessage._get_email_messages email_payload)).
  { unfold GmailMboxMessage._get_email_messages.
    induction email_payload as [|p ps IHp]; cbn [flat_map]; [constructor|].
    apply Forall_app. split; [apply visit_leaves | exact IHp]. }
  intros Hin. rewrite Forall_forall in H. destruct (H m Hin) as [s Hs].
  unfold is_multipart, GmailMboxMessage.leaf_payload. rewrite Hs. eauto.
Qed.

Lemma X2_walk_yields_leaves_witness :
  is_multipart (text_part (py "base64") (py "SGk=")) = false.
Proof.
  refine (proj1 (X2_walk_yields_leaves (R := CPython.runtime)
                   [Sequence [as_part (text_part (py "base64") (py "SGk="))]]
                   (text_part (py "base64") (py "SGk=")) _)).
  vm_compute. left. reflexivity.
Defined.

(** ** The charset of a leaf *)

Lemma lower_literal {R : PyRuntime} (s : pystr) :
  forallb (fun c => c <? 128) s = true -> map lower_char s = s -> lower s = s.
Proof. intros H1 H2. rewrite lower_ascii by exact H1. exact H2. Qed.

Lemma fetch_charset_cases {R : PyRuntime} (msg : leaf) (text : pystr) :
  declared_type msg = Str text ->
  let declared := lower text in
  exists charset,
    GmailMboxMessage._fetch_charset msg = Ok charset
    /\ (contains (py "utf-8") declared = true -> charset = py "utf-8")
    /\ (contains (py "utf-8") declared = false ->
        contains (py "iso-2022-jp") declared = true -> charset = py "iso-2022-jp")
    /\ (contains (py "utf-8") declared = false ->
        contains (py "iso-2022-jp") declared = false ->
        contains (py "iso-8859-2") declared = true -> charset = py "iso-8859-2")
    /\ (contains (py "utf-8") declared = false ->
        contains (py "iso-2022-jp") declared = false ->
        contains (py "iso-8859-2") declared = false ->
        contains (py "us-ascii") declared = true -> charset = py "us-ascii")
    /\ (contains (py "utf-8") declared = false ->
        contains (py "iso-2022-jp") declared = false ->
        contains (py "iso-8859-2") declared = false ->
        contains (py "us-ascii") declared = false -> charset = text).
Proof.
  intros Hd declared.
  assert (L1 : lower (py "utf-8") = py "utf-8") by (apply lower_literal; reflexivity).
  assert (L2 : lower (py "iso-2022-jp") = py "iso-2022-jp")
    by (apply lower_literal; reflexivity).
  assert (L3 : lower (py "iso-8859-2") = py "iso-8859-2")
    by (apply lower_literal; reflexivity).
  assert (E : GmailMboxMessage._fetch_charset msg = Ok (
    let c0 := text in
    let c1 := if contains (py "utf-8") (lower c0) then py "utf-8" else c0 in
    let c2 := if contains (py "iso-2022-jp") (lower c1) then py "iso-2022-jp" else c1 in
    let c3 := if contains (py "iso-8859-2") (lower c2) then py "iso-8859-2" else c2 in
    if contains (py "us-ascii") (lower c3) then py "us-ascii" else c3)).
  { unfold GmailMboxMessage._fetch_charset.
    change (match msg with
            | BareStr _ => Str (py "NA")
            | LeafMsg m => get_or_NA (Content_Type (headers m))
            end) with (declared_type msg).
    rewrite Hd. reflexivity. }
  cbv zeta in E. fold declared in E.
  eexists. split; [exact E|].
  repeat split.
  - intros H1. rewrite H1, L1.
    change (contains (py "iso-2022-jp") (py "utf-8")) with false. cbv iota.
    rewrite L1.
    change (contains (py "iso-8859-2") (py "utf-8")) with false. cbv iota.
    rewrite L1. reflexivity.
  - intros H1 H2. rewrite H1. cbv iota. fold declared. rewrite H2, L2.
    change (contains (py "iso-8859-2") (py "iso-2022-jp")) with false. cbv iota.
    rewrite L2. reflexivity.
  - intros H1 H2 H3. rewrite H1. cbv iota. fold declared. rewrite H2. cbv iota.
    fold declared. rewrite H3, L3. reflexivity.
  - intros H1 H2 H3 H4. rewrite H1. cbv iota. fold declared. rewrite H2. cbv iota.
    fold declared. rewrite H3. cbv iota. fold declared. rewrite H4. reflexivity.
  - intros H1 H2 H3 H4. rewrite H1. cbv iota. fold declared. rewrite H2. cbv iota.
    fold declared. rewrite H3. cbv iota. fold declared. rewrite H4. reflexivity.
Qed.

(** X3: of the four charset names, looked for in the lower-cased
    Content-Type header in the order utf-8, iso-2022-jp, iso-8859-2,
    us-ascii, the first that occurs is the result of [_fetch_charset], also
    when a later one occurs as well; when none occurs the result is the
    header value itself, or [NA] without a header.  On a Content-Type that
    is a [Header] object [_fetch_charset] raises AttributeError. *)
Theorem X3_fetch_charset_first_match {R : PyRuntime} (msg : leaf) :
  match declared_type msg with
  | Header _ => GmailMboxMessage._fetch_charset msg = Raise AttributeError
  | Str text =>
      let declared := lower text in
      exists charset,
        GmailMboxMessage._fetch_charset msg = Ok charset
        /\ (contains (py "utf-8") declared = true -> charset = py "utf-8")
        /\ (contains (py "utf-8") declared = false ->
            contains (py "iso-2022-jp") declared = true ->
            charset = py "iso-2022-jp")
        /\ (contains (py "utf-8") declared = false ->
            contains (py "iso-2022-jp") declared = false ->
            contains (py "iso-8859-2") declared = true ->
            charset = py "iso-8859-2")
        /\ (contains (py "utf-8") declared = false ->
            contains (py "iso-2022-jp") declared = false ->
            contains (py "iso-8859-2") declared = false ->
            contains (py "us-ascii") declared = true -> charset = py "us-ascii")
        /\ (contains (py "utf-8") declared = false ->
            contains (py "iso-2022-jp") declared = false ->
            contains (py "iso-8859-2") declared = false ->
            contains (py "us-ascii") declared = false -> charset = text)
  end.
Proof.
  destruct (declared_type msg) as [text | text] eqn:Hd.
  - exact (fetch_charset_cases msg text Hd).
  - exact (fetch_charset_Header msg text Hd).
Qed.

Lemma X3_fetch_charset_first_match_witness :
  GmailMboxMessage._fetch_charset (R := CPython.runtime) two_charsets_leaf
  = Ok (py "utf-8").
Proof.
  pose proof (X3_fetch_charset_first_match (R := CPython.runtime)
                two_charsets_leaf) as H.
  cbn [declared_type two_charsets_leaf headers Content_Type get_or_NA] in H.
  destruct H as [charset [Hc [H1 _]]].
  rewrite Hc. f_equal. apply H1. vm_compute. reflexivity.
Defined.

(** X4: [_fetch_charset] returns one of the four supported charsets
    exactly when the Content-Type header is a [str] in which, lower-cased,
    one of their names occurs. *)
Theorem X4_charset_recognised {R : PyRuntime} (msg : leaf) :
  (exists charset,
     GmailMboxMessage._fetch_charset msg = Ok charset
     /\ In charset supported_charsets) <->
  exists text name,
    declared_type msg = Str text
    /\ In name supported_charsets /\ occurs_in name (lower text).
Proof.
  destruct (declared_type msg) as [text | text] eqn:Hd.
  2:{ rewrite (fetch_charset_Header msg text Hd). split.
      - intros [charset [H _]]. discriminate.
      - intros [t [name [H _]]]. discriminate. }
  destruct (fetch_charset_cases msg text Hd) as [charset [Hc H]].
  cbv zeta in H. destruct H as [H1 [H2 [H3 [H4 H5]]]].
  assert (G : In charset supported_charsets <->
              exists name, In name supported_charsets /\ occurs_in name (lower text)).
  { destruct (contains (py "utf-8") (lower text)) eqn:E1.
    { rewrite (H1 eq_refl). split; [|intros _; simpl; auto].
      intros _. exists (py "utf-8"). split; [simpl; auto | apply contains_spec, E1]. }
    destruct (contains (py "iso-2022-jp") (lower text)) eqn:E2.
    { rewrite (H2 eq_refl eq_refl). split; [|intros _; simpl; auto].
      intros _. exists (py "iso-2022-jp").
      split; [simpl; auto | apply contains_spec, E2]. }
    destruct (contains (py "iso-8859-2") (lower text)) eqn:E3.
    { rewrite (H3 eq_refl eq_refl eq_refl). split; [|intros _; simpl; auto].
      intros _. exists (py "iso-8859-2").
      split; [simpl; auto | apply contains_spec, E3]. }
    destruct (contains (py "us-ascii") (lower text)) eqn:E4.
    { rewrite (H4 eq_refl eq_refl eq_refl eq_refl). split; [|intros _; simpl; auto].
      intros _. exists (py "us-ascii").
      split; [simpl; auto | apply contains_spec, E4]. }
    rewrite (H5 eq_refl eq_refl eq_refl eq_refl).
    assert (Hnone : forall name, In name supported_charsets ->
                      ~ occurs_in name (lower text)).
    { intros name [<- | [<- | [<- | [<- | []]]]] Ho; apply contains_spec in Ho;
        congruence. }
    split.
    - intros Hin. exfalso. apply (Hnone _ Hin).
      assert (L : lower text = text).
      { destruct Hin as [<- | [<- | [<- | [<- | []]]]]; apply lower_literal; reflexivity. }
      rewrite L. exists [], []. rewrite app_nil_r. reflexivity.
    - intros [name [Hin Ho]]. exfalso. exact (Hnone name Hin Ho). }
  split.
  - intros [c [Hc' Hin]]. rewrite Hc in Hc'. injection Hc' as <-.
    apply G in Hin as [name Hn]. exists text, name. split; [reflexivity | exact Hn].
  - intros [t [name [Ht Hn]]]. injection Ht as <-.
    exists charset. split; [exact Hc | apply G; eauto].
Qed.

Lemma X4_charset_recognised_witness :
  exists charset,
    GmailMboxMessage._fetch_charset (R := CPython.runtime) two_charsets_leaf
      = Ok charset
    /\ In charset supported_charsets.
Proof.
  apply (proj2 (X4_charset_recognised (R := CPython.runtime) two_charsets_leaf)).
  eexists _, (py "us-ascii"). split; [reflexivity | split].
  - vm_compute. tauto.
  - apply contains_spec. vm_compute. reflexivity.
Defined.

(** ** The record of a message *)

Lemma map_result_raise {A B} (f : A -> result B) (before after : list A) (bad : A) (e : exn) :
  Forall (fun x => exists y, f x = Ok y) before ->
  f bad = Raise e ->
  map_result f (before ++ bad :: after) = Raise e.
Proof.
  intros Hb Hbad. induction Hb as [|x before [y Hy] _ IH]; cbn [app map_result].
  - rewrite Hbad. reflexivity.
  - rewrite Hy, IH. reflexivity.
Qed.

(** X5: [parse_email] reads every leaf of a multipart message before it
    takes the first: when the leaves before [bad] are read and reading [bad]
    raises, [parse_email] raises that exception, also when [bad] is not the
    first leaf. *)
Theorem X5_any_leaf_failure_fails_the_message {R : PyRuntime} (m : Message)
    (parts : list part) (subject : pystr)
    (before after : list Message) (bad : Message) (e : exn) :
  get_payload m = inr parts ->
  SubjectDecoder.call (str_of (Subject (headers m))) = Ok subject ->
  GmailMboxMessage._get_email_messages parts = before ++ bad :: after ->
  Forall (fun l => exists c, GmailMboxMessage._read_email_text (LeafMsg l) = Ok c)
    before ->
  GmailMboxMessage._read_email_text (LeafMsg bad) = Raise e ->
  GmailMboxMessage.parse_email m = Raise e.
Proof.
  intros Hp Hs Hw Hb Hbad.
  unfold GmailMboxMessage.parse_email. rewrite Hs. cbn [bind].
  unfold GmailMboxMessage._read_email_payload. rewrite Hp, Hw, map_app.
  cbn [map].
  rewrite (map_result_raise GmailMboxMessage._read_email_text
             (map LeafMsg before) (map LeafMsg after) (LeafMsg bad) e).
  - reflexivity.
  - apply Forall_map. exact Hb.
  - exact Hbad.
Qed.

Lemma X5_any_leaf_failure_fails_the_message_witness :
  GmailMboxMessage.parse_email (R := CPython.runtime)
    (multipart_of (py "Hello")
       [as_part (text_part (py "base64") (py "SGk="));
        as_part (text_part (py "base64") (py "YQ"))])
  = Raise BinasciiError.
Proof.
  apply (X5_any_leaf_failure_fails_the_message (R := CPython.runtime)
           (multipart_of (py "Hello")
              [as_part (text_part (py "base64") (py "SGk="));
               as_part (text_part (py "base64") (py "YQ"))])
           [as_part (text_part (py "base64") (py "SGk="));
            as_part (text_part (py "base64") (py "YQ"))]
           (py "Hello")
           [text_part (py "base64") (py "SGk=")] []
           (text_part (py "base64") (py "YQ")) BinasciiError eq_refl).
  - vm_compute. reflexivity.
  - reflexivity.
  - constructor; [|constructor]. eexists. vm_compute. reflexivity.
  - vm_compute. reflexivity.
Defined.

(** X6: a multipart message whose walk yields no leaf makes
    [parse_email] raise [IndexError], once its subject is decoded. *)
Theorem X6_no_leaf_IndexError {R : PyRuntime} (m : Message) (parts : list part)
    (subject : pystr) :
  get_payload m = inr parts ->
  GmailMboxMessage._get_email_messages parts = [] ->
  SubjectDecoder.call (str_of (Subject (headers m))) = Ok subject ->
  GmailMboxMessage.parse_email m = Raise IndexError.
Proof.
  intros Hp Hw Hs. unfold GmailMboxMessage.parse_email. rewrite Hs. cbn [bind].
  unfold GmailMboxMessage._read_email_payload. rewrite Hp, Hw. reflexivity.
Qed.

Lemma X6_no_leaf_IndexError_witness :
  GmailMboxMessage.parse_email (R := CPython.runtime)
    (multipart_of (py "Hello") [Sequence []; Sequence [Sequence []]])
  = Raise IndexError.
Proof.
  apply (X6_no_leaf_IndexError (R := CPython.runtime)
           (multipart_of (py "Hello") [Sequence []; Sequence [Sequence []]])
           [Sequence []; Sequence [Sequence []]] (py "Hello") eq_refl).
  - reflexivity.
  - vm_compute. reflexivity.
Defined.

Lemma call_None_literal {R : PyRuntime} :
  SubjectDecoder.call (py "None") = Ok (py "None").
Proof. reflexivity. Qed.

(** X7: a record returned by [parse_email] has the eight keys Date,
    From, To, Subject, Content_type, Charset, Transfer, Text in this order;
    Date, From and To hold the headers as they are, [None] when missing;
    Subject holds what [SubjectDecoder] made of the header, and the text
    [None] when the header is missing. *)
Theorem X7_record_shape {R : PyRuntime} (m : Message) (r : dict) :
  GmailMboxMessage.parse_email m = Ok r ->
  map fst r = record_keys
  /\ dict_get (py "Date") r = Some (Date (headers m))
  /\ dict_get (py "From") r = Some (From_ (headers m))
  /\ dict_get (py "To") r = Some (To (headers m))
  /\ (exists subject,
        SubjectDecoder.call (str_of (Subject (headers m))) = Ok subject
        /\ dict_get (py "Subject") r = Some (Some (Str subject)))
  /\ (Subject (headers m) = None ->
      dict_get (py "Subject") r = Some (Some (Str (py "None")))).
Proof.
  intros H.
  apply parse_email_Ok in H as [subject [content [rest [Hs [_ ->]]]]].
  destruct content as [[[ct cs] tr] tx].
  repeat (split; [reflexivity|]). split.
  - exists subject. split; [exact Hs | reflexivity].
  - intros Hnone. rewrite Hnone in Hs. cbn [str_of] in Hs.
    rewrite call_None_literal in Hs. injection Hs as <-. reflexivity.
Qed.

Lemma X7_record_shape_witness :
  exists r,
    GmailMboxMessage.parse_email (R := CPython.runtime) headerless_message = Ok r
    /\ dict_get (py "Subject") r = Some (Some (Str (py "None")))
    /\ dict_get (py "Date") r = Some None.
Proof.
  assert (H : GmailMboxMessage.parse_email (R := CPython.runtime) headerless_message
              = Ok (record_of headerless_message (py "None")
                      (py "NA", py "NA", Str (py "NA"), py "NA")))
    by (vm_compute; reflexivity).
  eexists. split; [exact H|].
  pose proof (X7_record_shape (R := CPython.runtime) headerless_message _ H) as S.
  split.
  - exact (proj2 (proj2 (proj2 (proj2 (proj2 S)))) eq_refl).
  - exact (proj1 (proj2 S)).
Defined.

(** ** The cells of the worksheet *)

Lemma write_row_In (row col : N) (items : list pyobj) (r c : N) (v : pyobj) :
  In (r, c, v) (ExcelSheet.write_row row col items) <->
  r = row /\ exists k, c = col + N.of_nat k /\ nth_error items k = Some v.
Proof.
  revert col. induction items as [|item items IH]; intros col; cbn [ExcelSheet.write_row].
  - split; [intros [] | intros [_ [[|k] [_ H]]]; discriminate].
  - cbn [In]. rewrite IH. split.
    + intros [E | [-> [k [-> Hk]]]].
      * injection E as <- <- <-. split; [reflexivity|]. exists 0%nat.
        split; [lia | reflexivity].
      * split; [reflexivity|]. exists (S k). split; [lia | exact Hk].
    + intros [-> [[|k] [-> Hk]]].
      * left. cbn in Hk. injection Hk as ->. f_equal. f_equal. lia.
      * right. split; [reflexivity|]. exists k. split; [lia | exact Hk].
Qed.

Lemma content_rows_In (row : N) (rs : list dict) (r c : N) (v : pyobj) :
  In (r, c, v) (content_rows row rs) <->
  exists i rec k,
    r = row + N.of_nat i /\ nth_error rs i = Some rec
    /\ c = N.of_nat k /\ nth_error (map snd rec) k = Some v.
Proof.
  revert row. induction rs as [|rec rs IH]; intros row; cbn [content_rows].
  - split; [intros [] | intros [[|i] [rec [k [_ [H _]]]]]; discriminate].
  - rewrite in_app_iff, write_row_In, IH. split.
    + intros [[-> [k [-> Hk]]] | [i [rec' [k [-> [Hi [-> Hk]]]]]]].
      * exists 0%nat, rec, k. repeat split; [lia | exact Hk].
      * exists (S i), rec', k. repeat split; [lia | exact Hi | exact Hk].
    + intros [[|i] [rec' [k [-> [Hi [-> Hk]]]]]].
      * left. cbn in Hi. injection Hi as <-. split; [lia|]. exists k. auto.
      * right. exists i, rec', k. repeat split; [lia | exact Hi | exact Hk].
Qed.

Lemma sheet_cells_In (rs : list dict) (r c : N) (v : pyobj) :
  In (r, c, v) (sheet_cells rs) <->
  (r = 0 /\ exists first k,
      nth_error rs 0 = Some first /\ c = N.of_nat k
      /\ nth_error (map (fun key => Some (Str key)) (map fst first)) k = Some v)
  \/ (exists i rec k,
        r = N.of_nat i + 1 /\ nth_error rs i = Some rec
        /\ c = N.of_nat k /\ nth_error (map snd rec) k = Some v).
Proof.
  destruct rs as [|first rs].
  - cbn [sheet_cells]. split; [intros [] |].
    intros [[_ [f [k [H _]]]] | [[|i] [rec [k [_ [H _]]]]]]; discriminate.
  - unfold sheet_cells. rewrite in_app_iff, write_row_In, content_rows_In. split.
    + intros [[-> [k [-> Hk]]] | [i [rec [k [-> [Hi [-> Hk]]]]]]].
      * left. split; [reflexivity|]. exists first, k. auto.
      * right. exists i, rec, k. repeat split; [lia | exact Hi | exact Hk].
    + intros [[-> [f [k [Hf [-> Hk]]]]] | [i [rec [k [-> [Hi [-> Hk]]]]]]].
      * left. cbn in Hf. injection Hf as <-. split; [reflexivity|]. exists k. auto.
      * right. exists i, rec, k. repeat split; [lia | exact Hi | exact Hk].
Qed.

(** A position is written once. *)
Lemma sheet_cells_functional (rs : list dict) (r c : N) (v1 v2 : pyobj) :
  In (r, c, v1) (sheet_cells rs) -> In (r, c, v2) (sheet_cells rs) -> v1 = v2.
Proof.
  rewrite !sheet_cells_In.
  intros [[-> [f1 [k1 [Hf1 [-> H1]]]]] | [i1 [rec1 [k1 [-> [Hi1 [-> H1]]]]]]]
         [[E [f2 [k2 [Hf2 [Ec H2]]]]] | [i2 [rec2 [k2 [E [Hi2 [Ec H2]]]]]]];
    try lia.
  - assert (k1 = k2) by lia. subst k2. congruence.
  - assert (i1 = i2) by lia. assert (k1 = k2) by lia. subst i2 k2. congruence.
Qed.

Lemma cell_at_In (cells : list (N * N * pyobj)) (r c : N) (v : pyobj) :
  (forall v1 v2, In (r, c, v1) cells -> In (r, c, v2) cells -> v1 = v2) ->
  In (r, c, v) cells -> cell_at r c cells = Some v.
Proof.
  intros Hf Hin. unfold cell_at.
  destruct (find _ (rev cells)) as [[[r' c'] v']|] eqn:E.
  - apply find_some in E as [Hin' Hpos]. apply in_rev in Hin'.
    cbn in Hpos. apply andb_true_iff in Hpos as [Hr Hc].
    apply N.eqb_eq in Hr, Hc. subst r' c'. cbn. f_equal. exact (Hf _ _ Hin' Hin).
  - apply in_rev in Hin.
    pose proof (find_none _ _ E (r, c, v) Hin) as H.
    cbn in H. rewrite !N.eqb_refl in H. discriminate.
Qed.

Lemma calls_row (rs : list dict) (s : ExcelSheet.t) :
  ExcelSheet.row s <> 0 ->
  ExcelSheet.row (fold_left ExcelSheet.call rs s)
  = ExcelSheet.row s + N.of_nat (List.length rs).
Proof.
  revert s. induction rs as [|r rs IH]; intros s Hrow; cbn [fold_left List.length].
  - lia.
  - rewrite IH.
    + unfold ExcelSheet.call, ExcelSheet._set_content. cbn.
      destruct (N.eqb_spec (ExcelSheet.row s) 0); [contradiction|]. cbn. lia.
    + unfold ExcelSheet.call, ExcelSheet._set_content. cbn.
      destruct (N.eqb_spec (ExcelSheet.row s) 0); cbn; lia.
Qed.

(** X8: after [ExcelSheet.call] on the records [rs] in turn, the cell
    at row [i + 1], column [k] holds the value of the [k]-th entry of the
    [i]-th record; row 0 holds the keys of the first record; and the row
    counter stands at the number of records plus one. *)
Theorem X8_sheet_layout (rs : list dict) (i k : nat) (rec : dict)
    (key : pystr) (v : pyobj) :
  nth_error rs i = Some rec ->
  nth_error rec k = Some (key, v) ->
  let sheet := fold_left ExcelSheet.call rs ExcelSheet.__init__ in
  cell_at (N.of_nat i + 1) (N.of_nat k) (ExcelSheet.worksheet sheet) = Some v
  /\ (i = 0%nat ->
      cell_at 0 (N.of_nat k) (ExcelSheet.worksheet sheet) = Some (Some (Str key)))
  /\ ExcelSheet.row sheet = N.of_nat (List.length rs) + 1.
Proof.
  intros Hi Hk sheet. subst sheet. rewrite calls_from_new_sheet.
  split; [| split].
  - apply cell_at_In; [intros v1 v2; apply sheet_cells_functional|].
    apply sheet_cells_In. right. exists i, rec, k.
    repeat split; [exact Hi|]. rewrite nth_error_map, Hk. reflexivity.
  - intros ->. apply cell_at_In; [intros v1 v2; apply sheet_cells_functional|].
    apply sheet_cells_In. left. split; [reflexivity|]. exists rec, k.
    repeat split; [exact Hi|]. rewrite !nth_error_map, Hk. reflexivity.
  - destruct rs as [|r0 rs]; [destruct i; discriminate|].
    cbn [fold_left].
    assert (E : ExcelSheet.row (ExcelSheet.call ExcelSheet.__init__ r0) = 2)
      by reflexivity.
    rewrite calls_row by (rewrite E; lia).
    rewrite E. cbn [List.length]. lia.
Qed.

Lemma X8_sheet_layout_witness :
  cell_at 2 7
    (ExcelSheet.worksheet
       (fold_left ExcelSheet.call [good_record; good_record] ExcelSheet.__init__))
  = Some (Some (Str (py "Hi"))).
Proof.
  exact (proj1 (X8_sheet_layout [good_record; good_record] 1 7 good_record
                  (py "Text") (Some (Str (py "Hi"))) eq_refl eq_refl)).
Defined.

(** ** main, for every mailbox *)

Lemma for_loop_stops {R : PyRuntime} (num_entries idx : N) (mbox : list Message)
    (w : world) :
  exists pre rs post,
    mbox = pre ++ post /\ parsed pre rs
    /\ ((post = []
         /\ for_loop num_entries idx mbox w = (emitted num_entries idx rs w, None))
        \/ (exists m post' e,
              post = m :: post'
              /\ GmailMboxMessage.parse_email m = Raise e
              /\ for_loop num_entries idx mbox w
                 = (emitted num_entries idx rs w, Some e))).
Proof.
  revert idx w. induction mbox as [|m mbox IH]; intros idx w.
  - exists [], [], []. split; [reflexivity | split; [constructor|]].
    left. split; reflexivity.
  - destruct (GmailMboxMessage.parse_email m) as [r|e] eqn:Hm.
    + destruct (IH (idx + 1)
                  (info (Info (idx + 1) num_entries) (spreadsheet_call r w)))
        as [pre [rs [post [Hmb [Hp Hcase]]]]].
      exists (m :: pre), (r :: rs), post.
      split; [simpl; congruence | split; [constructor; assumption|]].
      cbn [for_loop emitted]. rewrite Hm. exact Hcase.
    + exists [], [], (m :: mbox). split; [reflexivity | split; [constructor|]].
      right. exists m, mbox, e. split; [reflexivity | split; [exact Hm|]].
      cbn [for_loop emitted]. rewrite Hm. reflexivity.
Qed.

(** X9: for every mailbox, once it and the workbook are opened, [main]
    writes to the worksheet the rows of the records of a prefix of the
    messages, logs one progress line for each of them, and closes the
    workbook once; the prefix is the whole mailbox,
    or it ends before the first message on which [parse_email] raises, and
    then the exception is logged last. *)
Theorem X9_main_emits_a_prefix {R : PyRuntime} (mbox : list Message) :
  exists pre rs post,
    mbox = pre ++ post /\ parsed pre rs
    /\ ExcelSheet.worksheet (spreadsheet (main (opened mbox))) = sheet_cells rs
    /\ closed (main (opened mbox)) = 1
    /\ ((post = []
         /\ log (main (opened mbox))
            = progress (N.of_nat (List.length mbox)) 0 (List.length pre))
        \/ (exists m post' e,
              post = m :: post'
              /\ GmailMboxMessage.parse_email m = Raise e
              /\ log (main (opened mbox))
                 = progress (N.of_nat (List.length mbox)) 0 (List.length pre)
                     ++ [Error e])).
Proof.
  destruct (for_loop_stops (N.of_nat (List.length mbox)) 0 mbox
              {| spreadsheet := ExcelSheet.__init__; log := []; closed := 0;
                   raised := None |})
    as [pre [rs [post [Hmb [Hp Hcase]]]]].
  exists pre, rs, post. split; [exact Hmb | split; [exact Hp|]].
  pose proof (Forall2_length Hp) as Hlen.
  unfold main, opened. cbn [mailbox_mbox xlsxwriter_Workbook add_worksheet].
  destruct Hcase as [[Hpost Hloop] | [m [post' [e [Hpost [Hm Hloop]]]]]];
    rewrite Hloop; cbn [workbook_close info spreadsheet log closed].
  - rewrite emitted_spreadsheet, emitted_closed, emitted_log, Hlen.
    cbn [spreadsheet closed log app].
    split; [apply calls_from_new_sheet | split; [reflexivity|]].
    left. split; [exact Hpost | reflexivity].
  - rewrite emitted_spreadsheet, emitted_closed, emitted_log, Hlen.
    cbn [spreadsheet closed log app].
    split; [apply calls_from_new_sheet | split; [reflexivity|]].
    right. exists m, post', e. split; [exact Hpost | split; [exact Hm | reflexivity]].
Qed.

(** X10: when the mailbox and the workbook are opened and [parse_email]
    returns a record for every message, [main] writes the rows of all the
    records, logs one progress line for each
    message and nothing else, closes the workbook once, and leaves the row
    counter at the number of records plus one (at 0 for an empty
    mailbox). *)
Theorem X10_main_all_parsed {R : PyRuntime} (mbox : list Message) (rs : list dict) :
  parsed mbox rs ->
  ExcelSheet.worksheet (spreadsheet (main (opened mbox))) = sheet_cells rs
  /\ log (main (opened mbox))
     = progress (N.of_nat (List.length mbox)) 0 (List.length mbox)
  /\ closed (main (opened mbox)) = 1
  /\ ExcelSheet.row (spreadsheet (main (opened mbox)))
     = match rs with [] => 0 | _ :: _ => N.of_nat (List.length rs) + 1 end.
Proof.
  intros Hp. pose proof (Forall2_length Hp) as Hlen.
  assert (E : main (opened mbox) =
              workbook_close
                (emitted (N.of_nat (List.length mbox)) 0 rs
                   {| spreadsheet := ExcelSheet.__init__; log := [];
                      closed := 0; raised := None |})).
  { unfold main, opened. cbn [mailbox_mbox xlsxwriter_Workbook add_worksheet].
    pose proof (for_loop_parsed (N.of_nat (List.length mbox)) mbox [] rs 0
                  {| spreadsheet := ExcelSheet.__init__; log := []; closed := 0;
                   raised := None |}
                  Hp) as H.
    rewrite app_nil_r in H. rewrite H. reflexivity. }
  rewrite E. cbn [workbook_close spreadsheet log closed].
  rewrite emitted_spreadsheet, emitted_closed, emitted_log, Hlen.
  cbn [spreadsheet closed log app].
  split; [apply calls_from_new_sheet | split; [reflexivity | split; [reflexivity|]]].
  destruct rs as [|r0 rs]; [reflexivity|].
  cbn [fold_left].
  assert (E2 : ExcelSheet.row (ExcelSheet.call ExcelSheet.__init__ r0) = 2)
    by reflexivity.
  rewrite calls_row by (rewrite E2; lia).
  rewrite E2. cbn [List.length]. lia.
Qed.

Lemma X10_main_all_parsed_witness :
  ExcelSheet.worksheet
    (spreadsheet (main (R := CPython.runtime) (opened [good_message; good_message])))
  = sheet_cells [good_record; good_record]
  /\ ExcelSheet.row
       (spreadsheet (main (R := CPython.runtime) (opened [good_message; good_message])))
     = 3.
Proof.
  pose proof (X10_main_all_parsed (R := CPython.runtime)
                [good_message; good_message] [good_record; good_record]
                (Forall2_cons _ _ good_message_parsed
                   (Forall2_cons _ _ good_message_parsed (Forall2_nil _)))) as H.
  split; [exact (proj1 H) | exact (proj2 (proj2 (proj2 H)))].
Defined.

(** ** SubjectDecoder: what a line with a marker is read as *)

Lemma subject_split_cons (c : N) (s cur : pystr) :
  SubjectDecoder.regex_split 0 cur (c :: s) =
  match SubjectDecoder.regex_match (c :: s) with
  | Some (m, _) =>
      rev cur :: SubjectDecoder.group1 m
        :: SubjectDecoder.regex_split (List.length (SubjectDecoder.group0 m) - 1) [] s
  | None => SubjectDecoder.regex_split 0 (c :: cur) s
  end.
Proof. reflexivity. Qed.

Lemma subject_split_nonempty (s : pystr) (skip : nat) (cur : pystr) :
  SubjectDecoder.regex_split skip cur s <> [].
Proof.
  revert skip cur. induction s as [|c s IH]; intros skip cur.
  - simpl. discriminate.
  - destruct skip as [|k].
    + rewrite subject_split_cons.
      destruct (SubjectDecoder.regex_match (c :: s)) as [[m r]|];
        [discriminate | apply IH].
    + simpl. apply IH.
Qed.

Lemma index_last_cons {A} (x : A) (xs : list A) :
  xs <> [] -> index_last (x :: xs) = index_last xs.
Proof. destruct xs; [congruence | reflexivity]. Qed.

Lemma regex_match_None (s : pystr) :
  SubjectDecoder.regex_match s = None -> ~ marker_at s.
Proof.
  intros H Hm. apply regex_match_marker in Hm as [m [r Hm]]. congruence.
Qed.

Lemma app_same_length {A} (a b c d : list A) :
  a ++ b = c ++ d -> List.length a = List.length c -> a = c /\ b = d.
Proof.
  revert c. induction a as [|x a IH]; intros [|y c] H Hl; try discriminate.
  - auto.
  - simpl in H. injection H as -> H. simpl in Hl.
    destruct (IH c H) as [-> ->]; [lia | auto].
Qed.

(** The last piece of the split is the end of the string and holds no marker. *)
Lemma subject_split_last (s : pystr) (skip : nat) (cur : pystr) :
  (forall pre suf,
     rev cur ++ s = pre ++ suf -> (List.length pre < List.length cur)%nat ->
     ~ marker_at suf) ->
  (skip <> 0%nat -> cur = []) ->
  exists last pre,
    index_last (SubjectDecoder.regex_split skip cur s) = Ok last
    /\ rev cur ++ s = pre ++ last
    /\ ~ has_marker last.
Proof.
  revert skip cur. induction s as [|c s IH]; intros skip cur Hinv Hskip.
  - exists (rev cur), []. split; [reflexivity | split; [apply app_nil_r|]].
    intros [pre [suf [Hs Hm]]].
    destruct (Nat.lt_ge_cases (List.length pre) (List.length cur)) as [Hl|Hl].
    + apply (Hinv pre suf); [rewrite app_nil_r; exact Hs | exact Hl | exact Hm].
    + assert (suf = []).
      { apply (f_equal (@List.length N)) in Hs.
        rewrite length_app, length_rev in Hs.
        destruct suf; [reflexivity | simpl in Hs; lia]. }
      subst suf. destruct Hm as [cs [c [rest [_ [_ Hm]]]]]. discriminate.
  - destruct skip as [|k].
    + rewrite subject_split_cons.
      destruct (SubjectDecoder.regex_match (c :: s)) as [[m r]|] eqn:E.
      * destruct (IH (List.length (SubjectDecoder.group0 m) - 1)%nat [])
          as [last [pre [Hl [Hs Hn]]]].
        -- intros pre suf _ Hlt. simpl in Hlt. lia.
        -- reflexivity.
        -- exists last, (rev cur ++ c :: pre).
           rewrite !index_last_cons
             by (try discriminate; apply subject_split_nonempty).
           split; [exact Hl | split; [|exact Hn]].
           simpl in Hs. rewrite Hs, <- app_assoc. reflexivity.
      * destruct (IH 0%nat (c :: cur)) as [last [pre [Hl [Hs Hn]]]].
        -- intros pre suf Hs Hlt. simpl in Hs. rewrite <- app_assoc in Hs.
           simpl in Hs, Hlt.
           destruct (Nat.lt_ge_cases (List.length pre) (List.length cur)) as [Hc|Hc].
           ++ exact (Hinv pre suf Hs Hc).
           ++ assert (Hpre : List.length (rev cur) = List.length pre)
                by (rewrite length_rev; lia).
              destruct (app_same_length _ _ _ _ Hs Hpre) as [_ <-].
              exact (regex_match_None _ E).
        -- congruence.
        -- exists last, pre. split; [exact Hl | split; [|exact Hn]].
           simpl in Hs. rewrite <- app_assoc in Hs. exact Hs.
    + rewrite (Hskip ltac:(discriminate)) in *.
      destruct (IH k []) as [last [pre [Hl [Hs Hn]]]].
      * intros pre suf _ Hlt. simpl in Hlt. lia.
      * reflexivity.
      * exists last, (c :: pre). split; [exact Hl | split; [|exact Hn]].
        simpl in Hs |- *. rewrite Hs. reflexivity.
Qed.

Lemma regex_search_Some (s : pystr) (m : SubjectDecoder.Match) :
  SubjectDecoder.regex_search s = Some m ->
  exists pre suf rest,
    s = pre ++ suf
    /\ SubjectDecoder.regex_match suf = Some (m, rest)
    /\ forall pre' suf',
         s = pre' ++ suf' -> (List.length pre' < List.length pre)%nat ->
         ~ marker_at suf'.
Proof.
  induction s as [|x s IH]; cbn [SubjectDecoder.regex_search].
  - destruct (SubjectDecoder.regex_match []) as [[m' r]|] eqn:E; [|discriminate].
    intros H. injection H as ->. exists [], [], r.
    split; [reflexivity | split; [exact E|]]. intros pre' suf' _ Hl. simpl in Hl. lia.
  - destruct (SubjectDecoder.regex_match (x :: s)) as [[m' r]|] eqn:E.
    + intros H. injection H as ->. exists [], (x :: s), r.
      split; [reflexivity | split; [exact E|]].
      intros pre' suf' _ Hl. simpl in Hl. lia.
    + intros H. destruct (IH H) as [pre [suf [rest [Hs [Hm Hmin]]]]].
      exists (x :: pre), suf, rest. split; [simpl; congruence | split; [exact Hm|]].
      intros [|y pre'] suf' Hs' Hl.
      * simpl in Hs'. subst suf'. exact (regex_match_None _ E).
      * simpl in Hs'. injection Hs' as _ Hs'. apply (Hmin pre' suf' Hs').
        simpl in Hl. lia.
Qed.

Lemma regex_search_has_marker (s : pystr) (m : SubjectDecoder.Match) :
  SubjectDecoder.regex_search s = Some m -> has_marker s.
Proof.
  intros H. destruct (regex_search_Some _ _ H) as [pre [suf [rest [Hs [Hm _]]]]].
  exists pre, suf. split; [exact Hs|]. apply regex_match_marker. eauto.
Qed.

Lemma regex_match_shape (s : pystr) (m : SubjectDecoder.Match) (rest : pystr) :
  SubjectDecoder.regex_match s = Some (m, rest) ->
  exists cs c,
    (cs = py "utf-8" \/ cs = py "iso-2022-jp")
    /\ c <> LF
    /\ s = py "=?" ++ cs ++ [SubjectDecoder.QUESTION; c; SubjectDecoder.QUESTION] ++ rest
    /\ m = {| SubjectDecoder.group0 :=
                py "=?" ++ cs ++ [SubjectDecoder.QUESTION; c; SubjectDecoder.QUESTION];
              SubjectDecoder.group1 := cs |}.
Proof.
  unfold SubjectDecoder.regex_match.
  destruct (strip_prefix (py "=?") s) as [s1|] eqn:E; [|discriminate].
  apply strip_prefix_spec in E. subst s.
  destruct (SubjectDecoder.after_charset (py "utf-8") s1) as [[m' r']|] eqn:E1.
  - intros H. injection H as -> ->.
    apply after_charset_spec in E1 as [c [Hc [-> ->]]].
    exists (py "utf-8"), c. auto.
  - intros H. apply after_charset_spec in H as [c [Hc [-> ->]]].
    exists (py "iso-2022-jp"), c. auto.
Qed.

Lemma index_neg2_group0 (cs : pystr) (c : N) :
  SubjectDecoder.index_neg2
    (py "=?" ++ cs ++ [SubjectDecoder.QUESTION; c; SubjectDecoder.QUESTION]) = Ok c.
Proof.
  unfold SubjectDecoder.index_neg2.
  rewrite !rev_app_distr. reflexivity.
Qed.

Lemma subject_split_after_last (s : pystr) (skip : nat) (cur : pystr) :
  (forall pre suf,
     rev cur ++ s = pre ++ suf -> (List.length pre < List.length cur)%nat ->
     ~ marker_at suf) ->
  (skip <> 0%nat -> cur = []) ->
  exists last,
    index_last (SubjectDecoder.regex_split skip cur s) = Ok last
    /\ after_last_match (rev cur ++ skipn skip s) last.
Proof.
  revert skip cur. induction s as [|c s IH]; intros skip cur Hinv Hskip.
  - exists (rev cur). split; [reflexivity|].
    rewrite skipn_nil. rewrite app_nil_r. apply after_no_match.
    intros [pre [suf [Hs Hm]]].
    destruct (Nat.lt_ge_cases (List.length pre) (List.length cur)) as [Hl|Hl].
    + apply (Hinv pre suf); [rewrite app_nil_r; exact Hs | exact Hl | exact Hm].
    + assert (suf = []).
      { apply (f_equal (@List.length N)) in Hs.
        rewrite length_app, length_rev in Hs.
        destruct suf; [reflexivity | simpl in Hs; lia]. }
      subst suf. destruct Hm as [cs [c [rest [_ [_ Hm]]]]]. discriminate.
  - destruct skip as [|k].
    + rewrite subject_split_cons. cbn [skipn].
      destruct (SubjectDecoder.regex_match (c :: s)) as [[m r]|] eqn:E.
      * destruct (regex_match_shape _ _ _ E) as [cs [x [Hcs [Hx [Hsuf Hm]]]]].
        destruct (IH (List.length (SubjectDecoder.group0 m) - 1)%nat [])
          as [last [Hl Ha]].
        -- intros pre suf _ Hlt. simpl in Hlt. lia.
        -- reflexivity.
        -- exists last.
           rewrite !index_last_cons
             by (try discriminate; apply subject_split_nonempty).
           split; [exact Hl|].
           apply (after_next_match _ (rev cur) (SubjectDecoder.group0 m) r).
           ++ exists (c :: s). split; [reflexivity|]. split.
              ** apply regex_match_marker. eauto.
              ** intros pre' suf' Hs Hlt. rewrite length_rev in Hlt.
                 exact (Hinv pre' suf' Hs Hlt).
           ++ subst m. cbn [SubjectDecoder.group0]. exists cs, x. auto.
           ++ subst m. cbn [SubjectDecoder.group0]. rewrite Hsuf.
              repeat rewrite <- app_assoc. reflexivity.
           ++ cbn [rev app] in Ha.
              assert (Er : skipn (List.length (SubjectDecoder.group0 m) - 1) s = r).
              { subst m. cbn [SubjectDecoder.group0].
                destruct Hcs as [-> | ->]; injection Hsuf as _ ->; reflexivity. }
              rewrite Er in Ha. exact Ha.
      * destruct (IH 0%nat (c :: cur)) as [last [Hl Ha]].
        -- intros pre suf Hs Hlt. simpl in Hs. rewrite <- app_assoc in Hs.
           simpl in Hs, Hlt.
           destruct (Nat.lt_ge_cases (List.length pre) (List.length cur)) as [Hc|Hc].
           ++ exact (Hinv pre suf Hs Hc).
           ++ assert (Hpre : List.length (rev cur) = List.length pre)
                by (rewrite length_rev; lia).
              destruct (app_same_length _ _ _ _ Hs Hpre) as [_ <-].
              exact (regex_match_None _ E).
        -- congruence.
        -- exists last. split; [exact Hl|].
           cbn [skipn rev] in Ha. rewrite <- app_assoc in Ha. exact Ha.
    + rewrite (Hskip ltac:(discriminate)) in *.
      destruct (IH k []) as [last [Hl Ha]].
      * intros pre suf _ Hlt. simpl in Hlt. lia.
      * reflexivity.
      * exists last. split; [exact Hl | exact Ha].
Qed.

Lemma before_first_unique (P : pystr -> Prop) (s a b : pystr) :
  before_first P s a -> before_first P s b -> a = b.
Proof.
  intros [sa [Ha [Pa Ma]]] [sb [Hb [Pb Mb]]].
  destruct (Nat.lt_trichotomy (List.length a) (List.length b)) as [L | [L | L]].
  - exfalso. exact (Mb a sa Ha L Pa).
  - rewrite Ha in Hb. exact (proj1 (app_same_length _ _ _ _ Hb L)).
  - exfalso. exact (Ma b sb Hb L Pb).
Qed.

Lemma marker_text_unique (m m' rest rest' : pystr) :
  marker_text m -> marker_text m' -> m ++ rest = m' ++ rest' ->
  m = m' /\ rest = rest'.
Proof.
  intros [cs [c [Hcs [_ ->]]]] [cs' [c' [Hcs' [_ ->]]]] H.
  destruct Hcs as [-> | ->], Hcs' as [-> | ->]; cbn in H;
    try discriminate; injection H as -> ->; auto.
Qed.

Lemma after_last_match_unique (s t t' : pystr) :
  after_last_match s t -> after_last_match s t' -> t = t'.
Proof.
  intros H. revert t'.
  induction H as [s Hn | s before m rest t Hb Hm Hs _ IH]; intros t' H'.
  - destruct H' as [s _ | s before m rest t' [suf [Hs [Pm _]]] _ _ _];
      [reflexivity|].
    exfalso. apply Hn. exists before, suf. auto.
  - destruct H' as [s Hn | s before' m' rest' t' Hb' Hm' Hs' H'].
    + exfalso. destruct Hb as [suf [Hsuf [Pm _]]]. apply Hn.
      exists before, suf. auto.
    + pose proof (before_first_unique _ _ _ _ Hb Hb') as <-.
      rewrite Hs in Hs'. apply app_inv_head in Hs'.
      destruct (marker_text_unique _ _ _ _ Hm Hm' Hs') as [_ <-].
      exact (IH _ H').
Qed.

(** X11: on a line in which a marker occurs once its white space is
    stripped, [_identify_decode_method] returns: the charset of the first
    marker, [utf-8] or [iso-2022-jp]; [base64] when the selector of the
    first marker is the capital letter B and [quoted-printable] for every
    other character; and as text the piece of the line that follows the last
    match of the pattern, the line being scanned from the left and each
    search resuming where the match before it ended; no marker occurs in
    that piece and no other text stands in this relation to the line. *)
Theorem X11_identify_decode_method (line : pystr) :
  has_marker (strip line) ->
  exists enc before c rest,
    SubjectDecoder._identify_decode_method line = Ok enc
    /\ before_first marker_at (strip line) before
    /\ strip line
       = before ++ py "=?" ++ SubjectDecoder.charset enc
           ++ [SubjectDecoder.QUESTION; c; SubjectDecoder.QUESTION] ++ rest
    /\ In (SubjectDecoder.charset enc) [py "utf-8"; py "iso-2022-jp"]
    /\ SubjectDecoder.transfer_method enc
       = (if c =? 66 then py "base64" else py "quoted-printable")
    /\ (exists pre, strip line = pre ++ SubjectDecoder.text enc)
    /\ ~ has_marker (SubjectDecoder.text enc)
    /\ after_last_match (strip line) (SubjectDecoder.text enc)
    /\ (forall t, after_last_match (strip line) t -> t = SubjectDecoder.text enc).
Proof.
  intros Hm.
  destruct (SubjectDecoder.regex_search (strip line)) as [m|] eqn:Es;
    [| apply regex_search_None in Es; contradiction].
  destruct (regex_search_Some _ _ Es) as [before [suf [rest [Hs [Hmatch Hmin]]]]].
  destruct (regex_match_shape _ _ _ Hmatch) as [cs [c [Hcs [Hc [Hsuf Hmv]]]]].
  destruct (subject_split_last (strip line) 0 []) as [last [pre [Hl [Hpre Hn]]]].
  { intros p q _ Hlt. simpl in Hlt. lia. }
  { congruence. }
  exists {| SubjectDecoder.transfer_method :=
              if c =? 66 then py "base64" else py "quoted-printable";
            SubjectDecoder.charset := cs;
            SubjectDecoder.text := last |}, before, c, rest.
  cbn [SubjectDecoder.charset SubjectDecoder.transfer_method SubjectDecoder.text].
  destruct (subject_split_after_last (strip line) 0 []) as [last' [Hl' Ha]].
  { intros p q _ Hlt. simpl in Hlt. lia. }
  { congruence. }
  rewrite Hl in Hl'. apply Ok_inj in Hl'. subst last'. cbn [rev app skipn] in Ha.
  split; [| split; [| split; [| split; [| split; [reflexivity | split;
    [| split; [| split]]]]]]].
  - unfold SubjectDecoder._identify_decode_method. cbv zeta. rewrite Es.
    subst m. cbn [SubjectDecoder.group0 SubjectDecoder.group1].
    rewrite index_neg2_group0. cbn [bind]. rewrite Hl. reflexivity.
  - exists suf. split; [exact Hs | split; [|exact Hmin]].
    apply regex_match_marker. eauto.
  - rewrite Hs, Hsuf. reflexivity.
  - destruct Hcs as [-> | ->]; simpl; auto.
  - exists pre. exact Hpre.
  - exact Hn.
  - exact Ha.
  - intros t Ht. exact (after_last_match_unique _ _ _ Ht Ha).
Qed.

Lemma X11_identify_decode_method_witness :
  exists enc,
    SubjectDecoder._identify_decode_method
      (py "  Re: =?utf-8?b?QUJD?= =?iso-2022-jp?B?REVG?= ") = Ok enc
    /\ SubjectDecoder.charset enc = py "utf-8"
    /\ SubjectDecoder.transfer_method enc = py "quoted-printable"
    /\ SubjectDecoder.text enc = py "REVG?=".
Proof.
  assert (H : has_marker (strip (py "  Re: =?utf-8?b?QUJD?= =?iso-2022-jp?B?REVG?= "))).
  { eapply regex_search_has_marker. vm_compute. reflexivity. }
  destruct (X11_identify_decode_method _ H) as [enc [before [c [rest [He _]]]]].
  exists enc. vm_compute in He. injection He as <-.
  repeat split.
Defined.

(** ** Encoded words *)

Lemma lstrip_spaces (ws w : pystr) :
  Forall (fun c => isspace c = true) ws ->
  match w with [] => True | c :: _ => isspace c = false end ->
  lstrip (ws ++ w) = w.
Proof.
  intros Hws Hw. induction Hws as [|c ws Hc _ IH]; cbn [app lstrip].
  - destruct w as [|c w]; [reflexivity|]. cbn [lstrip]. rewrite Hw. reflexivity.
  - rewrite Hc. exact IH.
Qed.

Lemma strip_word (ws mid : pystr) (a z : N) :
  Forall (fun c => isspace c = true) ws ->
  isspace a = false -> isspace z = false ->
  strip (ws ++ a :: mid ++ [z]) = a :: mid ++ [z].
Proof.
  intros Hws Ha Hz. unfold strip.
  rewrite (lstrip_spaces ws (a :: mid ++ [z]) Hws Ha).
  assert (E : rev (a :: mid ++ [z]) = z :: rev (a :: mid)).
  { change (a :: mid ++ [z]) with ((a :: mid) ++ [z]).
    rewrite rev_app_distr. reflexivity. }
  rewrite E. cbn [lstrip]. rewrite Hz. rewrite <- E. apply rev_involutive.
Qed.

Lemma split_on_no_sep (sep : N) (s cur : pystr) :
  ~ In sep s -> split_on sep cur s = [rev cur ++ s].
Proof.
  revert cur. induction s as [|c s IH]; intros cur H; cbn [split_on].
  - rewrite app_nil_r. reflexivity.
  - destruct (N.eqb_spec c sep) as [->|Hne]; [exfalso; apply H; left; reflexivity|].
    rewrite IH by (intros Hin; apply H; right; exact Hin).
    cbn [rev]. rewrite <- app_assoc. reflexivity.
Qed.

Lemma split_on_at_sep (sep : N) (s rest cur : pystr) :
  ~ In sep s ->
  split_on sep cur (s ++ sep :: rest) = (rev cur ++ s) :: split_on sep [] rest.
Proof.
  revert cur. induction s as [|c s IH]; intros cur H; cbn [app split_on].
  - rewrite N.eqb_refl, app_nil_r. reflexivity.
  - destruct (N.eqb_spec c sep) as [->|Hne]; [exfalso; apply H; left; reflexivity|].
    rewrite IH by (intros Hin; apply H; right; exact Hin).
    cbn [rev]. rewrite <- app_assoc. reflexivity.
Qed.

Lemma split_on_folded (rest : list pystr) (line cur : pystr) :
  Forall (fun l => ~ In LF l) (line :: rest) ->
  split_on LF cur (folded (line :: rest))
  = (rev cur ++ line) :: map (fun l => 32 :: l) rest.
Proof.
  revert line cur. induction rest as [|l2 rest IH]; intros line cur H.
  - cbn [folded map]. inversion H; subst. apply split_on_no_sep. assumption.
  - inversion H as [|? ? Hl Hrest]; subst.
    change (folded (line :: l2 :: rest))
      with (line ++ LF :: (32 :: folded (l2 :: rest))).
    rewrite split_on_at_sep by assumption. cbn [map]. f_equal.
    change (split_on LF [] (32 :: folded (l2 :: rest)))
      with (split_on LF [32] (folded (l2 :: rest))).
    exact (IH l2 [32] Hrest).
Qed.

Lemma split_lines_folded (lines : list pystr) :
  Forall (fun l => ~ In LF l) lines ->
  split_lines (folded lines) = continuation_lines lines.
Proof.
  intros H. destruct lines as [|line rest]; [reflexivity|].
  exact (split_on_folded rest line [] H).
Qed.

Lemma marker_at_head (s : pystr) : marker_at s -> marker_head s.
Proof.
  intros [cs [c [rest [[-> | ->] [_ ->]]]]]; eexists _, _; split;
    try reflexivity; auto.
Qed.

Lemma short_tail_no_head (pre suf : pystr) :
  [63; 61] = pre ++ suf -> ~ marker_head suf.
Proof.
  intros Hs [x [rest [-> _]]].
  destruct pre as [|p1 [|p2 [|p3 pre]]]; cbn in Hs; try discriminate.
Qed.

(** A body without a question mark, closed by [?=], holds no marker ... *)
Lemma no_head_without_question (body : pystr) :
  ~ In 63 body ->
  forall pre suf, body ++ [63; 61] = pre ++ suf -> ~ marker_head suf.
Proof.
  induction body as [|c body IH]; intros Hq pre suf Hs.
  - exact (short_tail_no_head pre suf Hs).
  - destruct pre as [|p pre].
    + cbn [app] in Hs. subst suf. intros [x [rest [E Hx]]].
      injection E as -> E.
      destruct body as [|d body]; cbn [app] in E.
      * inversion E; subst. destruct Hx; discriminate.
      * inversion E; subst. apply Hq. right. left. reflexivity.
    + cbn [app] in Hs. injection Hs as _ Hs.
      exact (IH (fun Hin => Hq (or_intror Hin)) pre suf Hs).
Qed.

(** ... and so does a body without an equals sign. *)
Lemma no_head_without_equals (body : pystr) :
  ~ In 61 body ->
  forall pre suf, body ++ [63; 61] = pre ++ suf -> ~ marker_head suf.
Proof.
  induction body as [|c body IH]; intros Hq pre suf Hs.
  - exact (short_tail_no_head pre suf Hs).
  - destruct pre as [|p pre].
    + cbn [app] in Hs. subst suf. intros [x [rest [E Hx]]].
      injection E as -> E. apply Hq. left. reflexivity.
    + cbn [app] in Hs. injection Hs as _ Hs.
      exact (IH (fun Hin => Hq (or_intror Hin)) pre suf Hs).
Qed.

Lemma subject_split_nowhere (s cur : pystr) :
  (forall pre suf, s = pre ++ suf -> ~ marker_head suf) ->
  SubjectDecoder.regex_split 0 cur s = [rev cur ++ s].
Proof.
  revert cur. induction s as [|c s IH]; intros cur H.
  - simpl. rewrite app_nil_r. reflexivity.
  - rewrite subject_split_cons.
    destruct (SubjectDecoder.regex_match (c :: s)) as [[m r]|] eqn:E.
    + exfalso. apply (H [] (c :: s) eq_refl). apply marker_at_head.
      apply regex_match_marker. eauto.
    + rewrite IH.
      * simpl. rewrite <- app_assoc. reflexivity.
      * intros pre suf Hs. apply (H (c :: pre) suf). simpl. congruence.
Qed.

Lemma split_after_prefix (charset t : pystr) (selector : N) :
  charset = py "utf-8" \/ charset = py "iso-2022-jp" ->
  selector = 66 \/ selector = 81 ->
  SubjectDecoder.regex_split 0 []
    (py "=?" ++ charset
       ++ [SubjectDecoder.QUESTION; selector; SubjectDecoder.QUESTION] ++ t)
  = [] :: charset :: SubjectDecoder.regex_split 0 [] t.
Proof. intros [-> | ->] [-> | ->]; reflexivity. Qed.

Lemma search_at_prefix (charset t : pystr) (selector : N) :
  charset = py "utf-8" \/ charset = py "iso-2022-jp" ->
  selector = 66 \/ selector = 81 ->
  SubjectDecoder.regex_search
    (py "=?" ++ charset
       ++ [SubjectDecoder.QUESTION; selector; SubjectDecoder.QUESTION] ++ t)
  = Some {| SubjectDecoder.group0 :=
              py "=?" ++ charset
                ++ [SubjectDecoder.QUESTION; selector; SubjectDecoder.QUESTION];
            SubjectDecoder.group1 := charset |}.
Proof. intros [-> | ->] [-> | ->]; reflexivity. Qed.

(** A line that is one encoded word, after any white space: the first marker
    gives the charset and the method, and the text handed on is the body
    with the closing [?=]. *)
Lemma identify_word (ws charset body : pystr) (selector : N) :
  Forall (fun c => isspace c = true) ws ->
  charset = py "utf-8" \/ charset = py "iso-2022-jp" ->
  selector = 66 \/ selector = 81 ->
  (forall pre suf, body ++ [63; 61] = pre ++ suf -> ~ marker_head suf) ->
  SubjectDecoder._identify_decode_method (ws ++ encoded_word charset selector body)
  = Ok {| SubjectDecoder.transfer_method :=
            if selector =? 66 then py "base64" else py "quoted-printable";
          SubjectDecoder.charset := charset;
          SubjectDecoder.text := body ++ py "?=" |}.
Proof.
  intros Hws Hcs Hsel Hbody.
  unfold SubjectDecoder._identify_decode_method. cbv zeta.
  assert (Es : strip (ws ++ encoded_word charset selector body)
               = encoded_word charset selector body).
  { unfold encoded_word.
    replace (py "=?" ++ charset
               ++ [SubjectDecoder.QUESTION; selector; SubjectDecoder.QUESTION]
               ++ body ++ py "?=")
      with (61 :: (63 :: charset
                     ++ [SubjectDecoder.QUESTION; selector; SubjectDecoder.QUESTION]
                     ++ body ++ [63]) ++ [61]).
    - apply strip_word; [exact Hws | reflexivity | reflexivity].
    - change (py "=?") with [61; 63]. change (py "?=") with [63; 61].
      cbn [app]. rewrite <- app_assoc. cbn [app]. rewrite <- app_assoc.
      reflexivity. }
  rewrite Es. unfold encoded_word.
  rewrite (search_at_prefix charset (body ++ py "?=") selector Hcs Hsel).
  cbn [SubjectDecoder.group0 SubjectDecoder.group1].
  rewrite index_neg2_group0. cbn [bind].
  rewrite (split_after_prefix charset (body ++ py "?=") selector Hcs Hsel).
  change (py "?=") with [63; 61].
  rewrite (subject_split_nowhere (body ++ [63; 61]) [] Hbody).
  reflexivity.
Qed.

Lemma encoded_word_length (charset body : pystr) (selector : N) :
  charset = py "utf-8" \/ charset = py "iso-2022-jp" ->
  (10 <= List.length (encoded_word charset selector body))%nat.
Proof.
  intros [-> | ->]; unfold encoded_word; rewrite !length_app;
    [change (List.length (py "utf-8")) with 5%nat
    |change (List.length (py "iso-2022-jp")) with 11%nat];
    change (List.length (py "=?")) with 2%nat; cbn [List.length]; lia.
Qed.

Lemma encoded_word_no_LF (charset body : pystr) (selector : N) :
  charset = py "utf-8" \/ charset = py "iso-2022-jp" ->
  selector = 66 \/ selector = 81 ->
  ~ In LF body ->
  ~ In LF (encoded_word charset selector body).
Proof.
  intros Hcs Hsel Hb. unfold encoded_word. rewrite !in_app_iff.
  intros [H | [H | [H | [H | H]]]].
  - vm_compute in H. intuition discriminate.
  - destruct Hcs as [-> | ->]; vm_compute in H; intuition discriminate.
  - destruct Hsel as [-> | ->]; vm_compute in H; intuition discriminate.
  - exact (Hb H).
  - vm_compute in H. intuition discriminate.
Qed.

Lemma body_no_head (body : pystr) :
  ~ In 63 body \/ ~ In 61 body ->
  forall pre suf, body ++ [63; 61] = pre ++ suf -> ~ marker_head suf.
Proof.
  intros [H | H]; [apply no_head_without_question | apply no_head_without_equals];
    exact H.
Qed.

Lemma decode_lines_words {R : PyRuntime} (lines texts : list pystr) :
  Forall2 (fun line text =>
             exists ws word,
               line = ws ++ word
               /\ Forall (fun c => isspace c = true) ws
               /\ word_decodes word text) lines texts ->
  SubjectDecoder.decode_lines lines = Ok texts.
Proof.
  intros H. induction H as [|line text lines texts Hl _ IH]; [reflexivity|].
  destruct Hl as [ws [word [-> [Hws [cs [sel [body
    [Hcs [Hsel [Hbody [Hlf [-> Hdec]]]]]]]]]]]].
  cbn [SubjectDecoder.decode_lines].
  assert (El : (len (ws ++ encoded_word cs sel body) <? 10) = false).
  { apply N.ltb_ge. unfold len. rewrite length_app.
    pose proof (encoded_word_length cs body sel Hcs). lia. }
  rewrite El.
  rewrite (identify_word ws cs body sel Hws Hcs Hsel (body_no_head body Hbody)).
  cbn [bind]. unfold SubjectDecoder._decode_line.
  cbn [SubjectDecoder.text SubjectDecoder.charset SubjectDecoder.transfer_method].
  unfold ContentDecoder, method_of in Hdec. rewrite Hdec. cbn [bind].
  rewrite IH. reflexivity.
Qed.

Lemma folded_head (line : pystr) (rest : list pystr) :
  exists more, folded (line :: rest) = line ++ more.
Proof.
  destruct rest as [|l2 rest].
  - exists []. cbn [folded]. rewrite app_nil_r. reflexivity.
  - eexists. reflexivity.
Qed.

Lemma folded_words_decode {R : PyRuntime} (words texts : list pystr) :
  Forall2 word_decodes words texts ->
  SubjectDecoder.call (folded words) = Ok (List.concat texts).
Proof.
  intros H. destruct H as [|word text words texts Hw Hrest]; [reflexivity|].
  assert (Hlf : Forall (fun l => ~ In LF l) (word :: words)).
  { assert (G : forall ws ts, Forall2 word_decodes ws ts ->
                  Forall (fun l => ~ In LF l) ws).
    { intros ws ts F. induction F as [|w t ws ts Hd _ IHF]; constructor; [|exact IHF].
      destruct Hd as [cs [sel [body [Hcs [Hsel [_ [Hl [-> _]]]]]]]].
      exact (encoded_word_no_LF cs body sel Hcs Hsel Hl). }
    exact (G _ _ (Forall2_cons _ _ Hw Hrest)). }
  assert (Hreq : SubjectDecoder._is_required_to_decode (folded (word :: words)) = true).
  { destruct (folded_head word words) as [more ->].
    destruct Hw as [cs [sel [body [Hcs [Hsel [_ [_ [-> _]]]]]]]].
    unfold SubjectDecoder._is_required_to_decode, encoded_word.
    repeat rewrite <- app_assoc.
    rewrite (search_at_prefix cs _ sel Hcs Hsel). reflexivity. }
  unfold SubjectDecoder.call. rewrite Hreq. cbn [negb].
  unfold SubjectDecoder._decode_subject. cbv zeta.
  rewrite (split_lines_folded _ Hlf). cbn [continuation_lines].
  rewrite (decode_lines_words (word :: map (fun l => 32 :: l) words) (text :: texts)).
  - reflexivity.
  - constructor.
    + exists [], word. split; [reflexivity | split; [constructor | exact Hw]].
    + clear Hlf Hreq Hw. induction Hrest as [|w t ws ts Hd _ IHr]; cbn [map];
        constructor; [|exact IHr].
      exists [32], w. split; [reflexivity | split; [|exact Hd]].
      constructor; [reflexivity | constructor].
Qed.

(** ** Encoded words under the reference runtime *)

(** The closing [?=] after base64 text is skipped by the decoder. *)
Lemma a2b_base64_loop_closing (data : pybytes) :
  CPython.a2b_base64_loop (CPython.b64encode data ++ [x3f; x3d]) 0 0 0 = (data, 0).
Proof.
  induction data as [| x | x y | x y z rest IH] using list_ind3.
  - reflexivity.
  - pose proof (to_N_lt_256 x).
    cbn [CPython.b64encode app]. cbv zeta.
    replace (Byte.to_N x mod 4 * 16) with (Byte.to_N x mod 4 * 16 + 0) by lia.
    rewrite loop_two_chars by lia.
    change (CPython.a2b_base64_loop [CPython.pad; CPython.pad; x3f; x3d] 2 4 0) with
      (@nil byte, 0).
    rewrite byte_of_N_to_N. reflexivity.
  - pose proof (to_N_lt_256 x). pose proof (to_N_lt_256 y).
    cbn [CPython.b64encode app]. cbv zeta.
    rewrite loop_two_chars by lia.
    replace (Byte.to_N y mod 16 * 4) with (Byte.to_N y mod 16 * 4 + 0) by lia.
    rewrite loop_third_char by lia.
    change (CPython.a2b_base64_loop [CPython.pad; x3f; x3d] 3 2 0) with (@nil byte, 0).
    rewrite byte_of_N_to_N, byte_of_parts_16. reflexivity.
  - pose proof (to_N_lt_256 x). pose proof (to_N_lt_256 y).
    pose proof (to_N_lt_256 z).
    cbn [CPython.b64encode app]. cbv zeta.
    rewrite loop_two_chars by lia.
    rewrite loop_third_char by lia.
    rewrite loop_fourth_char by lia.
    rewrite IH, byte_of_N_to_N, byte_of_parts_16, byte_of_parts_64. reflexivity.
Qed.

Lemma table_b2a_base64_char (v : N) :
  v < 64 -> base64_char (CPython.table_b2a_base64 v) = true.
Proof.
  apply (forall_below 64 (fun v => base64_char (CPython.table_b2a_base64 v))).
  vm_compute. reflexivity.
Qed.

Lemma b64encode_chars (data : pybytes) :
  forallb base64_char (CPython.b64encode data) = true.
Proof.
  induction data as [| x | x y | x y z rest IH] using list_ind3.
  - reflexivity.
  - pose proof (to_N_lt_256 x).
    cbn [CPython.b64encode forallb]. cbv zeta.
    rewrite !table_b2a_base64_char by lia. reflexivity.
  - pose proof (to_N_lt_256 x). pose proof (to_N_lt_256 y).
    cbn [CPython.b64encode forallb]. cbv zeta.
    rewrite !table_b2a_base64_char by lia. reflexivity.
  - pose proof (to_N_lt_256 x). pose proof (to_N_lt_256 y).
    pose proof (to_N_lt_256 z).
    cbn [CPython.b64encode forallb]. cbv zeta.
    rewrite !table_b2a_base64_char by lia. exact IH.
Qed.

Lemma not_in_ascii_text (c : N) (data : pybytes) :
  forallb (fun b => negb (Byte.to_N b =? c)) data = true ->
  ~ In c (ascii_text data).
Proof.
  intros H Hin. unfold ascii_text in Hin. apply in_map_iff in Hin as [b [Hb Hin]].
  rewrite forallb_forall in H. specialize (H b Hin).
  rewrite Hb, N.eqb_refl in H. discriminate.
Qed.

Lemma forallb_weaken {A} (f g : A -> bool) (xs : list A) :
  (forall x, f x = true -> g x = true) ->
  forallb f xs = true -> forallb g xs = true.
Proof.
  intros Hfg H. rewrite forallb_forall in *. intros x Hx. apply Hfg, H, Hx.
Qed.

Lemma ascii_text_app (a b : pybytes) :
  ascii_text (a ++ b) = ascii_text a ++ ascii_text b.
Proof. apply map_app. Qed.

Lemma supported_header_charset (charset : pystr) :
  charset = py "utf-8" \/ charset = py "iso-2022-jp" ->
  In charset supported_charsets.
Proof. intros [-> | ->]; simpl; auto. Qed.

Lemma b64_word_decodes (charset text : pystr) (data : pybytes) :
  charset = py "utf-8" \/ charset = py "iso-2022-jp" ->
  (charset = py "iso-2022-jp" -> ~ In CPython.ESC text) ->
  CPython.encode charset text = Ok data ->
  word_decodes (R := CPython.runtime)
    (encoded_word charset 66 (ascii_text (CPython.b64encode data))) text.
Proof.
  intros Hcs Hesc Henc.
  exists charset, 66, (ascii_text (CPython.b64encode data)).
  split; [exact Hcs | split; [left; reflexivity | split; [| split; [|split]]]].
  - left. apply not_in_ascii_text.
    apply (forallb_weaken base64_char); [|apply b64encode_chars].
    intros b Hb. unfold base64_char in Hb. apply andb_true_iff in Hb as [Hb _].
    exact Hb.
  - apply not_in_ascii_text.
    apply (forallb_weaken base64_char); [|apply b64encode_chars].
    intros b Hb. unfold base64_char in Hb. apply andb_true_iff in Hb as [_ Hb].
    exact Hb.
  - reflexivity.
  - change (py "?=") with (ascii_text [x3f; x3d]).
    rewrite <- ascii_text_app.
    unfold ContentDecoder, Decoder.__init__, Decoder._encode_charset.
    cbn [str_encode CPython.runtime].
    rewrite (encode_seven_bit charset _ (supported_header_charset _ Hcs)).
    + cbn [bind]. unfold Decoder.call, Decoder._decode_with_transfer.
      cbn [Decoder.transfer_method Decoder.bynary Decoder.charset].
      change (str_eqb (method_of 66) (py "base64")) with true. cbv iota.
      unfold Decoder._decode_with_base64.
      cbn [Decoder.bynary b64decode CPython.runtime].
      unfold CPython.a2b_base64. rewrite a2b_base64_loop_closing.
      cbn [N.eqb bind Decoder._decode_charset Decoder.charset].
      cbn [bytes_decode CPython.runtime].
      exact (decode_encode charset text data (supported_header_charset _ Hcs)
               Hesc Henc).
    + rewrite seven_bit_app, b64encode_seven_bit. reflexivity.
Qed.

(** X12: under the reference runtime, a header value folded into
    encoded words [=?charset?B?...?=], one a line, each holding the base64
    encoding of a text in [utf-8] or [iso-2022-jp], is decoded by
    [SubjectDecoder.call] to the texts put together, the closing [?=]
    left on each body notwithstanding. *)
Theorem X12_base64_words_round_trip (texts : list pystr) (coded : list (pystr * pybytes)) :
  Forall2 (fun text cd =>
             (fst cd = py "utf-8" \/ fst cd = py "iso-2022-jp")
             /\ (fst cd = py "iso-2022-jp" -> ~ In CPython.ESC text)
             /\ CPython.encode (fst cd) text = Ok (snd cd)) texts coded ->
  SubjectDecoder.call (R := CPython.runtime)
    (folded (map (fun cd =>
                    encoded_word (fst cd) 66
                      (ascii_text (CPython.b64encode (snd cd)))) coded))
  = Ok (List.concat texts).
Proof.
  intros H. apply folded_words_decode.
  induction H as [|text [cs data] texts coded [Hcs [Hesc Henc]] _ IH];
    cbn [map]; constructor; [|exact IH].
  exact (b64_word_decodes cs text data Hcs Hesc Henc).
Qed.

Lemma a2b_qp_plain (c : byte) (data : pybytes) :
  Byte.to_N c <> 61 ->
  CPython.a2b_qp false (c :: data) = c :: CPython.a2b_qp false data.
Proof.
  intros H. cbn [CPython.a2b_qp]. rewrite (proj2 (N.eqb_neq _ _) H). reflexivity.
Qed.

(** Of the closing [?=] the question mark stays and the equals sign, an
    escape cut short by the end of the data, goes. *)
Lemma a2b_qp_closing (w : pybytes) :
  forallb plain_char w = true ->
  CPython.a2b_qp false (w ++ [x3f; x3d]) = w ++ [x3f].
Proof.
  induction w as [|c w IH]; intros H; [reflexivity|].
  cbn [forallb] in H. apply andb_true_iff in H as [Hc H].
  unfold plain_char in Hc. apply andb_true_iff in Hc as [Hc _].
  apply andb_true_iff in Hc as [_ Hc]. apply negb_true_iff, N.eqb_neq in Hc.
  cbn [app]. rewrite a2b_qp_plain by exact Hc. rewrite (IH H). reflexivity.
Qed.

Lemma plain_seven_bit (w : pybytes) :
  forallb plain_char w = true -> seven_bit w = true.
Proof.
  apply forallb_weaken. intros b Hb. unfold plain_char in Hb.
  apply andb_true_iff in Hb as [Hb _]. apply andb_true_iff in Hb as [Hb _]. exact Hb.
Qed.

Lemma q_word_decodes (charset : pystr) (w : pybytes) :
  charset = py "utf-8" \/ charset = py "iso-2022-jp" ->
  forallb plain_char w = true ->
  (charset = py "iso-2022-jp" -> ~ In CPython.ESC (ascii_text w)) ->
  word_decodes (R := CPython.runtime)
    (encoded_word charset 81 (ascii_text w)) (ascii_text w ++ py "?").
Proof.
  intros Hcs Hw Hesc.
  exists charset, 81, (ascii_text w).
  split; [exact Hcs | split; [right; reflexivity | split; [| split; [|split]]]].
  - right. apply not_in_ascii_text. revert Hw. apply forallb_weaken.
    intros b Hb. unfold plain_char in Hb. apply andb_true_iff in Hb as [Hb _].
    apply andb_true_iff in Hb as [_ Hb]. exact Hb.
  - apply not_in_ascii_text. revert Hw. apply forallb_weaken.
    intros b Hb. unfold plain_char in Hb. apply andb_true_iff in Hb as [_ Hb].
    exact Hb.
  - reflexivity.
  - change (py "?=") with (ascii_text [x3f; x3d]).
    change (py "?") with (ascii_text [x3f]).
    rewrite <- !ascii_text_app.
    pose proof (plain_seven_bit w Hw) as H7.
    unfold ContentDecoder, Decoder.__init__, Decoder._encode_charset.
    cbn [str_encode CPython.runtime].
    rewrite (encode_seven_bit charset _ (supported_header_charset _ Hcs))
      by (rewrite seven_bit_app, H7; reflexivity).
    cbn [bind]. unfold Decoder.call, Decoder._decode_with_transfer.
    cbn [Decoder.transfer_method Decoder.bynary Decoder.charset].
    change (str_eqb (method_of 81) (py "base64")) with false.
    change (str_eqb (method_of 81) (py "quoted-printable")) with true. cbv iota.
    unfold Decoder._decode_with_quoted_printable.
    cbn [Decoder.bynary quopri_decodestring CPython.runtime].
    rewrite (a2b_qp_closing w Hw).
    cbn [bind Decoder._decode_charset Decoder.charset].
    cbn [bytes_decode CPython.runtime].
    apply (decode_encode charset _ _ (supported_header_charset _ Hcs)).
    + intros Hj. rewrite ascii_text_app, in_app_iff. intros [Hin | Hin].
      * exact (Hesc Hj Hin).
      * vm_compute in Hin. intuition discriminate.
    + apply encode_seven_bit; [exact (supported_header_charset _ Hcs)|].
      rewrite seven_bit_app, H7. reflexivity.
Qed.

(** X13: under the reference runtime, an encoded word with selector Q
    whose body is plain seven-bit text is decoded to the body followed by a
    question mark: of the closing [?=] the question mark is kept, and an
    underscore is not turned into a space. *)
Theorem X13_Q_word_keeps_question_mark (charset : pystr) (w : pybytes) :
  charset = py "utf-8" \/ charset = py "iso-2022-jp" ->
  forallb plain_char w = true ->
  (charset = py "iso-2022-jp" -> ~ In CPython.ESC (ascii_text w)) ->
  SubjectDecoder.call (R := CPython.runtime)
    (encoded_word charset 81 (ascii_text w))
  = Ok (ascii_text w ++ py "?").
Proof.
  intros Hcs Hw Hesc.
  pose proof (folded_words_decode (R := CPython.runtime)
                [encoded_word charset 81 (ascii_text w)]
                [ascii_text w ++ py "?"]) as H.
  cbn [folded List.concat] in H. rewrite app_nil_r in H. apply H.
  constructor; [|constructor]. exact (q_word_decodes charset w Hcs Hw Hesc).
Qed.

Lemma X13_Q_word_keeps_question_mark_witness :
  SubjectDecoder.call (R := CPython.runtime)
    (py "=?utf-8?Q?Hello_World?=")
  = Ok (py "Hello_World?").
Proof.
  apply (X13_Q_word_keeps_question_mark (py "utf-8") (pyb "Hello_World")).
  - left; reflexivity.
  - reflexivity.
  - intros H; vm_compute in H; discriminate.
Defined.

Lemma X12_base64_words_round_trip_witness :
  SubjectDecoder.call (R := CPython.runtime)
    (py "=?utf-8?B?Q2Fmw6k=?=" ++ [LF] ++ py " =?iso-2022-jp?B?SGk=?=")
  = Ok (py "Caf" ++ [233] ++ py "Hi").
Proof.
  refine (X12_base64_words_round_trip [py "Caf" ++ [233]; py "Hi"]
            [(py "utf-8", pyb "Caf" ++ [xc3; xa9]); (py "iso-2022-jp", pyb "Hi")] _).
  constructor; [|constructor; [|constructor]]; cbn [fst snd].
  - split; [left; reflexivity | split; [discriminate | reflexivity]].
  - split; [right; reflexivity | split; [|reflexivity]].
    intros _ H. vm_compute in H. intuition discriminate.
Defined.

(** X14: a header value folded into encoded words, one a line, each of
    a charset and selector the pattern knows, is decoded by
    [SubjectDecoder.call] to the concatenation, in order, of what
    [Decoder] makes of each body with its closing [?=]; this holds for
    every runtime. *)
Theorem X14_folded_words_concatenate {R : PyRuntime} (words texts : list pystr) :
  Forall2 word_decodes words texts ->
  SubjectDecoder.call (folded words) = Ok (List.concat texts).
Proof. exact (folded_words_decode words texts). Qed.

Lemma X14_folded_words_concatenate_witness :
  SubjectDecoder.call (R := CPython.runtime)
    (py "=?utf-8?B?aGVsbG8=?=" ++ [LF] ++ py " =?utf-8?Q?_world?=")
  = Ok (py "hello" ++ py "_world?").
Proof.
  refine (X14_folded_words_concatenate (R := CPython.runtime)
            [py "=?utf-8?B?aGVsbG8=?="; py "=?utf-8?Q?_world?="]
            [py "hello"; py "_world?"] _).
  constructor; [|constructor; [|constructor]].
  - exists (py "utf-8"), 66, (py "aGVsbG8=").
    split; [left; reflexivity|]. split; [left; reflexivity|].
    split; [left; intros H; vm_compute in H; intuition discriminate|].
    split; [intros H; vm_compute in H; intuition discriminate|].
    split; [reflexivity | vm_compute; reflexivity].
  - exists (py "utf-8"), 81, (py "_world").
    split; [left; reflexivity|]. split; [right; reflexivity|].
    split; [left; intros H; vm_compute in H; intuition discriminate|].
    split; [intros H; vm_compute in H; intuition discriminate|].
    split; [reflexivity | vm_compute; reflexivity].
Defined.

(** ** SubjectDecoder: the subject, line by line *)

Lemma decode_lines_map {R : PyRuntime} (lines : list pystr) :
  SubjectDecoder.decode_lines lines
  = map_result decode_one (filter long_enough lines).
Proof.
  induction lines as [|line lines IH]; [reflexivity|].
  cbn [filter SubjectDecoder.decode_lines]. unfold long_enough at 1.
  destruct (len line <? 10); cbn [negb]; [exact IH|].
  cbn [map_result]. unfold decode_one at 1.
  destruct (SubjectDecoder._identify_decode_method line) as [enc|]; [|reflexivity].
  cbn [bind]. rewrite IH. reflexivity.
Qed.

(** X15: the decoding of a subject with a marker is the concatenation,
    in order, of the decodings of its lines of ten characters or more, each
    through [_identify_decode_method] and [_decode_line]; shorter lines
    contribute nothing and the first line that raises ends the decoding. *)
Theorem X15_decode_subject_by_lines {R : PyRuntime} (subject : pystr) :
  has_marker subject ->
  SubjectDecoder.call subject =
    (texts <- map_result decode_one (filter long_enough (split_lines subject)) ;;
     Ok (List.concat texts)).
Proof.
  intros H. unfold SubjectDecoder.call, SubjectDecoder._is_required_to_decode.
  destruct (SubjectDecoder.regex_search subject) eqn:E;
    [| apply regex_search_None in E; contradiction].
  cbn [negb]. unfold SubjectDecoder._decode_subject. cbv zeta.
  rewrite decode_lines_map. reflexivity.
Qed.

Lemma X15_decode_subject_by_lines_witness :
  SubjectDecoder.call (R := CPython.runtime)
    (py "=?utf-8?B?aGVsbG8=?=" ++ [LF] ++ py " short")
  = Ok (py "hello").
Proof.
  rewrite (X15_decode_subject_by_lines (R := CPython.runtime)).
  - vm_compute. reflexivity.
  - eapply regex_search_has_marker. vm_compute. reflexivity.
Defined.

(** X16: in a subject with a marker, a line of ten characters or more
    in which no marker occurs once stripped, reached after lines that
    decode, makes [SubjectDecoder.call] raise [AttributeError]. *)
Theorem X16_unmarked_long_line_raises {R : PyRuntime} (subject line : pystr)
    (before after texts : list pystr) :
  has_marker subject ->
  split_lines subject = before ++ line :: after ->
  SubjectDecoder.decode_lines before = Ok texts ->
  (10 <= List.length line)%nat ->
  ~ has_marker (strip line) ->
  SubjectDecoder.call subject = Raise AttributeError.
Proof.
  intros Hm Hsplit Hbefore Hlen Hno.
  unfold SubjectDecoder.call, SubjectDecoder._is_required_to_decode.
  destruct (SubjectDecoder.regex_search subject) eqn:E;
    [| apply regex_search_None in E; contradiction].
  cbn [negb]. unfold SubjectDecoder._decode_subject. cbv zeta.
  rewrite Hsplit, decode_lines_app, Hbefore. cbn [bind].
  cbn [SubjectDecoder.decode_lines].
  rewrite (proj2 (N.ltb_ge (len line) 10)) by (unfold len; lia).
  unfold SubjectDecoder._identify_decode_method. cbv zeta.
  apply regex_search_None in Hno. rewrite Hno. reflexivity.
Qed.

Lemma X16_unmarked_long_line_raises_witness :
  SubjectDecoder.call (R := CPython.runtime)
    (py "=?utf-8?B?aGVsbG8=?=" ++ [LF] ++ py " plain continuation text")
  = Raise AttributeError.
Proof.
  apply (X16_unmarked_long_line_raises (R := CPython.runtime) _
           (py " plain continuation text") [py "=?utf-8?B?aGVsbG8=?="] []
           [py "hello"]).
  - eapply regex_search_has_marker. vm_compute. reflexivity.
  - reflexivity.
  - vm_compute. reflexivity.
  - vm_compute. lia.
  - apply regex_search_None. vm_compute. reflexivity.
Defined.

(** ** The text of an eligible leaf *)

Lemma content_decoder_round_trip (charset transfer_method text : pystr) (data : pybytes) :
  In charset supported_charsets ->
  In transfer_method supported_transfers ->
  (charset = py "iso-2022-jp" -> ~ In CPython.ESC text) ->
  CPython.encode charset text = Ok data ->
  ContentDecoder (R := CPython.runtime)
    (ascii_text (CPython.transfer_encode transfer_method data))
    charset transfer_method = Ok text.
Proof.
  intros Hcs Htm Hesc Henc.
  unfold ContentDecoder, Decoder.__init__, Decoder._encode_charset.
  cbn [str_encode CPython.runtime].
  rewrite (encode_seven_bit charset _ Hcs (transfer_encode_seven_bit _ _)).
  cbn [bind]. unfold Decoder.call, Decoder._decode_with_transfer.
  cbn [Decoder.transfer_method Decoder.bynary Decoder.charset].
  destruct Htm as [<- | [<- | []]].
  - change (str_eqb (py "base64") (py "base64")) with true. cbv iota.
    unfold Decoder._decode_with_base64. cbn [Decoder.bynary b64decode CPython.runtime].
    change (CPython.transfer_encode (py "base64") data) with (CPython.b64encode data).
    rewrite a2b_base64_b64encode. cbn [bind Decoder._decode_charset Decoder.charset].
    cbn [bytes_decode CPython.runtime].
    exact (decode_encode charset text data Hcs Hesc Henc).
  - change (str_eqb (py "quoted-printable") (py "base64")) with false.
    change (str_eqb (py "quoted-printable") (py "quoted-printable")) with true.
    cbv iota.
    unfold Decoder._decode_with_quoted_printable.
    cbn [Decoder.bynary quopri_decodestring CPython.runtime].
    change (CPython.transfer_encode (py "quoted-printable") data)
      with (CPython.qp_encode 0 data).
    rewrite a2b_qp_qp_encode. cbn [bind Decoder._decode_charset Decoder.charset].
    cbn [bytes_decode CPython.runtime].
    exact (decode_encode charset text data Hcs Hesc Henc).
Qed.

(** X17: under the reference runtime, for a leaf of content type
    [text/plain] whose transfer encoding is [base64] or [quoted-printable]
    and whose charset is supported, with a payload that is the transfer
    encoding of the charset encoding of [text], [_read_email_text] returns
    the content type, the charset, the transfer encoding and the first
    segment of [text], the text written being recovered in full before the
    cut. *)
Theorem X17_eligible_leaf_text (m : Message) (transfer charset text : pystr)
    (data : pybytes) :
  In transfer supported_transfers ->
  GmailMboxMessage._fetch_encoding_method (LeafMsg m) = Str transfer ->
  occurs_in (py "text/plain") (lower (PyRuntime := CPython.runtime) (get_content_type m)) ->
  GmailMboxMessage._fetch_charset (R := CPython.runtime) (LeafMsg m) = Ok charset ->
  In charset supported_charsets ->
  (charset = py "iso-2022-jp" -> ~ In CPython.ESC text) ->
  CPython.encode charset text = Ok data ->
  get_payload m = inl (ascii_text (CPython.transfer_encode transfer data)) ->
  GmailMboxMessage._read_email_text (R := CPython.runtime) (LeafMsg m) =
    (out <- EmailDecoder.first_of_text text ;;
     Ok (get_content_type m, charset, Str transfer, out)).
Proof.
  intros Htm Hfe Hct Hfc Hcs Hesc Henc Hpay.
  unfold GmailMboxMessage._read_email_text, GmailMboxMessage._create_readable_text.
  rewrite Hfe, Hfc. cbn [GmailMboxMessage._fetch_content_type bind].
  assert (G : GmailMboxMessage._is_readable_text (R := CPython.runtime)
                (get_content_type m) (Str transfer) charset = Ok true).
  { destruct (is_readable_text_spec (R := CPython.runtime)
                (get_content_type m) transfer charset) as [readable [Hr Hiff]].
    rewrite Hr. f_equal. apply Hiff.
    split; [exact Hct | split; [|exact Hcs]].
    destruct Htm as [<- | [<- | []]]; simpl; auto. }
  rewrite G. cbn [bind].
  unfold GmailMboxMessage.leaf_payload. rewrite Hpay. cbn [bind].
  pose proof (content_decoder_round_trip charset transfer text data
                Hcs Htm Hesc Henc) as RT.
  unfold ContentDecoder in RT. unfold EmailDecoder.__init__.
  destruct (Decoder.__init__ _ charset transfer) as [self|]; [|discriminate].
  cbn [bind] in RT |- *.
  unfold EmailDecoder.fetch_first_email. rewrite RT. cbn [bind].
  destruct (EmailDecoder.first_of_text text); reflexivity.
Qed.

Lemma X17_eligible_leaf_text_witness :
  GmailMboxMessage._read_email_text (R := CPython.runtime)
    (LeafMsg (text_part (py "quoted-printable")
                (ascii_text (CPython.transfer_encode (py "quoted-printable")
                               (pyb "Caf" ++ [xc3; xa9; x0a] ++ pyb "> From: x")))))
  = Ok (py "text/plain", py "utf-8", Str (py "quoted-printable"),
        py "Caf" ++ [233]).
Proof.
  rewrite (X17_eligible_leaf_text _ (py "quoted-printable") (py "utf-8")
             (py "Caf" ++ [233; 10] ++ py "> From: x")
             (pyb "Caf" ++ [xc3; xa9; x0a] ++ pyb "> From: x")).
  - vm_compute. reflexivity.
  - right; left; reflexivity.
  - reflexivity.
  - exists [], []. reflexivity.
  - reflexivity.
  - left; reflexivity.
  - intros H; vm_compute in H; discriminate.
  - vm_compute. reflexivity.
  - reflexivity.
Defined.
